(** * The HL7 synthetic data generator: the command-line driver

    A shallow embedding of [generator/gen_synthetic_data_hl7.py] (the
    command-line driver) and of the matching cells of the notebook
    [SyntheticGenerator_HL7.py].  The driver is a straight-line script
    around one bounded loop; it calls into the support modules
    [timeseries], [hl7], [model_data_hl7], [pseudoperson] and
    [synthetic_data_model], which are taken here as an interface
    ([Collaborators]).

    Conventions of the model:
    - [print] and the calls into the support modules are recorded in a
      trace of [Event]s, in program order;
    - [sys.exit], a failed [assert] and an uncaught exception end the run
      with a [Halt];
    - the random generator is one mutable object in the script; here every
      call that receives it returns the state it leaves behind, and that
      state is what the next call receives;
    - wall-clock timing lines and purely informational prints are left out
      of the trace. *)

From Stdlib Require Import ZArith List Bool Lia Floats Uint63.
From Stdlib Require Import Strings.String Strings.Ascii.
From Stdlib Require Import Sorting.Sorted.
Import ListNotations.

Open Scope string_scope.
Open Scope list_scope.
Open Scope Z_scope.

(** ** Python strings and paths *)

Module Py.

(** [s.rfind(c)] for a one-character [c]: the highest index, or [-1]. *)
Fixpoint rfind_from (c : ascii) (s : string) (i last : Z) : Z :=
  match s with
  | EmptyString => last
  | String a s' => rfind_from c s' (i + 1) (if Ascii.eqb a c then i else last)
  end.

Definition rfind (c : ascii) (s : string) : Z := rfind_from c s 0 (-1).

(** [s[:i]] and [s[i:]] for [0 <= i]. *)
Definition slice_to (s : string) (i : Z) : string :=
  substring 0 (Z.to_nat i) s.

Definition slice_from (s : string) (i : Z) : string :=
  substring (Z.to_nat i) (String.length s - Z.to_nat i) s.

(** [s[i:j]] for [0 <= i]. *)
Definition slice (s : string) (i j : Z) : string :=
  substring (Z.to_nat i) (Z.to_nat (j - i)) s.

(** [s.endswith(suffix)] *)
Definition endswith (s suffix : string) : bool :=
  let n := String.length s in
  let m := String.length suffix in
  (m <=? n)%nat && String.eqb (substring (n - m) m s) suffix.

Definition lower_ascii (c : ascii) : ascii :=
  let n := nat_of_ascii c in
  if ((65 <=? n) && (n <=? 90))%nat then ascii_of_nat (n + 32) else c.

(** [s.lower()] on ASCII text. *)
Fixpoint lower (s : string) : string :=
  match s with
  | EmptyString => EmptyString
  | String c s' => String (lower_ascii c) (lower s')
  end.

Fixpoint all_dots (s : string) : bool :=
  match s with
  | EmptyString => true
  | String c s' => Ascii.eqb c "." && all_dots s'
  end.

(** [os.path.splitext(p)] (posixpath): the extension starts at the last
    dot of the last path component, unless that component has nothing
    but dots before it. *)
Definition splitext (p : string) : string * string :=
  let sepIndex := rfind "/" p in
  let dotIndex := rfind "." p in
  if sepIndex <? dotIndex then
    (* skip all leading dots *)
    if all_dots (slice p (sepIndex + 1) dotIndex)
    then (p, "")
    else (slice_to p dotIndex, slice_from p dotIndex)
  else (p, "").

Fixpoint all_slashes (s : string) : bool :=
  match s with
  | EmptyString => true
  | String c s' => Ascii.eqb c "/" && all_slashes s'
  end.

(** [s.rstrip('/')] *)
Fixpoint rstrip_slash (s : string) : string :=
  match s with
  | EmptyString => EmptyString
  | String c s' => if all_slashes s then EmptyString else String c (rstrip_slash s')
  end.

(** [os.path.split(p)] (posixpath) *)
Definition split (p : string) : string * string :=
  let i := rfind "/" p + 1 in
  let head := slice_to p i in
  let tail := slice_from p i in
  (if negb (String.eqb head "") && negb (all_slashes head)
   then rstrip_slash head else head, tail).

(** Truth value of an optional [int] / [str] argument ([if args.x:]). *)
Definition truthy_int (o : option Z) : bool :=
  match o with Some z => negb (z =? 0) | None => false end.

Definition truthy_str (o : option string) : bool :=
  match o with Some s => negb (String.eqb s "") | None => false end.

End Py.

(** ** numpy on one-dimensional integer arrays *)

Definition Signal := list Z.

Module Np.

(** [a - b] with numpy's broadcasting rule for one dimension: equal
    lengths, or one side of length 1; anything else raises
    [ValueError]. *)
Definition sub (a b : Signal) : option Signal :=
  if (List.length a =? List.length b)%nat
  then Some (map (fun p => fst p - snd p) (combine a b))
  else match a, b with
       | [x], _ => Some (map (fun y => x - y) b)
       | _, [y] => Some (map (fun x => x - y) a)
       | _, _ => None
       end.

(** [np.any(a)]: some entry is nonzero. *)
Definition any (a : Signal) : bool := existsb (fun x => negb (x =? 0)) a.

(** [int(np.sum(a))] *)
Definition sum (a : Signal) : Z := fold_right Z.add 0 a.

End Np.

(** ** Calendar days

    Dates are proleptic Gregorian ordinals, as [datetime.date.toordinal]
    numbers them. *)

Definition Date := Z.

Module Calendar.

Definition is_leap (year : Z) : bool :=
  (year mod 4 =? 0) && (negb (year mod 100 =? 0) || (year mod 400 =? 0)).

Definition days_before_year (year : Z) : Z :=
  let y := year - 1 in y * 365 + y / 4 - y / 100 + y / 400.

Definition days_before_month (year month : Z) : Z :=
  nth (Z.to_nat month) [0; 0; 31; 59; 90; 120; 151; 181; 212; 243; 273; 304; 334] 0
  + (if (2 <? month) && is_leap year then 1 else 0).

Definition ymd2ord (year month day : Z) : Date :=
  days_before_year year + days_before_month year month + day.

(** The maximum HL7 date, [9999-12-31]. *)
Definition MAX_DATE : Date := ymd2ord 9999 12 31.

End Calendar.

(** ** The escalation step of the sparse-segment loop

    [threshold_inc = 0.1] and [delta = attempts * threshold_inc] are
    binary64 values. *)

Definition threshold_inc : float := 0x1.999999999999ap-4%float.

Definition delta_of (attempts : Z) : float :=
  PrimFloat.mul (PrimFloat.of_uint63 (Uint63.of_Z attempts)) threshold_inc.

(** ** Command line, platform and diagnostics *)

(** What [argparse] hands to the script. *)
Record Args := {
  arg_hl7_dir : string;
  arg_jurisdiction : string;
  arg_condition_code : string;
  arg_outfile : option string;
  arg_num_samples : option Z;
  arg_rng_seed : option Z;
  arg_debug : bool;
  arg_disable_grouping : bool;
  arg_syphilis_total : bool
}.

(** What the script asks of the interpreter and the operating system. *)
Record Platform := {
  os_path_isdir : string -> bool;
  py_int : string -> option Z;     (* [int(s)]; [None] stands for ValueError *)
  system_time : Z                  (* what an unseeded generator is seeded from *)
}.

Definition _EXT_CSV : string := ".csv".
Definition _EXT_JSON : string := ".json".

(** The lines the script prints, by the [print] statement that writes
    them, with the values formatted into them. *)
Inductive Diagnostic :=
| MsgSupportedExtensions                                   (* line 178 *)
| MsgArguments (outfile : option string) (num_samples rng_seed : option Z)
               (disable_grouping syphilis_total : bool)    (* lines 182-190 *)
| MsgNoHl7Dir (hl7_dir : string)                           (* line 204 *)
| MsgCodeGroup (code_list : list Z)                        (* line 213 *)
| MsgNoData (jurisdiction : string) (code_list : list Z)   (* line 218 *)
| MsgInputFiles (infile_list : list string)                (* lines 221-223 *)
| MsgUnsupportedFormat (ext : string)                      (* lines 245-248 *)
| MsgBuildOutputFilepath                                   (* line 262 *)
| MsgOutputFile (path : string)                            (* line 265 *)
| MsgInvalidNumSamples (num_samples : Z)                   (* lines 273-275 *)
| MsgInvalidOutputFieldsLength (header fields : list string) (* lines 306-310 *)
| MsgInvalidOutputFieldsAt (from_header from_fields : string) (* lines 315-317 *)
| MsgTotalCounts (original synthetic : Z)                  (* lines 400-401 *)
| MsgCopulaFatal                                           (* line 424 *)
| MsgWritingOutputFile (path : string).                    (* line 463 *)

Inductive PyException :=
| ValueError
| IndexError
| AssertionError
| NameError.

(** How a run ends before its last statement. *)
Inductive Halt :=
| SysExit (status : Z)              (* [sys.exit(status)] *)
| ErrorExit (stage : string)        (* [model.error_exit(rng, stage)] *)
| Uncaught (e : PyException).

(** One synthetic record's dates: the anchor date and the date fields
    derived from it. *)
Record DateTuple := {
  anchor_date : Date;
  derived_dates : list Date
}.

Definition Tuples := list (list Z).

(** ** The support modules, as the driver sees them *)

Section Driver.

(** The generator state, the Kendall's tau matrix, the inverse CDFs,
    the loaded file records and the remapped results are opaque to the
    driver. *)
Context {Rng Tau Cdfs FileData Results : Type}.

(** What [timeseries.modify_sparse_segments(rng, synthetic_fourier, delta)]
    leaves behind: the array it returns, the contents of the array it
    was handed (a numpy array is passed by reference, so the callee may
    write to it) and the generator state. *)
Record RepairOut := {
  repaired : Signal;
  input_after : Signal;
  rng_after : Rng
}.

Record DateTuplesOut := {
  date_tuple_list : list DateTuple;
  ceiling_reached : bool       (* the deriver stopped at the maximum date *)
}.

Record Collaborators := {
  (* hl7 *)
  variable_names_in : list string;     (* [NAME_AGE; ...; NAME_PREGNANT] *)
  OUTPUT_FIELDS : list string;
  (* synthetic_data_model *)
  get_grouped_codes : Z -> bool -> list Z;
  build_input_filepaths : string -> string -> list Z -> list string;
  default_output_dir : option bool -> string;
  default_output_file_name : string -> list Z -> bool -> string;
  build_output_filepath : string -> string -> option string;
  init_rng : option Z -> Z -> Rng;
  copula_n_variable_model :
    Z -> list string -> Tau -> Cdfs -> Rng -> (option Tuples * option Tau) * Rng;
  (* model_data_hl7 *)
  init_model_data :
    list string -> list string -> Rng ->
    (option (list string) * Tau * Cdfs * FileData) * Rng;
  get_preprocessed_header : list string;
  signal_from_anchor_date : FileData -> list Date * Signal;
  remap_synthetic_results : Tuples -> list string -> Results;
  generate_date_tuples :
    Z -> Signal -> list Date -> list string -> Results -> Date -> Rng ->
    DateTuplesOut * Rng;
  (* timeseries *)
  gen_synthetic_fourier : Rng -> Signal -> float -> Signal * Rng;
  modify_sparse_segments : Rng -> Signal -> float -> RepairOut;
  (* pseudoperson *)
  correct_invalid_pseudopersons :
    Z -> list string -> Tuples -> Tau -> Cdfs -> Rng -> Tuples * Rng
}.

(** ** Traces *)

Inductive Call :=
| EnableDebug
| InitRng (rng_seed : option Z) (rng : Rng)
| InitModelData (infile_list : list string) (rng_in rng_out : Rng)
| SignalFromAnchorDate
| GenSyntheticFourier (rng_in : Rng) (signal result : Signal) (rng_out : Rng)
| ModifySparseSegments (rng_in : Rng) (input : Signal) (delta : float)
                       (result : Signal) (rng_out : Rng)
| CopulaNVariableModel (rng_in : Rng) (n : Z) (ok : bool) (rng_out : Rng)
| CorrectInvalidPseudopersons (rng_in : Rng) (n : Z) (rng_out : Rng)
| RemapSyntheticResults
| GenerateDateTuples (rng_in : Rng) (n : Z) (out : DateTuplesOut) (rng_out : Rng)
| WriteOutputFile (path : string) (n : Z) (series : Signal) (dates : list Date)
                  (variable_names : list string) (results : Results)
                  (max_date : Date) (date_tuples : list DateTuple).

Inductive Event :=
| Print (d : Diagnostic)
| Called (c : Call).

(** A run: the trace so far, and either the way it halted or a value. *)
Definition Run (A : Type) : Type := list Event * (Halt + A).

Definition ret {A} (a : A) : Run A := ([], inr a).

Definition bind {A B} (m : Run A) (f : A -> Run B) : Run B :=
  match m with
  | (t, inl h) => (t, inl h)
  | (t, inr a) => let (t', r) := f a in (t ++ t', r)
  end.

Definition emit (e : Event) : Run unit := ([e], inr tt).
Definition print (d : Diagnostic) : Run unit := emit (Print d).
Definition called (c : Call) : Run unit := emit (Called c).
Definition halt {A} (h : Halt) : Run A := ([], inl h).
Definition sys_exit {A} (status : Z) : Run A := halt (SysExit status).
Definition raise {A} (e : PyException) : Run A := halt (Uncaught e).
Definition py_assert (b : bool) : Run unit :=
  if b then ret tt else raise AssertionError.

Definition trace {A} (r : Run A) : list Event := fst r.
Definition outcome {A} (r : Run A) : Halt + A := snd r.

End Driver.

Arguments Collaborators : clear implicits.
Arguments RepairOut : clear implicits.
Arguments Call : clear implicits.
Arguments Event : clear implicits.
Arguments Run : clear implicits.

Declare Scope run_scope.
Delimit Scope run_scope with run.
Notation "x <- m ;; k" := (bind m (fun x => k))
  (at level 100, m at next level, right associativity) : run_scope.
Notation "m ;; k" := (bind m (fun _ => k))
  (at level 100, right associativity) : run_scope.

(** ** The command-line driver, [gen_synthetic_data_hl7.py] *)

Section Main.

Context {Rng Tau Cdfs FileData Results : Type}.
Variable C : Collaborators Rng Tau Cdfs FileData Results.
Variable P : Platform.

Local Open Scope run_scope.
Local Abbreviation Run := (Run Rng Results).

(** The optional arguments and flags after lines 153-179. *)
Record Options := {
  outfile : option string;
  num_samples : option Z;
  rng_seed : option Z;
  disable_grouping : bool;
  syphilis_total : bool
}.

(** Lines 153-191: defaults, then the arguments that replace them.
    [num_samples] keeps its default: no statement assigns it from
    [args.num_samples]. *)
Definition read_options (args : Args) : Run Options :=
  let num_samples := None in
  let rng_seed :=
    if Py.truthy_int (arg_rng_seed args) then arg_rng_seed args else None in
  let disable_grouping := if arg_disable_grouping args then true else false in
  let syphilis_total := if arg_syphilis_total args then true else false in
  outfile <-
    match arg_outfile args with
    | Some outfile =>
        if Py.truthy_str (Some outfile) then
          if negb (Py.endswith outfile "csv") && negb (Py.endswith outfile "json")
          then print MsgSupportedExtensions ;; sys_exit (-1)
          else ret (Some outfile)
        else ret None
    | None => ret None
    end ;;
  print (MsgArguments outfile num_samples rng_seed disable_grouping syphilis_total) ;;
  ret {| outfile := outfile; num_samples := num_samples; rng_seed := rng_seed;
         disable_grouping := disable_grouping; syphilis_total := syphilis_total |}.

(** Lines 225-254: directory and name of the output file.  [ext] and
    [output_dir] are [str] objects, so the two [is None] tests fail. *)
Definition output_location (o : Options) (jurisdiction : string) (code_list : list Z)
  : Run (string * string) :=
  match outfile o with
  | None =>
      ret (default_output_dir C (Some false),
           default_output_file_name C jurisdiction code_list (syphilis_total o))
  | Some outfile =>
      let ext : option string := Some (snd (Py.splitext outfile)) in
      outfile <-
        match ext with
        | None => ret (outfile ++ _EXT_CSV)%string
        | Some ext =>
            let ext := Py.lower ext in
            if negb (String.eqb _EXT_CSV ext) && negb (String.eqb _EXT_JSON ext)
            then print (MsgUnsupportedFormat ext) ;; sys_exit (-1)
            else ret outfile
        end ;;
      let output_dir : option string := Some (fst (Py.split outfile)) in
      let output_file_name := snd (Py.split outfile) in
      ret (match output_dir with
           | None => default_output_dir C None
           | Some d => d
           end, output_file_name)
  end.

(** Lines 270-276: check the sample count, if any. *)
Definition check_sample_count (num_samples : option Z) : Run unit :=
  match num_samples with
  | Some n =>
      if n <=? 0 then print (MsgInvalidNumSamples n) ;; sys_exit (-1) else ret tt
  | None => ret tt
  end.

Record Setup := {
  infile_list : list string;
  code_list : list Z;
  output_file_path : string;
  rng0 : Rng
}.

(** Lines 197-276: everything before the input files are loaded. *)
Definition prepare (args : Args) (o : Options) : Run Setup :=
  let hl7_dir := arg_hl7_dir args in
  let jurisdiction := arg_jurisdiction args in
  (if arg_debug args then called EnableDebug else ret tt) ;;
  (if negb (os_path_isdir P hl7_dir)
   then print (MsgNoHl7Dir hl7_dir) ;; sys_exit (-1) else ret tt) ;;
  condition_code <-
    match py_int P (arg_condition_code args) with
    | Some c => ret c
    | None => raise ValueError
    end ;;
  let code_list :=
    if negb (disable_grouping o)
    then get_grouped_codes C condition_code (syphilis_total o)
    else [condition_code] in
  print (MsgCodeGroup code_list) ;;
  let infile_list := build_input_filepaths C hl7_dir jurisdiction code_list in
  (if (0 =? List.length infile_list)%nat
   then print (MsgNoData jurisdiction code_list) ;; sys_exit 0 else ret tt) ;;
  print (MsgInputFiles infile_list) ;;
  loc <- output_location o jurisdiction code_list ;;
  output_file_path <-
    match build_output_filepath C (fst loc) (snd loc) with
    | None => print MsgBuildOutputFilepath ;; sys_exit (-1)
    | Some p => ret p
    end ;;
  print (MsgOutputFile output_file_path) ;;
  let rng := init_rng C (rng_seed o) (system_time P) in
  called (InitRng (rng_seed o) rng) ;;
  check_sample_count (num_samples o) ;;
  ret {| infile_list := infile_list; code_list := code_list;
         output_file_path := output_file_path; rng0 := rng |}.

Record Model := {
  variable_names : list string;
  tau_original : Tau;
  cdf_list : Cdfs;
  file_data : FileData;
  rng1 : Rng
}.

(** Lines 284-299.  [model.error_exit] ends the run. *)
Definition load (s : Setup) : Run Model :=
  let '((names, tau, cdfs, fd), rng) :=
    init_model_data C (infile_list s) (variable_names_in C) (rng0 s) in
  called (InitModelData (infile_list s) (rng0 s) rng) ;;
  names <-
    match names with
    | None => halt (ErrorExit "init_model_data")
    | Some names =>
        if negb (List.length (variable_names_in C) =? List.length names)%nat
        then halt (ErrorExit "init_model_data")
        else ret names
    end ;;
  ret {| variable_names := names; tau_original := tau; cdf_list := cdfs;
         file_data := fd; rng1 := rng |}.

(** Lines 313-318: [for i, f in enumerate(HL7.OUTPUT_FIELDS)]; [todo]
    is what the enumeration has not yielded yet. *)
Fixpoint compare_fields (header_list : list string) (i : nat) (todo : list string)
  : Run unit :=
  match todo with
  | [] => ret tt
  | _ :: todo' =>
      match nth_error header_list i, nth_error (OUTPUT_FIELDS C) i with
      | Some h, Some f =>
          if negb (String.eqb h f)
          then print (MsgInvalidOutputFieldsAt h f) ;; sys_exit (-1)
          else compare_fields header_list (S i) todo'
      | _, _ => raise IndexError
      end
  end.

(** Lines 301-318. *)
Definition check_header : Run unit :=
  let header_list := get_preprocessed_header C in
  (if negb (List.length header_list =? List.length (OUTPUT_FIELDS C))%nat
   then print (MsgInvalidOutputFieldsLength header_list (OUTPUT_FIELDS C)) ;;
        sys_exit (-1)
   else ret tt) ;;
  compare_fields header_list 0 (OUTPUT_FIELDS C).

Record Series := {
  dates : list Date;
  signal : Signal;
  str_max_date_orig : Date;
  sample_count_orig : Z;
  synthetic_fourier : Signal;
  rng2 : Rng
}.

(** Lines 326-361: the daily counts and their Fourier reconstruction. *)
Definition signal_processing (m : Model) : Run Series :=
  let '(dates, signal) := signal_from_anchor_date C (file_data m) in
  called SignalFromAnchorDate ;;
  py_assert (List.length signal =? List.length dates)%nat ;;
  let sample_count_orig := Np.sum signal in
  str_max_date_orig <-
    match rev dates with
    | d :: _ => ret d                 (* [dates[-1]] *)
    | [] => raise IndexError
    end ;;
  let '(synthetic_fourier, rng) := gen_synthetic_fourier C (rng1 m) signal 0%float in
  called (GenSyntheticFourier (rng1 m) signal synthetic_fourier rng) ;;
  py_assert (List.length synthetic_fourier =? List.length signal)%nat ;;
  ret {| dates := dates; signal := signal; str_max_date_orig := str_max_date_orig;
         sample_count_orig := sample_count_orig;
         synthetic_fourier := synthetic_fourier; rng2 := rng |}.

(** The variables the sparse-segment loop reads and writes.
    [synthetic_timeseries] is unbound until the first pass assigns it;
    [fourier_array] is what the array named [synthetic_fourier] holds. *)
Record LoopState := {
  attempts : Z;
  fourier_array : Signal;
  synthetic_timeseries : option Signal;
  loop_rng : Rng
}.

(** Lines 368-384: [while attempts < 7].  [attempts] starts at 0 and
    grows by one on every [continue], so [todo] passes of the loop body
    remain exactly when [attempts = 7 - todo]. *)
Fixpoint sparse_segment_loop (todo : nat) (signal : Signal) (st : LoopState)
  : Run LoopState :=
  match todo with
  | O => ret st
  | S todo' =>
      let delta := delta_of (attempts st) in
      let out := modify_sparse_segments C (loop_rng st) (fourier_array st) delta in
      called (ModifySparseSegments (loop_rng st) (fourier_array st) delta
                                   (repaired out) (rng_after out)) ;;
      let st := {| attempts := attempts st;
                   fourier_array := input_after out;
                   synthetic_timeseries := Some (repaired out);
                   loop_rng := rng_after out |} in
      (* compute difference signal *)
      diff_signal <-
        match Np.sub (repaired out) signal with
        | Some d => ret d
        | None => raise ValueError
        end ;;
      (* try again if no difference *)
      if negb (Np.any diff_signal)
      then sparse_segment_loop todo' signal
             {| attempts := attempts st + 1;
                fourier_array := fourier_array st;
                synthetic_timeseries := synthetic_timeseries st;
                loop_rng := loop_rng st |}
      else ret st
  end.

Definition modify_sparse (s : Series) : Run LoopState :=
  sparse_segment_loop 7 (signal s)
    {| attempts := 0; fourier_array := synthetic_fourier s;
       synthetic_timeseries := None; loop_rng := rng2 s |}.

(** Lines 398-405: the number of synthetic tuples to generate. *)
Definition sample_count (o : Options) (synthetic_timeseries : Signal) : Z :=
  let sample_count_synthetic := Np.sum synthetic_timeseries in
  match num_samples o with
  | Some n => n                        (* override with user-specified value *)
  | None => sample_count_synthetic
  end.

(** Lines 398-471: copula model, pseudoperson correction, remapping,
    date tuples and the output file. *)
Definition generate (o : Options) (su : Setup) (m : Model) (s : Series)
           (st : LoopState) : Run unit :=
  synthetic_timeseries <-
    match synthetic_timeseries st with
    | Some ts => ret ts
    | None => raise NameError
    end ;;
  print (MsgTotalCounts (sample_count_orig s) (Np.sum synthetic_timeseries)) ;;
  let sample_count_synthetic := sample_count o synthetic_timeseries in
  let '((synthetic_data, tau_synthetic), rng) :=
    copula_n_variable_model C sample_count_synthetic (variable_names m)
                            (tau_original m) (cdf_list m) (loop_rng st) in
  called (CopulaNVariableModel (loop_rng st) sample_count_synthetic
            (match synthetic_data with Some _ => true | None => false end) rng) ;;
  synthetic_data <-
    match synthetic_data with
    | None => print MsgCopulaFatal ;; sys_exit (-1)
    | Some d => ret d
    end ;;
  let '(synthetic_data, rng') :=
    correct_invalid_pseudopersons C sample_count_synthetic (variable_names m)
      synthetic_data (tau_original m) (cdf_list m) rng in
  called (CorrectInvalidPseudopersons rng sample_count_synthetic rng') ;;
  let synthetic_results :=
    remap_synthetic_results C synthetic_data (variable_names m) in
  called RemapSyntheticResults ;;
  let '(out, rng'') :=
    generate_date_tuples C sample_count_synthetic synthetic_timeseries (dates s)
      (variable_names m) synthetic_results (str_max_date_orig s) rng' in
  called (GenerateDateTuples rng' sample_count_synthetic out rng'') ;;
  print (MsgWritingOutputFile (output_file_path su)) ;;
  called (WriteOutputFile (output_file_path su) sample_count_synthetic
            synthetic_timeseries (dates s) (variable_names m) synthetic_results
            (str_max_date_orig s) (date_tuple_list out)).

(** The script, top to bottom. *)
Definition main (args : Args) : Run unit :=
  o <- read_options args ;;
  su <- prepare args o ;;
  m <- load su ;;
  check_header ;;
  s <- signal_processing m ;;
  st <- modify_sparse s ;;
  generate o su m s st.

End Main.

(** ** The date tuple deriver *)

Section DateTupleDeriver.

Context {Rng : Type}.

(** The offsets drawn for one record's derived date fields, given the
    generator, the anchor date and the latest date of the source data. *)
Variable sample_offsets : Rng -> Date -> Date -> list Z * Rng.

(** One record anchored at [day]: every derived date is the anchor plus
    a sampled offset, cut off at the maximum date. *)
Definition derive_dates (rng : Rng) (day max_original_date : Date) : DateTuple * Rng :=
  let (offsets, rng') := sample_offsets rng day max_original_date in
  ({| anchor_date := day;
      derived_dates := map (fun k => Z.min (day + k) Calendar.MAX_DATE) offsets |},
   rng').

(** Assign the next [count] unassigned tuples (or all that remain) to
    [day]. *)
Fixpoint assign_day (count unassigned : nat) (day max_original_date : Date) (rng : Rng)
  : list DateTuple * nat * Rng :=
  match count, unassigned with
  | S count', S unassigned' =>
      let (t, rng1) := derive_dates rng day max_original_date in
      let '(ts, rest, rng2) := assign_day count' unassigned' day max_original_date rng1 in
      (t :: ts, rest, rng2)
  | _, _ => ([], unassigned, rng)
  end.

(** The days of the timeseries in chronological order, each with its
    count.  The flag says that a day beyond the maximum date came up
    while tuples were still unassigned. *)
Fixpoint place_days (days : list Date) (counts : Signal) (unassigned : nat)
         (max_original_date : Date) (rng : Rng)
  : list DateTuple * nat * bool * Rng :=
  match unassigned, days, counts with
  | S _, day :: days', c :: counts' =>
      if Calendar.MAX_DATE <? day then ([], unassigned, true, rng)
      else
        let '(ts, rest, rng1) :=
          assign_day (Z.to_nat c) unassigned day max_original_date rng in
        let '(ts', rest', halted, rng2) :=
          place_days days' counts' rest max_original_date rng1 in
        (ts ++ ts', rest', halted, rng2)
  | _, _, _ => ([], unassigned, false, rng)
  end.

(** Tuples still unassigned after the last day of the timeseries go to
    the days that follow it, with the counts of the timeseries repeated;
    [days_left] is the number of days from [day] to the maximum date. *)
Fixpoint place_future (days_left : nat) (day : Date) (k : nat) (counts : Signal)
         (unassigned : nat) (max_original_date : Date) (rng : Rng)
  : list DateTuple * bool * Rng :=
  match unassigned, days_left with
  | O, _ => ([], false, rng)
  | S _, O => ([], true, rng)
  | S _, S days_left' =>
      let c := nth (k mod List.length counts)%nat counts 0 in
      let '(ts, rest, rng1) :=
        assign_day (Z.to_nat c) unassigned day max_original_date rng in
      let '(ts', halted, rng2) :=
        place_future days_left' (day + 1) (S k) counts rest max_original_date rng1 in
      (ts ++ ts', halted, rng2)
  end.

(** Modelled from the spec: [model_data_hl7.generate_date_tuples] (the
    Date Tuple Deriver) is not among the sources; this follows section
    4.5 of the specification, and the notebook's note that the
    timeseries is repeated into the future for sample counts beyond its
    sum, until the maximum HL7 date [9999-12-31] stops it. *)
Definition derive_date_tuples {Results : Type}
           (n : Z) (synthetic_signal : Signal) (days : list Date)
           (variable_order : list string) (tuples : Results)
           (max_original_date : Date) (rng : Rng) : DateTuplesOut * Rng :=
  let '(ts, rest, halted, rng1) :=
    place_days days synthetic_signal (Z.to_nat n) max_original_date rng in
  if halted then ({| date_tuple_list := ts; ceiling_reached := true |}, rng1)
  else
    let '(ts', halted', rng2) :=
      place_future (Z.to_nat (Calendar.MAX_DATE - max_original_date))
                   (max_original_date + 1) 0 synthetic_signal rest
                   max_original_date rng1 in
    ({| date_tuple_list := ts ++ ts'; ceiling_reached := halted' |}, rng2).

End DateTupleDeriver.

(** The collaborators [C] with the modelled deriver in the place of
    [generate_date_tuples]. *)
Definition with_date_deriver {Rng Tau Cdfs FileData Results : Type}
           (C : Collaborators Rng Tau Cdfs FileData Results)
           (sample_offsets : Rng -> Date -> Date -> list Z * Rng)
  : Collaborators Rng Tau Cdfs FileData Results :=
  {| variable_names_in := variable_names_in C;
     OUTPUT_FIELDS := OUTPUT_FIELDS C;
     get_grouped_codes := get_grouped_codes C;
     build_input_filepaths := build_input_filepaths C;
     default_output_dir := default_output_dir C;
     default_output_file_name := default_output_file_name C;
     build_output_filepath := build_output_filepath C;
     init_rng := init_rng C;
     copula_n_variable_model := copula_n_variable_model C;
     init_model_data := init_model_data C;
     get_preprocessed_header := get_preprocessed_header C;
     signal_from_anchor_date := signal_from_anchor_date C;
     remap_synthetic_results := remap_synthetic_results C;
     generate_date_tuples := derive_date_tuples sample_offsets;
     gen_synthetic_fourier := gen_synthetic_fourier C;
     modify_sparse_segments := modify_sparse_segments C;
     correct_invalid_pseudopersons := correct_invalid_pseudopersons C |}.

(** ** A small executable instance of the interface

    Enough of the support modules to run the driver on concrete inputs:
    a linear congruential generator, a Fourier step that reconstructs the
    signal exactly, a repairer that raises every nonzero count once
    [delta] reaches 0.25, and a copula that fails when told that [tau]
    is not a correlation matrix. *)

Module Reference.

Definition next (rng : Z) : Z := (rng * 1103515245 + 12345) mod 2147483648.

Record Data := {
  data_dates : list Date;
  data_signal : Signal;
  data_header : list string;
  data_tau_valid : bool
}.

Definition fields : list string :=
  ["age"; "sex"; "race"; "ethnicity"; "case_status"; "county"; "pregnant";
   "count"; "first_elec_submit_dt"].

Definition names : list string :=
  ["AGE"; "SEX"; "RACE"; "ETHNICITY"; "CASE_STATUS"; "COUNTY"; "PREGNANT"].

Definition perturb (rng : Z) (s : Signal) : Signal :=
  map (fun x => if x =? 0 then 0 else x + 1 + rng mod 2) s.

Definition repair (rng : Z) (s : Signal) (delta : float) : RepairOut Z :=
  {| repaired := if PrimFloat.ltb delta 0.25%float then s else perturb rng s;
     input_after := s;
     rng_after := next rng |}.

Definition rows (rng n : Z) : Tuples :=
  map (fun i => [(rng + Z.of_nat i) mod 7; (rng / 7 + Z.of_nat i) mod 3])
      (seq 0 (Z.to_nat n)).

Definition offsets (rng : Z) (day max_original_date : Date) : list Z * Z :=
  ([rng mod 30; next rng mod 30], next (next rng)).

Definition collaborators (d : Data) : Collaborators Z unit unit (list Date * Signal) Tuples :=
  {| variable_names_in := names;
     OUTPUT_FIELDS := fields;
     get_grouped_codes := fun code _ => [code];
     build_input_filepaths := fun dir jurisdiction codes =>
       if String.eqb jurisdiction "ZZ" then []
       else map (fun _ => (dir ++ "/" ++ jurisdiction ++ "/data.csv")%string) codes;
     default_output_dir := fun _ => "synthetic_results_hl7";
     default_output_file_name := fun jurisdiction _ _ =>
       ("synthetic_" ++ jurisdiction ++ ".csv")%string;
     build_output_filepath := fun dir name => Some (dir ++ "/" ++ name)%string;
     init_rng := fun seed time => match seed with Some s => s | None => time end;
     copula_n_variable_model := fun n _ _ _ rng =>
       if data_tau_valid d then ((Some (rows rng n), Some tt), next rng)
       else ((None, None), rng);
     init_model_data := fun _ vars rng =>
       ((Some vars, tt, tt, (data_dates d, data_signal d)), next rng);
     get_preprocessed_header := data_header d;
     signal_from_anchor_date := fun fd => fd;
     remap_synthetic_results := fun t _ => t;
     generate_date_tuples := derive_date_tuples offsets;
     gen_synthetic_fourier := fun rng s _ => (s, next rng);
     modify_sparse_segments := repair;
     correct_invalid_pseudopersons := fun _ _ t _ _ rng => (t, next rng) |}.

Fixpoint digits (s : string) (acc : Z) : option Z :=
  match s with
  | EmptyString => Some acc
  | String c s' =>
      let n := Z.of_nat (nat_of_ascii c) in
      if (48 <=? n) && (n <=? 57) then digits s' (10 * acc + (n - 48)) else None
  end.

Definition platform (time : Z) : Platform :=
  {| os_path_isdir := fun dir => String.eqb dir "/data/hl7";
     py_int := fun s => if String.eqb s "" then None else digits s 0;
     system_time := time |}.

Definition lyme : Data :=
  {| data_dates := [737791; 737792; 737793; 737794; 737795];
     data_signal := [0; 2; 0; 0; 1];
     data_header := fields;
     data_tau_valid := true |}.

Definition args (jurisdiction : string) (outfile : option string)
           (num_samples rng_seed : option Z) : Args :=
  {| arg_hl7_dir := "/data/hl7";
     arg_jurisdiction := jurisdiction;
     arg_condition_code := "11080";
     arg_outfile := outfile;
     arg_num_samples := num_samples;
     arg_rng_seed := rng_seed;
     arg_debug := false;
     arg_disable_grouping := false;
     arg_syphilis_total := false |}.

(** The [lyme] data with a [tau] that is not a correlation matrix. *)
Definition bad_tau : Data :=
  {| data_dates := data_dates lyme; data_signal := data_signal lyme;
     data_header := fields; data_tau_valid := false |}.

(** The [lyme] data behind a header that names one field differently. *)
Definition bad_header : Data :=
  {| data_dates := data_dates lyme; data_signal := data_signal lyme;
     data_header := ["age"; "sex"; "race"; "ethnicity"; "case_status"; "county";
                     "pregnant"; "COUNT"; "first_elec_submit_dt"];
     data_tau_valid := true |}.

(** A timeseries without a single case. *)
Definition quiet : Data :=
  {| data_dates := [737791; 737792; 737793]; data_signal := [0; 0; 0];
     data_header := fields; data_tau_valid := true |}.

(** What [prepare] leaves behind for jurisdiction CT, no [--outfile] and
    seed 42. *)
Definition ct_setup : @Setup Z :=
  {| infile_list := ["/data/hl7/CT/data.csv"]; code_list := [11080];
     output_file_path := "synthetic_results_hl7/synthetic_CT.csv"; rng0 := 42 |}.

(** A series over the last two days of the calendar, the state of the
    sparse-segment loop after it, and options that ask for five samples
    (as [NUM_SAMPLES = 5] does in the notebook). *)
Definition last_days : @Series Z :=
  {| dates := [3652058; 3652059]; signal := [1; 1];
     str_max_date_orig := 3652059; sample_count_orig := 2;
     synthetic_fourier := [1; 1]; rng2 := 7 |}.

Definition last_days_state : @LoopState Z :=
  {| attempts := 0; fourier_array := [1; 1];
     synthetic_timeseries := Some [1; 1]; loop_rng := 11 |}.

Definition five_samples : Options :=
  {| outfile := None; num_samples := Some 5; rng_seed := Some 42;
     disable_grouping := false; syphilis_total := false |}.

(** The model and the series of the [lyme] run with seed 42, as the
    loading and signal-processing stages leave them. *)
Definition lyme_model : @Model Z unit unit (list Date * Signal) :=
  {| variable_names := names; tau_original := tt; cdf_list := tt;
     file_data := (data_dates lyme, data_signal lyme); rng1 := 1250496027 |}.


End Reference.

(** ** Reading traces *)

Section Observations.

Context {Rng Tau Cdfs FileData Results : Type}.


Definition repair_delta (e : Event Rng Results) : option float :=
  match e with
  | Called (ModifySparseSegments _ _ delta _ _) => Some delta
  | _ => None
  end.

Definition repair_result (e : Event Rng Results) : option Signal :=
  match e with
  | Called (ModifySparseSegments _ _ _ result _) => Some result
  | _ => None
  end.

(** The test of line 380 on a result: [not np.any(result - signal)]. *)
Definition no_difference (result signal : Signal) : bool :=
  match Np.sub result signal with
  | Some diff_signal => negb (Np.any diff_signal)
  | None => false
  end.


(** The event of one repairer call on [input]. *)
Definition repair_event (C : Collaborators Rng Tau Cdfs FileData Results)
           (rng : Rng) (input : Signal) (delta : float) : Event Rng Results :=
  let out := modify_sparse_segments C rng input delta in
  Called (ModifySparseSegments rng input delta (repaired out) (rng_after out)).

(** The part of the script an event comes from: 0 for the prints and the
    set-up, 1 for loading the input files, 2 for signal processing, 3 for
    the sparse-segment loop, 4 for the copula model, 5 for what follows
    it. *)
Definition phase (e : Event Rng Results) : nat :=
  match e with
  | Print _ => 0
  | Called EnableDebug => 0
  | Called (InitRng _ _) => 0
  | Called (InitModelData _ _ _) => 1
  | Called SignalFromAnchorDate => 2
  | Called (GenSyntheticFourier _ _ _ _) => 2
  | Called (ModifySparseSegments _ _ _ _ _) => 3
  | Called (CopulaNVariableModel _ _ _ _) => 4
  | Called (CorrectInvalidPseudopersons _ _ _) => 5
  | Called RemapSyntheticResults => 5
  | Called (GenerateDateTuples _ _ _ _) => 5
  | Called (WriteOutputFile _ _ _ _ _ _ _ _) => 5
  end.

(** Events of reading the input data and of everything after it. *)
Definition reads_or_generates (e : Event Rng Results) : bool := (1 <=? phase e)%nat.

(** Events of signal processing and of everything after it. *)
Definition generation (e : Event Rng Results) : bool := (2 <=? phase e)%nat.

(** Events of the stages that follow the copula model: pseudoperson
    correction, remapping, date tuples and the output file. *)
Definition after_copula (e : Event Rng Results) : bool := (5 <=? phase e)%nat.

Definition copula_failed (e : Event Rng Results) : bool :=
  match e with
  | Called (CopulaNVariableModel _ _ false _) => true
  | _ => false
  end.

Definition copula_count (e : Event Rng Results) : option Z :=
  match e with
  | Called (CopulaNVariableModel _ n _ _) => Some n
  | _ => None
  end.

(** The sample counts the copula model was asked for. *)
Fixpoint requested_counts (t : list (Event Rng Results)) : list Z :=
  match t with
  | [] => []
  | e :: t' =>
      match copula_count e with
      | Some n => n :: requested_counts t'
      | None => requested_counts t'
      end
  end.

(** The calls of [write_output_file]. *)
Definition written (t : list (Event Rng Results)) : list (Event Rng Results) :=
  filter (fun e => match e with
                   | Called (WriteOutputFile _ _ _ _ _ _ _ _) => true
                   | _ => false
                   end) t.

(** Every event of the run [m] comes from phase [k] or an earlier one. *)
Definition within (k : nat) {A} (m : Run Rng Results A) : Prop :=
  Forall (fun e => (phase e <= k)%nat) (trace m).

(** Lines 197-200. *)
Definition debug_events (args : Args) : list (Event Rng Results) :=
  if arg_debug args then [Called EnableDebug] else [].

(** What a failed copula call means for a run: it ends with
    [sys.exit(-1)] right after the copula call and its diagnostic, and
    nothing of what follows the copula model has been called. *)
Definition aborts_at_copula (r : Run Rng Results unit) : Prop :=
  existsb copula_failed (trace r) = true ->
  outcome r = inl (SysExit (-1)) /\
  (exists pre rng n rng',
      trace r = pre ++ [Called (CopulaNVariableModel rng n false rng');
                        Print MsgCopulaFatal]) /\
  Forall (fun e => after_copula e = false) (trace r).

(** Every [sys.exit] of the run has status [-1], except the one after the
    line that reports that there is no data. *)
Definition exits_cleanly_only_without_data {A} (r : Run Rng Results A) : Prop :=
  forall status,
    outcome r = inl (SysExit status) ->
    status = -1 \/
    (status = 0 /\ exists pre jurisdiction codes,
        trace r = pre ++ [Print (MsgNoData jurisdiction codes)]).
(** The generator state a call was handed and the state it left. *)
Definition rng_use (e : Event Rng Results) : option (Rng * Rng) :=
  match e with
  | Called (InitModelData _ i o) => Some (i, o)
  | Called (GenSyntheticFourier i _ _ o) => Some (i, o)
  | Called (ModifySparseSegments i _ _ _ o) => Some (i, o)
  | Called (CopulaNVariableModel i _ _ o) => Some (i, o)
  | Called (CorrectInvalidPseudopersons i _ o) => Some (i, o)
  | Called (GenerateDateTuples i _ _ o) => Some (i, o)
  | _ => None
  end.

(** The state of the generator after the events [t], from [cur]
    ([None] while [init_rng] has not been called). *)
Fixpoint rng_after_trace (cur : option Rng) (t : list (Event Rng Results)) : option Rng :=
  match t with
  | [] => cur
  | Called (InitRng _ r) :: t' => rng_after_trace (Some r) t'
  | e :: t' =>
      match rng_use e with
      | Some (_, o) => rng_after_trace (Some o) t'
      | None => rng_after_trace cur t'
      end
  end.

(** One generator, created once, and every call that draws from it is
    handed the state the call before it left. *)
Fixpoint single_stream (cur : option Rng) (t : list (Event Rng Results)) : Prop :=
  match t with
  | [] => True
  | Called (InitRng _ r) :: t' => cur = None /\ single_stream (Some r) t'
  | e :: t' =>
      match rng_use e with
      | Some (i, o) => cur = Some i /\ single_stream (Some o) t'
      | None => single_stream cur t'
      end
  end.

(** The run [m], started with the generator in state [cur], keeps to one
    stream and hands on the state [next a] with its value [a]. *)
Definition hands_on {A} (cur : option Rng) (m : Run Rng Results A)
           (next : A -> option Rng) : Prop :=
  single_stream cur (trace m) /\
  forall a, outcome m = inr a -> rng_after_trace cur (trace m) = next a.

(** Events that are not handed the generator. *)
Definition silent (e : Event Rng Results) : Prop :=
  match e with
  | Print _ | Called EnableDebug | Called SignalFromAnchorDate
  | Called RemapSyntheticResults | Called (WriteOutputFile _ _ _ _ _ _ _ _) => True
  | _ => False
  end.

Definition prints_only {A} (m : Run Rng Results A) : Prop := Forall silent (trace m).

(** What [read_options] returns when the extension test of line 177 lets
    the run go on. *)
Definition options_of (args : Args) : Options :=
  {| outfile := if Py.truthy_str (arg_outfile args) then arg_outfile args else None;
     num_samples := None;
     rng_seed := if Py.truthy_int (arg_rng_seed args) then arg_rng_seed args else None;
     disable_grouping := arg_disable_grouping args;
     syphilis_total := arg_syphilis_total args |}.

(** Lines 208-212. *)
Definition code_list_of (C : Collaborators Rng Tau Cdfs FileData Results)
           (o : Options) (condition_code : Z) : list Z :=
  if negb (disable_grouping o)
  then get_grouped_codes C condition_code (syphilis_total o)
  else [condition_code].

End Observations.

(** No date of the tuple lies beyond the maximum HL7 date. *)
Definition dated_within_ceiling (t : DateTuple) : Prop :=
  anchor_date t <= Calendar.MAX_DATE /\
  Forall (fun d => d <= Calendar.MAX_DATE) (derived_dates t).

Definition set_num_samples (a : Args) (n : option Z) : Args :=
  {| arg_hl7_dir := arg_hl7_dir a;
     arg_jurisdiction := arg_jurisdiction a;
     arg_condition_code := arg_condition_code a;
     arg_outfile := arg_outfile a;
     arg_num_samples := n;
     arg_rng_seed := arg_rng_seed a;
     arg_debug := arg_debug a;
     arg_disable_grouping := arg_disable_grouping a;
     arg_syphilis_total := arg_syphilis_total a |}.

Definition set_rng_seed (a : Args) (seed : option Z) : Args :=
  {| arg_hl7_dir := arg_hl7_dir a;
     arg_jurisdiction := arg_jurisdiction a;
     arg_condition_code := arg_condition_code a;
     arg_outfile := arg_outfile a;
     arg_num_samples := arg_num_samples a;
     arg_rng_seed := seed;
     arg_debug := arg_debug a;
     arg_disable_grouping := arg_disable_grouping a;
     arg_syphilis_total := arg_syphilis_total a |}.

(** The platform [P] at another system time. *)
Definition set_system_time (P : Platform) (t : Z) : Platform :=
  {| os_path_isdir := os_path_isdir P; py_int := py_int P; system_time := t |}.

(** ** What whole runs are checked against *)

Section Outcomes.

Context {Rng Tau Cdfs FileData Results : Type}.

Definition is_write (e : Event Rng Results) : bool :=
  match e with
  | Called (WriteOutputFile _ _ _ _ _ _ _ _) => true
  | _ => false
  end.

(** The output file is written by the last statement of a run that ends
    normally, and by no other. *)
Definition writes_once_at_the_end (r : Run Rng Results unit) : Prop :=
  (outcome r = inr tt /\
   exists pre w, trace r = pre ++ [w] /\ is_write w = true /\ written pre = []) \/
  ((exists h, outcome r = inl h) /\ written (trace r) = []).

(** The event asks for, or writes, [total] tuples; an output file is
    written with a series that sums to [total]. *)
Definition count_is (total : Z) (e : Event Rng Results) : Prop :=
  match e with
  | Called (CopulaNVariableModel _ n _ _) => n = total
  | Called (CorrectInvalidPseudopersons _ n _) => n = total
  | Called (GenerateDateTuples _ n _ _) => n = total
  | Called (WriteOutputFile _ n series _ _ _ _ _) => n = total /\ Np.sum series = total
  | _ => True
  end.

(** The ways the command-line driver can end before its last statement:
    [sys.exit(-1)], [sys.exit(0)], [model.error_exit] for the loading
    stage, and three uncaught exceptions. *)
Definition cli_halt (h : Halt) : Prop :=
  h = SysExit (-1) \/ h = SysExit 0 \/ h = ErrorExit "init_model_data" \/
  h = Uncaught ValueError \/ h = Uncaught IndexError \/ h = Uncaught AssertionError.

Definition halts_as_cli {A} (r : Run Rng Results A) : Prop :=
  forall h, outcome r = inl h -> cli_halt h.

(** The phases of the calls of a trace, prints left out. *)
Definition call_phases (t : list (Event Rng Results)) : list nat :=
  map phase (filter (fun e => match e with Called _ => true | Print _ => false end) t).

(** The calls of the run [m] are in phase order, between [lo] and [hi]. *)
Definition in_phases {A} (lo hi : nat) (m : Run Rng Results A) : Prop :=
  StronglySorted le (call_phases (trace m)) /\
  Forall (fun p => (lo <= p <= hi)%nat) (call_phases (trace m)).

(** The generator state and the contents of the array [synthetic_fourier]
    before attempt [k] of the sparse-segment loop, counted from 0, when
    the loop starts with them in [st] and with [attempts = first]. *)
Fixpoint attempt_state (C : Collaborators Rng Tau Cdfs FileData Results)
         (st : Rng * Signal) (first : Z) (k : nat) : Rng * Signal :=
  match k with
  | O => st
  | S k' =>
      let out := modify_sparse_segments C (fst (attempt_state C st first k'))
                   (snd (attempt_state C st first k'))
                   (delta_of (first + Z.of_nat k')) in
      (rng_after out, input_after out)
  end.

(** What the repairer returns at attempt [k]. *)
Definition attempt_out (C : Collaborators Rng Tau Cdfs FileData Results)
           (st : Rng * Signal) (first : Z) (k : nat) : RepairOut Rng :=
  modify_sparse_segments C (fst (attempt_state C st first k))
    (snd (attempt_state C st first k)) (delta_of (first + Z.of_nat k)).

Definition attempt_event (C : Collaborators Rng Tau Cdfs FileData Results)
           (st : Rng * Signal) (first : Z) (k : nat) : Event Rng Results :=
  repair_event C (fst (attempt_state C st first k)) (snd (attempt_state C st first k))
               (delta_of (first + Z.of_nat k)).

(** How the loop ends when its last attempt is attempt [n] of at most
    [S todo]: with [ValueError] when the result cannot be subtracted from
    the signal, and else with the result in [synthetic_timeseries]; a
    result that does not differ from the signal is only kept when no
    attempt is left. *)
Definition loop_end (C : Collaborators Rng Tau Cdfs FileData Results)
           (st : Rng * Signal) (first : Z) (signal : Signal) (todo n : nat)
           (r : Halt + LoopState) : Prop :=
  let out := attempt_out C st first n in
  match Np.sub (repaired out) signal with
  | None => r = inl (Uncaught ValueError)
  | Some d =>
      (Np.any d = false -> n = todo) /\
      r = inr {| attempts := first + Z.of_nat n + (if Np.any d then 0 else 1);
                 fourier_array := input_after out;
                 synthetic_timeseries := Some (repaired out);
                 loop_rng := rng_after out |}
  end.

(** A [sys.exit] of the run comes right after a line that reports why. *)
Definition announced {A} (r : Run Rng Results A) : Prop :=
  forall status,
    outcome r = inl (SysExit status) -> exists pre d, trace r = pre ++ [Print d].

End Outcomes.

(** [c in s] *)
Fixpoint occurs (c : ascii) (s : string) : bool :=
  match s with
  | EmptyString => false
  | String a s' => Ascii.eqb a c || occurs c s'
  end.

(** ** The test driver, [generator/tester_hl7.py]

    The script runs the command-line driver once for every file of a
    jurisdiction's directory, or of every jurisdiction's.  What it reads
    from the file system and from the child processes is taken here as
    given ([World]); the jurisdiction table [J.ABBREV_MAP] is part of
    it. *)

Module Tester.

Definition _HL7_DIR : string := "/data/csels/preprocessed_data/hl7_update".

Record World := {
  ABBREV_MAP : string -> option string;
  (** [os.listdir]; [None] when it raises [OSError] *)
  listdir : string -> option (list string);
  isdir : string -> bool;
  isfile : string -> bool;
  (** [cp.stdout] of [subprocess.run(command, ...)] *)
  run_stdout : list string -> string
}.

Inductive Event :=
| DirectoryNotFound (data_dir : string)
| PrintCommand (command : list string)
| SubprocessRun (command : list string)
| PrintStdout (text : string).

Inductive End :=
| Finished
| Exit (status : Z)
| OSError.

Definition startswith_sep (s : string) : bool :=
  match s with
  | String c _ => Ascii.eqb c "/"
  | EmptyString => false
  end.

(** [os.path.join(a, b)] (posixpath) *)
Definition join (a b : string) : string :=
  if startswith_sep b then b
  else if String.eqb a "" || Py.endswith a "/" then (a ++ b)%string
  else ((a ++ "/") ++ b)%string.

(** [item[:-4]] *)
Definition code_of_item (item : string) : string :=
  substring 0 (String.length item - 4) item.

(** Lines 61 and 94: the value of [--outfile]. *)
Definition outfile_of (jurisdiction code : string) : string :=
  (((("all_synthetic_hl7_july_json/" ++ jurisdiction) ++ "_") ++ code) ++ ".json")%string.

(** Lines 51-62 and 84-95. *)
Definition command (jurisdiction code : string) : list string :=
  ["python3"; "gen_synthetic_data_hl7.py";
   "--hl7_dir"; _HL7_DIR;
   "--jurisdiction"; jurisdiction;
   "--code"; code;
   "--outfile"; outfile_of jurisdiction code;
   "--syphilis_total"].

(** Lines 47-70 and 80-103: one entry of a jurisdiction's directory. *)
Definition test_item (W : World) (data_dir jurisdiction item : string) : list Event :=
  let fullpath := join data_dir item in
  if isfile W fullpath then
    let code := code_of_item item in
    let command := command jurisdiction code in
    [PrintCommand command; SubprocessRun command; PrintStdout (run_stdout W command)]
  else [].

(** Lines 73-103, and lines 39-70 for one [j] of the sweep: the two
    blocks are the same statements, with [j] and [jurisdiction] naming
    the same string in the first. *)
Definition test_jurisdiction (W : World) (jurisdiction : string) : list Event * End :=
  let data_dir := join _HL7_DIR jurisdiction in
  if negb (isdir W data_dir) then ([DirectoryNotFound data_dir], Exit (-1))
  else
    (* get all CSV files in the jurisdiction (filename == code.csv) *)
    match listdir W data_dir with
    | None => ([], OSError)
    | Some items => (flat_map (test_item W data_dir jurisdiction) items, Finished)
    end.

(** Lines 38-70: [for j in os.listdir(_HL7_DIR)]. *)
Fixpoint test_all (W : World) (js : list string) : list Event * End :=
  match js with
  | [] => ([], Finished)
  | j :: js' =>
      match test_jurisdiction W j with
      | (t, Finished) => let (t', e) := test_all W js' in (t ++ t', e)
      | stopped => stopped
      end
  end.

(** Lines 30-103. *)
Definition main (W : World) (arg_jurisdiction : string) : list Event * End :=
  let jurisdiction :=
    (* expand jurisdiction abbreviation, if any *)
    match ABBREV_MAP W arg_jurisdiction with
    | Some full => full
    | None => arg_jurisdiction
    end in
  if String.eqb jurisdiction "all" then
    match listdir W _HL7_DIR with
    | None => ([], OSError)
    | Some js => test_all W js
    end
  else test_jurisdiction W jurisdiction.

(** The arguments the command-line driver is started with by
    [command jurisdiction code]. *)
Definition cli_args (jurisdiction code : string) : Args :=
  {| arg_hl7_dir := _HL7_DIR;
     arg_jurisdiction := jurisdiction;
     arg_condition_code := code;
     arg_outfile := Some (outfile_of jurisdiction code);
     arg_num_samples := None;
     arg_rng_seed := None;
     arg_debug := false;
     arg_disable_grouping := false;
     arg_syphilis_total := true |}.

(** The commands a trace ran. *)
Definition commands (t : list Event) : list (list string) :=
  flat_map (fun e => match e with SubprocessRun c => [c] | _ => [] end) t.

(** A small file tree: a jurisdiction [CT] with one data file and a
    subdirectory, a stray file [README], and a jurisdiction [NY] listed
    after it. *)
Definition sample_tree : World :=
  {| ABBREV_MAP := fun _ => None;
     listdir := fun d =>
       if String.eqb d _HL7_DIR then Some ["CT"; "README"; "NY"]
       else if String.eqb d (join _HL7_DIR "CT") then Some ["11080.csv"; "old"]
       else if String.eqb d (join _HL7_DIR "NY") then Some ["10106.csv"]
       else None;
     isdir := fun d =>
       String.eqb d (join _HL7_DIR "CT") || String.eqb d (join _HL7_DIR "NY");
     isfile := fun f =>
       String.eqb f (join (join _HL7_DIR "CT") "11080.csv") ||
       String.eqb f (join (join _HL7_DIR "NY") "10106.csv");
     run_stdout := fun _ => "" |}.

End Tester.

(** ** The notebook, [SyntheticGenerator_HL7.py]

    The notebook runs the same pipeline from variables set in its first
    cells.  Its cells up to "END OF SYNTHETIC DATA GENERATION" (lines
    185-566) are modelled as a run over the events of the command-line
    driver.  What the trace of a notebook run does not show:
    - the plotting calls [data.plot_marginal_distributions],
      [data.plot_pdf_ecdf], [plots.plot_date_signals] and
      [plots.plot_timeseries_result], which hand nothing back to the
      script;
    - the [print] lines the command-line driver does not have;
    - the order of the three [enable_debug] calls, which are one event;
    - [model.error_exit] as a call: it is the way the run ends. *)

Module Notebook.

(** Lines 31-145: the user inputs. *)
Record Inputs := {
  JURISDICTION : string;
  CONDITION_CODE : Z;
  DISABLE_GROUPING : bool;
  SYPHILIS_TOTAL : bool;
  OUTPUT_FILE_NAME : option string;
  HL7_DIR : string;
  OUTPUT_DIR : option string;
  NUM_SAMPLES : option Z;
  RNG_SEED : option Z;
  DEBUG : bool
}.

Section Cells.

Context {Rng Tau Cdfs FileData Results : Type}.
Variable C : Collaborators Rng Tau Cdfs FileData Results.
Variable P : Platform.

Local Open Scope run_scope.
Local Abbreviation Run := (Run Rng Results).

(** [raise SystemExit()] ends the script with status 0;
    [raise SystemExit('...')] writes its argument to [stderr] and ends
    the script with status 1. *)
Definition system_exit {A} (message : option string) : Run A :=
  match message with
  | None => sys_exit 0
  | Some _ => sys_exit 1
  end.

(** Lines 229-248: the name of the output file. *)
Definition output_file_name (inp : Inputs) (code_list : list Z) : Run string :=
  match OUTPUT_FILE_NAME inp with
  | None =>
      (* no user-specified name, so use default name and CSV format *)
      ret (default_output_file_name C (JURISDICTION inp) code_list (SYPHILIS_TOTAL inp))
  | Some name =>
      let ext : option string := Some (snd (Py.splitext name)) in
      match ext with
      | None => ret (name ++ _EXT_CSV)%string
      | Some ext =>
          let ext := Py.lower ext in
          if negb (String.eqb _EXT_CSV ext) && negb (String.eqb _EXT_JSON ext)
          then print (MsgUnsupportedFormat ext) ;;
               system_exit (Some "FATAL ERROR: unsupported output file format")
          else ret name
      end
  end.

(** Lines 185-276: everything before the input files are loaded. *)
Definition prepare (inp : Inputs) : Run Setup :=
  (if DEBUG inp then called EnableDebug else ret tt) ;;
  let code_list :=
    if negb (DISABLE_GROUPING inp)
    then get_grouped_codes C (CONDITION_CODE inp) (SYPHILIS_TOTAL inp)
    else [CONDITION_CODE inp] in
  print (MsgCodeGroup code_list) ;;
  let infile_list :=
    build_input_filepaths C (HL7_DIR inp) (JURISDICTION inp) code_list in
  (if (0 =? List.length infile_list)%nat
   then print (MsgNoData (JURISDICTION inp) code_list) ;; system_exit None
   else ret tt) ;;
  print (MsgInputFiles infile_list) ;;
  name <- output_file_name inp code_list ;;
  let output_dir :=
    match OUTPUT_DIR inp with
    | None => default_output_dir C (Some false)
    | Some d => d
    end in
  output_file_path <-
    match build_output_filepath C output_dir name with
    | None => system_exit (Some "FATAL ERROR: build_output_filepath")
    | Some p => ret p
    end ;;
  print (MsgOutputFile output_file_path) ;;
  let rng := init_rng C (RNG_SEED inp) (system_time P) in
  called (InitRng (RNG_SEED inp) rng) ;;
  (match NUM_SAMPLES inp with
   | Some n =>
       if n <=? 0
       then system_exit (Some "FATAL ERROR: NUM_SAMPLES must be a postive integer.")
       else ret tt
   | None => ret tt
   end) ;;
  ret {| infile_list := infile_list; code_list := code_list;
         output_file_path := output_file_path; rng0 := rng |}.

(** Lines 323-328. *)
Fixpoint compare_fields (header_list : list string) (i : nat) (todo : list string)
  : Run unit :=
  match todo with
  | [] => ret tt
  | _ :: todo' =>
      match nth_error header_list i, nth_error (OUTPUT_FIELDS C) i with
      | Some h, Some f =>
          if negb (String.eqb h f)
          then print (MsgInvalidOutputFieldsAt h f) ;; system_exit None
          else compare_fields header_list (S i) todo'
      | _, _ => raise IndexError
      end
  end.

(** Lines 314-328. *)
Definition check_header : Run unit :=
  let header_list := get_preprocessed_header C in
  (if negb (List.length header_list =? List.length (OUTPUT_FIELDS C))%nat
   then print (MsgInvalidOutputFieldsLength header_list (OUTPUT_FIELDS C)) ;;
        system_exit None
   else ret tt) ;;
  compare_fields header_list 0 (OUTPUT_FIELDS C).

(** Lines 485-566: sample count, copula model, pseudoperson correction,
    remapping, date tuples and the output file. *)
Definition generate (inp : Inputs) (su : Setup (Rng:=Rng))
           (m : Model (Rng:=Rng) (Tau:=Tau) (Cdfs:=Cdfs) (FileData:=FileData))
           (s : Series (Rng:=Rng)) (st : LoopState (Rng:=Rng)) : Run unit :=
  synthetic_timeseries <-
    match synthetic_timeseries st with
    | Some ts => ret ts
    | None => raise NameError
    end ;;
  (* sum the counts in the synthetic timeseries *)
  let sample_count_synthetic := Np.sum synthetic_timeseries in
  print (MsgTotalCounts (sample_count_orig s) sample_count_synthetic) ;;
  let sample_count_synthetic :=
    match NUM_SAMPLES inp with
    | Some n => n                      (* override with user-specified value *)
    | None => sample_count_synthetic
    end in
  let '((synthetic_data, tau_synthetic), rng) :=
    copula_n_variable_model C sample_count_synthetic (variable_names m)
                            (tau_original m) (cdf_list m) (loop_rng st) in
  called (CopulaNVariableModel (loop_rng st) sample_count_synthetic
            (match synthetic_data with Some _ => true | None => false end) rng) ;;
  synthetic_data <-
    match synthetic_data with
    | None => halt (ErrorExit "copula_n_variable_model")
    | Some d => ret d
    end ;;
  let '(synthetic_data, rng') :=
    correct_invalid_pseudopersons C sample_count_synthetic (variable_names m)
      synthetic_data (tau_original m) (cdf_list m) rng in
  called (CorrectInvalidPseudopersons rng sample_count_synthetic rng') ;;
  let synthetic_results :=
    remap_synthetic_results C synthetic_data (variable_names m) in
  called RemapSyntheticResults ;;
  let '(out, rng'') :=
    generate_date_tuples C sample_count_synthetic synthetic_timeseries (dates s)
      (variable_names m) synthetic_results (str_max_date_orig s) rng' in
  called (GenerateDateTuples rng' sample_count_synthetic out rng'') ;;
  called (WriteOutputFile (output_file_path su) sample_count_synthetic
            synthetic_timeseries (dates s) (variable_names m) synthetic_results
            (str_max_date_orig s) (date_tuple_list out)).

(** Lines 185-566.  Loading, signal processing and the sparse-segment
    loop (lines 307-309, 371-413 and 427-444) are the statements of the
    command-line driver. *)
Definition generation (inp : Inputs) : Run unit :=
  su <- prepare inp ;;
  m <- load C su ;;
  check_header ;;
  s <- signal_processing C m ;;
  st <- modify_sparse C s ;;
  generate inp su m s st.

End Cells.

(** *** The convergence runs, lines 702-775 *)

Definition start : Z := 5.     (* 32 *)
Definition end_ : Z := 18.     (* 262,144 *)

(** [range(a, b)] *)
Definition range (a b : Z) : list Z :=
  map (fun k => a + Z.of_nat k) (seq 0 (Z.to_nat (b - a))).

(** Lines 719-773: the values of [n] the runs are made with, for the
    values of [i] that are left. *)
Fixpoint run_sizes_from (todo : list Z) (max_samples : Z) (finished : bool) : list Z :=
  match todo with
  | [] => []
  | i :: todo' =>
      if finished then []
      else
        let n := 2 ^ i in
        (* this is the final run if using all data *)
        let '(n, finished) :=
          if max_samples <? n then (max_samples, true) else (n, finished) in
        n :: run_sizes_from todo' max_samples finished
  end.

Definition run_sizes (max_samples : Z) : list Z :=
  run_sizes_from (range start (end_ + 1)) max_samples false.

End Notebook.

(** The calls a trace makes into the pipeline: [init_rng],
    [init_model_data], [signal_from_anchor_date], [gen_synthetic_fourier],
    [modify_sparse_segments], [copula_n_variable_model],
    [correct_invalid_pseudopersons], [remap_synthetic_results],
    [generate_date_tuples] and [write_output_file], with their arguments;
    the prints and [enable_debug] are left out. *)
Definition pipeline_calls {Rng Results : Type} (t : list (Event Rng Results))
  : list (Event Rng Results) :=
  filter (fun e => match e with
                   | Print _ => false
                   | Called EnableDebug => false
                   | Called _ => true
                   end) t.

(** The inputs of the notebook that ask for what [args] asks of the
    command-line driver, when [args] names no output file and its
    condition code reads as [code]: the notebook has the default output
    directory and no sample count. *)
Definition inputs_of (args : Args) (code : Z) : Notebook.Inputs :=
  {| Notebook.JURISDICTION := arg_jurisdiction args;
     Notebook.CONDITION_CODE := code;
     Notebook.DISABLE_GROUPING := arg_disable_grouping args;
     Notebook.SYPHILIS_TOTAL := arg_syphilis_total args;
     Notebook.OUTPUT_FILE_NAME := None;
     Notebook.HL7_DIR := arg_hl7_dir args;
     Notebook.OUTPUT_DIR := None;
     Notebook.NUM_SAMPLES := None;
     Notebook.RNG_SEED := if Py.truthy_int (arg_rng_seed args) then arg_rng_seed args else None;
     Notebook.DEBUG := arg_debug args |}.

(** The event asks for, or writes, [n] tuples. *)
Definition asks_for {Rng Results : Type} (n : Z) (e : Event Rng Results) : Prop :=
  match e with
  | Called (CopulaNVariableModel _ k _ _) => k = n
  | Called (CorrectInvalidPseudopersons _ k _) => k = n
  | Called (GenerateDateTuples _ k _ _) => k = n
  | Called (WriteOutputFile _ k _ _ _ _ _ _) => k = n
  | _ => True
  end.

(** The ways the notebook can end before its output file is written. *)
Definition notebook_halt (h : Halt) : Prop :=
  h = SysExit 0 \/ h = SysExit 1 \/
  h = ErrorExit "init_model_data" \/ h = ErrorExit "copula_n_variable_model" \/
  h = Uncaught ValueError \/ h = Uncaught IndexError \/ h = Uncaught AssertionError.

(** Two runs make the same calls into the pipeline, and one returns a
    value exactly when the other returns it. *)
Definition agree {Rng Results A : Type} (r1 r2 : Run Rng Results A) : Prop :=
  pipeline_calls (trace r1) = pipeline_calls (trace r2) /\
  forall a, outcome r1 = inr a <-> outcome r2 = inr a.

Definition halts_as_notebook {Rng Results A : Type} (r : Run Rng Results A) : Prop :=
  forall h, outcome r = inl h -> notebook_halt h.

(** The inputs of the notebook for the [lyme] data of jurisdiction CT. *)
Definition lyme_inputs (num_samples rng_seed : option Z) : Notebook.Inputs :=
  {| Notebook.JURISDICTION := "CT";
     Notebook.CONDITION_CODE := 11080;
     Notebook.DISABLE_GROUPING := false;
     Notebook.SYPHILIS_TOTAL := false;
     Notebook.OUTPUT_FILE_NAME := None;
     Notebook.HL7_DIR := "/data/hl7";
     Notebook.OUTPUT_DIR := None;
     Notebook.NUM_SAMPLES := num_samples;
     Notebook.RNG_SEED := rng_seed;
     Notebook.DEBUG := false |}.

(** ** A repairer that writes to its argument *)



(** The series of the [quiet] data: no case on any of its three days,
    and a Fourier reconstruction that is the signal. *)
Definition quiet_series : @Series Z :=
  {| dates := Reference.data_dates Reference.quiet;
     signal := Reference.data_signal Reference.quiet;
     str_max_date_orig := 737793; sample_count_orig := 0;
     synthetic_fourier := Reference.data_signal Reference.quiet; rng2 := 7 |}.

(** * Properties *)

(** ** Paths and extensions, evaluated *)

Example splitext_csv : Py.splitext "out/lyme.ct.csv" = ("out/lyme.ct", ".csv").
Proof. reflexivity. Qed.

Example splitext_none : Py.splitext "out.d/results" = ("out.d/results", "").
Proof. reflexivity. Qed.

Example splitext_hidden : Py.splitext "dir/.bashrc" = ("dir/.bashrc", "").
Proof. reflexivity. Qed.

Example split_path : Py.split "a/b//c.json" = ("a/b", "c.json").
Proof. reflexivity. Qed.

Example split_root : Py.split "//c" = ("//", "c").
Proof. reflexivity. Qed.

Example endswith_suffix :
  Py.endswith "mycsv" "csv" = true /\ Py.endswith "a.CSV" "csv" = false.
Proof. split; reflexivity. Qed.

Example lower_extension : Py.lower ".JSON" = ".json".
Proof. reflexivity. Qed.

(** ** The run monad *)

Section RunFacts.

Context {Rng Results : Type}.
Local Abbreviation Run := (Run Rng Results).

Lemma bind_ret {A B} (a : A) (f : A -> Run B) : bind (ret a) f = f a.
Proof. unfold bind, ret. destruct (f a); reflexivity. Qed.

Lemma bind_emit {B} (e : Event Rng Results) (f : unit -> Run B) :
  bind (emit e) f = (e :: trace (f tt), outcome (f tt)).
Proof. unfold bind, emit, trace, outcome. destruct (f tt); reflexivity. Qed.

Lemma bind_halt {A B} (h : Halt) (f : A -> Run B) : bind (halt h) f = halt h.
Proof. reflexivity. Qed.

Lemma bind_value {A B} (m : Run A) (f : A -> Run B) (a : A) :
  outcome m = inr a ->
  bind m f = (trace m ++ trace (f a), outcome (f a)).
Proof.
  destruct m as [t [h | a']]; unfold outcome, trace; simpl; intros E.
  - discriminate.
  - injection E as ->. destruct (f a); reflexivity.
Qed.

Lemma bind_halted {A B} (m : Run A) (f : A -> Run B) (h : Halt) :
  outcome m = inl h -> bind m f = (trace m, inl h).
Proof.
  destruct m as [t [h' | a]]; unfold outcome, trace; simpl; intros E.
  - injection E as ->. reflexivity.
  - discriminate.
Qed.

Lemma bind_assoc {A B D} (m : Run A) (f : A -> Run B) (g : B -> Run D) :
  bind (bind m f) g = bind m (fun a => bind (f a) g).
Proof.
  destruct m as [t [h | a]]; simpl; [reflexivity|].
  destruct (f a) as [t' [h | b]]; simpl; [reflexivity|].
  destruct (g b) as [t'' r]. rewrite app_assoc. reflexivity.
Qed.

End RunFacts.

(** ** numpy differences *)

Lemma sub_same_length (a b : Signal) :
  List.length a = List.length b ->
  Np.sub a b = Some (map (fun p => fst p - snd p) (combine a b)).
Proof.
  intros E. unfold Np.sub. rewrite E, Nat.eqb_refl. reflexivity.
Qed.

Lemma any_diff_false (a b : Signal) :
  List.length a = List.length b ->
  Np.any (map (fun p => fst p - snd p) (combine a b)) = false <-> a = b.
Proof.
  revert b. induction a as [| x a IH]; intros [| y b] E; simpl in E; try discriminate.
  - simpl. split; reflexivity.
  - injection E as E. specialize (IH b E). unfold Np.any in *. simpl.
    rewrite orb_false_iff, negb_false_iff, Z.eqb_eq. split.
    + intros [Hxy Hab]. apply IH in Hab. f_equal; [lia | exact Hab].
    + intros H. injection H as -> ->. split; [lia | apply IH; reflexivity].
Qed.

Lemma no_difference_iff (r s : Signal) :
  List.length r = List.length s ->
  no_difference r s = true <-> r = s.
Proof.
  intros E. unfold no_difference. rewrite (sub_same_length _ _ E).
  rewrite negb_true_iff. apply any_diff_false, E.
Qed.

Lemma no_difference_refl (s : Signal) : no_difference s s = true.
Proof. apply no_difference_iff; reflexivity. Qed.

(** ** The sparse-segment loop *)

Section LoopFacts.

Context {Rng Tau Cdfs FileData Results : Type}.
Variable C : Collaborators Rng Tau Cdfs FileData Results.

(** One pass of the loop body, unfolded. *)
Lemma sparse_segment_loop_step (todo : nat) (signal : Signal) (st : LoopState) :
  sparse_segment_loop C (S todo) signal st =
  let out := modify_sparse_segments C (loop_rng st) (fourier_array st)
                                    (delta_of (attempts st)) in
  let e := repair_event C (loop_rng st) (fourier_array st) (delta_of (attempts st)) in
  match Np.sub (repaired out) signal with
  | None => ([e], inl (Uncaught ValueError))
  | Some d =>
      if negb (Np.any d)
      then
        let r := sparse_segment_loop C todo signal
                   {| attempts := attempts st + 1;
                      fourier_array := input_after out;
                      synthetic_timeseries := Some (repaired out);
                      loop_rng := rng_after out |} in
        (e :: trace r, outcome r)
      else ([e], inr {| attempts := attempts st;
                        fourier_array := input_after out;
                        synthetic_timeseries := Some (repaired out);
                        loop_rng := rng_after out |})
  end.
Proof.
  simpl. destruct (Np.sub _ signal) as [d |]; simpl; [| reflexivity].
  destruct (negb (Np.any d)); simpl; [| reflexivity].
  destruct (sparse_segment_loop C todo signal _) as [t r]. reflexivity.
Qed.


End LoopFacts.

(** ** Stages of the driver *)

Section StageFacts.

Context {Rng Tau Cdfs FileData Results : Type}.
Variable C : Collaborators Rng Tau Cdfs FileData Results.

(** The two [assert]s of signal processing. *)
Lemma signal_processing_lengths (m : Model) (s : Series) :
  outcome (signal_processing C m) = inr s ->
  List.length (synthetic_fourier s) = List.length (signal s) /\
  List.length (signal s) = List.length (dates s).
Proof.
  unfold signal_processing.
  destruct (signal_from_anchor_date C (file_data m)) as [ds sg].
  destruct (gen_synthetic_fourier C (rng1 m) sg 0%float) as [sf rng].
  unfold called, py_assert, raise.
  destruct (List.length sg =? List.length ds)%nat eqn:E1; simpl; [| discriminate].
  destruct (rev ds) as [| d ?]; simpl; [discriminate|].
  destruct (List.length sf =? List.length sg)%nat eqn:E2; simpl; [| discriminate].
  intros E. injection E as <-. simpl.
  apply Nat.eqb_eq in E1, E2. auto.
Qed.

End StageFacts.

(** ** The stages, one by one *)

Section Stages.
Context {Rng Tau Cdfs FileData Results : Type}.
Variable C : Collaborators Rng Tau Cdfs FileData Results.
Variable P : Platform.
Local Abbreviation Run := (Run Rng Results).

Lemma within_bind {A B} (k : nat) (m : Run A) (f : A -> Run B) :
  within k m -> (forall a, outcome m = inr a -> within k (f a)) -> within k (bind m f).
Proof.
  unfold within. destruct m as [t [h | a]]; simpl; intros Hm Hf; [exact Hm|].
  specialize (Hf a eq_refl). destruct (f a) as [t' r]. simpl in *.
  apply Forall_app. split; assumption.
Qed.

Lemma within_print {k} d : within k (print (Rng:=Rng) (Results:=Results) d).
Proof. repeat constructor. simpl. lia. Qed.

Lemma within_ret {k A} (a : A) : within k (ret (Rng:=Rng) (Results:=Results) a).
Proof. constructor. Qed.

Lemma within_halt {k A} h : within k (halt (Rng:=Rng) (Results:=Results) (A:=A) h).
Proof. constructor. Qed.

Ltac within_tac :=
  repeat first
    [ apply within_ret | apply within_halt | apply within_print
    | apply within_bind; [| intros ? _]
    | match goal with
      | |- within _ (if ?b then _ else _) => destruct b
      | |- within _ (match ?x with _ => _ end) => destruct x
      | |- within _ (let (_, _) := ?x in _) => destruct x
      end
    | solve [repeat constructor; simpl; lia] ].

Lemma read_options_within args : within 0 (read_options (Rng:=Rng) (Results:=Results) args).
Proof. unfold read_options. within_tac. Qed.

Lemma output_location_within o j c : within 0 (output_location C o j c).
Proof. unfold output_location. within_tac. Qed.

Lemma prepare_within args o : within 0 (prepare C P args o).
Proof. unfold prepare, check_sample_count. within_tac. apply output_location_within. Qed.

Lemma load_within su : within 1 (load C su).
Proof. unfold load. within_tac. Qed.


Lemma compare_fields_within header_list :
  forall todo i, within 1 (compare_fields C header_list i todo).
Proof.
  induction todo as [| f todo IH]; intros i; simpl.
  - within_tac.
  - within_tac. apply IH.
Qed.

Lemma check_header_within : within 1 (check_header C).
Proof.
  unfold check_header. apply within_bind; [within_tac|]. intros _ _.
  apply compare_fields_within.
Qed.

Lemma signal_processing_within m : within 2 (signal_processing C m).
Proof. unfold signal_processing, py_assert, raise. within_tac. Qed.

Lemma sparse_segment_loop_within signal :
  forall todo st, within 3 (sparse_segment_loop C todo signal st).
Proof.
  induction todo as [| todo IH]; intros st.
  - within_tac.
  - rewrite sparse_segment_loop_step. cbv zeta.
    destruct (Np.sub _ signal) as [d |]; [destruct (negb (Np.any d))|].
    + unfold within, trace. simpl. constructor; [simpl; lia | apply IH].
    + repeat constructor.
    + repeat constructor.
Qed.

(** The header test, against equality of the two lists. *)
Lemma compare_fields_spec (header_list : list string) :
  forall (todo hs pre_h pre_f : list string),
    header_list = pre_h ++ hs ->
    OUTPUT_FIELDS C = pre_f ++ todo ->
    List.length pre_h = List.length pre_f ->
    List.length hs = List.length todo ->
    (hs = todo /\ compare_fields C header_list (List.length pre_f) todo = ([], inr tt)) \/
    (hs <> todo /\
     exists i h f,
       nth_error header_list i = Some h /\ nth_error (OUTPUT_FIELDS C) i = Some f /\
       h <> f /\
       compare_fields C header_list (List.length pre_f) todo =
         ([Print (MsgInvalidOutputFieldsAt h f)], inl (SysExit (-1)))).
Proof.
  induction todo as [| f todo IH]; intros hs pre_h pre_f Hh Hf Hpre Hlen.
  - destruct hs; [| discriminate]. left. split; reflexivity.
  - destruct hs as [| h hs]; [discriminate|]. simpl.
    assert (Eh : nth_error header_list (List.length pre_f) = Some h).
    { rewrite Hh, <- Hpre, nth_error_app2, Nat.sub_diag by lia. reflexivity. }
    assert (Ef : nth_error (OUTPUT_FIELDS C) (List.length pre_f) = Some f).
    { rewrite Hf, nth_error_app2, Nat.sub_diag by lia. reflexivity. }
    rewrite Eh, Ef. destruct (String.eqb h f) eqn:E; simpl.
    + apply String.eqb_eq in E. subst f.
      destruct (IH hs (pre_h ++ [h]) (pre_f ++ [h])) as [[-> Hc] | [Hne Hc]].
      * rewrite <- app_assoc. exact Hh.
      * rewrite <- app_assoc. exact Hf.
      * rewrite !length_app. simpl. lia.
      * simpl in Hlen. lia.
      * left. split; [reflexivity|]. rewrite length_app in Hc. simpl in Hc.
        rewrite Nat.add_1_r in Hc. exact Hc.
      * right. split; [congruence|]. rewrite length_app in Hc. simpl in Hc.
        rewrite Nat.add_1_r in Hc. exact Hc.
    + apply String.eqb_neq in E. right. split; [congruence|].
      exists (List.length pre_f), h, f. auto.
Qed.

Lemma check_header_spec :
  (get_preprocessed_header C = OUTPUT_FIELDS C /\ check_header C = ([], inr tt)) \/
  (get_preprocessed_header C <> OUTPUT_FIELDS C /\
   exists d,
     check_header C = ([Print d], inl (SysExit (-1))) /\
     ((List.length (get_preprocessed_header C) <> List.length (OUTPUT_FIELDS C) /\
       d = MsgInvalidOutputFieldsLength (get_preprocessed_header C) (OUTPUT_FIELDS C)) \/
      (exists i h f,
          nth_error (get_preprocessed_header C) i = Some h /\
          nth_error (OUTPUT_FIELDS C) i = Some f /\ h <> f /\
          d = MsgInvalidOutputFieldsAt h f))).
Proof.
  unfold check_header.
  destruct (List.length (get_preprocessed_header C) =? List.length (OUTPUT_FIELDS C))%nat eqn:E;
    simpl.
  - apply Nat.eqb_eq in E.
    destruct (compare_fields_spec (get_preprocessed_header C) (OUTPUT_FIELDS C)
                (get_preprocessed_header C) [] [] eq_refl eq_refl eq_refl E)
      as [[Heq Hc] | [Hne (i & h & f & Hh & Hf & Hhf & Hc)]]; simpl in Hc; rewrite Hc.
    + left. split; [exact Heq | reflexivity].
    + right. split; [exact Hne|]. eexists. split; [reflexivity|].
      right. exists i, h, f. auto.
  - apply Nat.eqb_neq in E. right. split; [congruence|].
    eexists. split; [reflexivity|]. left. split; [exact E | reflexivity].
Qed.


(** What [generate] does, by what the copula model returns. *)
Lemma generate_cases (o : Options) (su : Setup) (m : Model) (s : Series) (st : LoopState)
      (ts : Signal) :
  synthetic_timeseries st = Some ts ->
  let n := sample_count o ts in
  let cop := copula_n_variable_model C n (variable_names m) (tau_original m)
                                     (cdf_list m) (loop_rng st) in
  match fst (fst cop) with
  | None =>
      generate C o su m s st =
      ([Print (MsgTotalCounts (sample_count_orig s) (Np.sum ts));
        Called (CopulaNVariableModel (loop_rng st) n false (snd cop));
        Print MsgCopulaFatal], inl (SysExit (-1)))
  | Some d =>
      let cor := correct_invalid_pseudopersons C n (variable_names m) d
                   (tau_original m) (cdf_list m) (snd cop) in
      let res := remap_synthetic_results C (fst cor) (variable_names m) in
      let dt := generate_date_tuples C n ts (dates s) (variable_names m) res
                  (str_max_date_orig s) (snd cor) in
      generate C o su m s st =
      ([Print (MsgTotalCounts (sample_count_orig s) (Np.sum ts));
        Called (CopulaNVariableModel (loop_rng st) n true (snd cop));
        Called (CorrectInvalidPseudopersons (snd cop) n (snd cor));
        Called RemapSyntheticResults;
        Called (GenerateDateTuples (snd cor) n (fst dt) (snd dt));
        Print (MsgWritingOutputFile (output_file_path su));
        Called (WriteOutputFile (output_file_path su) n ts (dates s) (variable_names m)
                  res (str_max_date_orig s) (date_tuple_list (fst dt)))],
       inr tt)
  end.
Proof.
  intros Hts n cop. unfold generate. rewrite Hts. simpl.
  fold n. fold cop. destruct cop as [[[d |] tau] rng]; simpl; [| reflexivity].
  destruct (correct_invalid_pseudopersons C n (variable_names m) d
              (tau_original m) (cdf_list m) rng) as [d' rng']. simpl.
  destruct (generate_date_tuples C n ts (dates s) (variable_names m)
              (remap_synthetic_results C d' (variable_names m))
              (str_max_date_orig s) rng') as [out rng'']. reflexivity.
Qed.

Lemma generate_unbound (o : Options) (su : Setup) (m : Model) (s : Series) (st : LoopState) :
  synthetic_timeseries st = None ->
  generate C o su m s st = ([], inl (Uncaught NameError)).
Proof. intros E. unfold generate. rewrite E. reflexivity. Qed.

Lemma read_options_cases (args : Args) :
  read_options (Rng:=Rng) (Results:=Results) args =
    ([Print (MsgArguments (outfile (options_of args)) None (rng_seed (options_of args))
                          (disable_grouping (options_of args))
                          (syphilis_total (options_of args)))],
     inr (options_of args)) \/
  (exists p,
      arg_outfile args = Some p /\ p <> "" /\
      Py.endswith p "csv" = false /\ Py.endswith p "json" = false /\
      read_options (Rng:=Rng) (Results:=Results) args =
        ([Print MsgSupportedExtensions], inl (SysExit (-1)))).
Proof.
  unfold read_options, options_of.
  destruct args as [d j c [p |] ns seed dbg dg sy]; simpl.
  - destruct (String.eqb p "") eqn:Ep; simpl.
    + left. destruct dg, sy; reflexivity.
    + destruct (Py.endswith p "csv") eqn:E1; simpl.
      * left. destruct dg, sy; reflexivity.
      * destruct (Py.endswith p "json") eqn:E2; simpl.
        -- left. destruct dg, sy; reflexivity.
        -- right. exists p. repeat split; auto. intros ->. discriminate.
  - left. destruct dg, sy; reflexivity.
Qed.

Lemma read_options_value (args : Args) (o : Options) :
  outcome (read_options (Rng:=Rng) (Results:=Results) args) = inr o -> o = options_of args.
Proof.
  destruct (read_options_cases args) as [E | (p & _ & _ & _ & _ & E)];
    rewrite E; unfold outcome; simpl; congruence.
Qed.

(** An output file without an extension does not get past line 249. *)
Lemma output_location_no_extension (o : Options) (j : string) (codes : list Z) (p : string) :
  outfile o = Some p -> snd (Py.splitext p) = "" ->
  output_location C o j codes = ([Print (MsgUnsupportedFormat "")], inl (SysExit (-1))).
Proof. intros Ho He. unfold output_location. rewrite Ho, He. reflexivity. Qed.

Lemma output_location_halts (o : Options) (j : string) (codes : list Z) (h : Halt) :
  outcome (output_location C o j codes) = inl h -> h = SysExit (-1).
Proof.
  unfold output_location. destruct (outfile o) as [p |]; simpl; [| discriminate].
  destruct (negb _ && negb _); simpl; [congruence | discriminate].
Qed.

Lemma prepare_no_dir (args : Args) (o : Options) :
  os_path_isdir P (arg_hl7_dir args) = false ->
  prepare C P args o =
  (debug_events args ++ [Print (MsgNoHl7Dir (arg_hl7_dir args))], inl (SysExit (-1))).
Proof.
  intros E. unfold prepare, debug_events. rewrite E.
  destruct (arg_debug args); reflexivity.
Qed.

Lemma prepare_no_data (args : Args) (o : Options) (c : Z) :
  os_path_isdir P (arg_hl7_dir args) = true ->
  py_int P (arg_condition_code args) = Some c ->
  build_input_filepaths C (arg_hl7_dir args) (arg_jurisdiction args)
                        (code_list_of C o c) = [] ->
  prepare C P args o =
  (debug_events args ++
   [Print (MsgCodeGroup (code_list_of C o c));
    Print (MsgNoData (arg_jurisdiction args) (code_list_of C o c))],
   inl (SysExit 0)).
Proof.
  intros E1 E2 E3. unfold prepare, debug_events. rewrite E1, E2. simpl.
  unfold code_list_of in E3. 
  destruct (arg_debug args); simpl; rewrite E3; reflexivity.
Qed.

Lemma outcome_bind_inr {A B} (m : Run A) (f : A -> Run B) (b : B) :
  outcome (bind m f) = inr b -> exists a, outcome m = inr a /\ outcome (f a) = inr b.
Proof.
  destruct m as [t [h | a]]; unfold outcome; simpl; [discriminate|].
  destruct (f a) as [t' r] eqn:E. simpl. intros ->. exists a. rewrite E. auto.
Qed.

Ltac bind_inv H :=
  apply outcome_bind_inr in H;
  let a := fresh "a" in let Ha := fresh "Ha" in destruct H as (a & Ha & H).

Lemma prepare_value (args : Args) (o : Options) (su : Setup) :
  outcome (prepare C P args o) = inr su ->
  os_path_isdir P (arg_hl7_dir args) = true /\
  rng0 su = init_rng C (rng_seed o) (system_time P) /\
  exists c loc,
    py_int P (arg_condition_code args) = Some c /\
    code_list su = code_list_of C o c /\
    infile_list su = build_input_filepaths C (arg_hl7_dir args) (arg_jurisdiction args)
                                           (code_list_of C o c) /\
    infile_list su <> [] /\
    outcome (output_location C o (arg_jurisdiction args) (code_list_of C o c)) = inr loc /\
    build_output_filepath C (fst loc) (snd loc) = Some (output_file_path su).
Proof.
  unfold prepare. intros H.
  bind_inv H. bind_inv H.
  destruct (os_path_isdir P (arg_hl7_dir args)); [| discriminate Ha0].
  bind_inv H. destruct (py_int P (arg_condition_code args)) as [c |]; [| discriminate Ha1].
  injection Ha1 as <-. fold (code_list_of C o c) in H.
  bind_inv H. bind_inv H.
  destruct (build_input_filepaths C _ _ _) as [| f fs] eqn:Ef; [discriminate Ha2|].
  bind_inv H. bind_inv H. rename a4 into loc. bind_inv H.
  destruct (build_output_filepath C _ _) as [p |] eqn:Ep; [| discriminate Ha5].
  injection Ha5 as <-.
  bind_inv H. bind_inv H. bind_inv H. injection H as <-. simpl.
  split; [reflexivity|]. split; [reflexivity|].
  exists c, loc. rewrite Ef. repeat split; auto. discriminate.
Qed.

End Stages.


(** The values of [delta] over the seven attempts, as binary64 numbers. *)
Lemma delta_of_values :
  map delta_of [0; 1; 2; 3; 4; 5; 6] =
  [0%float; 0x1.999999999999ap-4%float; 0x1.999999999999ap-3%float;
   0x1.3333333333334p-2%float; 0x1.999999999999ap-2%float; 0.5%float;
   0x1.3333333333334p-1%float].
Proof. reflexivity. Qed.

(** ** A failed copula model *)

Section Whole.
Context {Rng Tau Cdfs FileData Results : Type}.
Variable C : Collaborators Rng Tau Cdfs FileData Results.
Variable P : Platform.
Local Abbreviation Run := (Run Rng Results).

Lemma within_le {A} (j k : nat) (m : Run A) :
  (j <= k)%nat -> within j m -> within k m.
Proof.
  intros Hjk. unfold within. apply Forall_impl. intros e He. lia.
Qed.

Lemma early_events (t : list (Event Rng Results)) :
  Forall (fun e => (phase e <= 3)%nat) t ->
  existsb copula_failed t = false /\ Forall (fun e => after_copula e = false) t.
Proof.
  induction 1 as [| e t He _ [IH1 IH2]]; [split; [reflexivity | constructor]|].
  split.
  - simpl. rewrite IH1, orb_false_r. destruct e as [d | []]; simpl in *; try reflexivity; lia.
  - constructor; [| exact IH2]. unfold after_copula. apply Nat.leb_gt. lia.
Qed.

Lemma aborts_at_copula_bind {A} (m : Run A) (f : A -> Run unit) :
  within 3 m -> (forall a, aborts_at_copula (f a)) -> aborts_at_copula (bind m f).
Proof.
  intros Hm Hf. destruct (early_events _ Hm) as [Hno Hearly].
  destruct (outcome m) as [h | a] eqn:E.
  - rewrite (bind_halted _ _ _ E). unfold aborts_at_copula, trace at 1. simpl.
    rewrite Hno. discriminate.
  - rewrite (bind_value _ _ _ E). unfold aborts_at_copula, trace at 1 3 4, outcome at 1.
    simpl. rewrite existsb_app, Hno. simpl. intros H.
    destruct (Hf a H) as (Ho & (pre & rng & n & rng' & Ht) & Hall).
    split; [exact Ho|]. split.
    + exists (trace m ++ pre), rng, n, rng'. rewrite Ht, app_assoc. reflexivity.
    + apply Forall_app. split; assumption.
Qed.

Lemma generate_aborts_at_copula o su m s st : aborts_at_copula (generate C o su m s st).
Proof.
  destruct (synthetic_timeseries st) as [ts |] eqn:Ets.
  - pose proof (generate_cases C o su m s st ts Ets) as H. cbv zeta in H.
    destruct (fst (fst (copula_n_variable_model C _ _ _ _ _))); rewrite H;
      unfold aborts_at_copula, trace, outcome; simpl; [discriminate|].
    intros _. split; [reflexivity|]. split.
    + eexists [_], _, _, _. reflexivity.
    + repeat constructor.
  - rewrite (generate_unbound C o su m s st Ets). unfold aborts_at_copula. simpl. discriminate.
Qed.

(** C4: when the copula model returns [None] for the synthetic data, the
    run ends at once with [sys.exit(-1)] after printing the fatal-error
    line that names [copula_n_variable_model]; pseudoperson correction,
    remapping, date-tuple derivation and the output file are never
    reached. *)
Theorem copula_failure_aborts (args : Args)
        (H : existsb copula_failed (trace (main C P args)) = true) :
  outcome (main C P args) = inl (SysExit (-1)) /\
  (exists pre rng n rng',
      trace (main C P args) =
      pre ++ [Called (CopulaNVariableModel rng n false rng'); Print MsgCopulaFatal]) /\
  Forall (fun e => after_copula e = false) (trace (main C P args)).
Proof.
  revert H. change (aborts_at_copula (main C P args)). unfold main.
  apply aborts_at_copula_bind; [apply (within_le 0); [lia | apply read_options_within]|].
  intros o. apply aborts_at_copula_bind; [apply (within_le 0); [lia | apply prepare_within]|].
  intros su. apply aborts_at_copula_bind; [apply (within_le 1); [lia | apply load_within]|].
  intros m. apply aborts_at_copula_bind; [apply (within_le 1); [lia | apply check_header_within]|].
  intros _. apply aborts_at_copula_bind; [apply (within_le 2); [lia | apply signal_processing_within]|].
  intros s. apply aborts_at_copula_bind; [apply sparse_segment_loop_within|].
  intros st. apply generate_aborts_at_copula.
Qed.
End Whole.

(** ** The date tuple deriver *)

Lemma Z2Nat_to_nat_nonpos (z : Z) : z <= 0 -> Z.to_nat z = O.
Proof. intros H. destruct z; simpl; try reflexivity. lia. Qed.

Section DeriverFacts.
Context {Rng : Type}.
Variable sample_offsets : Rng -> Date -> Date -> list Z * Rng.

Lemma derive_dates_bounded rng day max_original_date :
  day <= Calendar.MAX_DATE ->
  dated_within_ceiling (fst (derive_dates sample_offsets rng day max_original_date)).
Proof.
  intros Hd. unfold derive_dates.
  destruct (sample_offsets rng day max_original_date) as [offs rng']. simpl.
  split; [exact Hd|]. simpl. apply Forall_map, Forall_forall. intros k _. lia.
Qed.

Lemma assign_day_spec day max_original_date :
  forall count unassigned rng,
    let '(ts, rest, _) := assign_day sample_offsets count unassigned day max_original_date rng in
    (List.length ts + rest = unassigned)%nat /\
    (List.length ts <= count)%nat /\
    (day <= Calendar.MAX_DATE -> Forall dated_within_ceiling ts).
Proof.
  induction count as [| count IH]; intros unassigned rng; simpl.
  - repeat split; first [simpl; lia | intros; constructor].
  - destruct unassigned as [| u]; [repeat split; first [simpl; lia | intros; constructor]|].
    pose proof (derive_dates_bounded rng day max_original_date) as Hb.
    destruct (derive_dates sample_offsets rng day max_original_date) as [t rng1].
    specialize (IH u rng1).
    destruct (assign_day sample_offsets count u day max_original_date rng1)
      as [[ts rest] rng2].
    destruct IH as (H1 & H2 & H3). simpl. repeat split; try lia.
    intros Hd. constructor; [apply Hb, Hd | apply H3, Hd].
Qed.

Lemma place_days_spec max_original_date :
  forall days counts unassigned rng,
    let '(ts, rest, halted, _) :=
      place_days sample_offsets days counts unassigned max_original_date rng in
    (List.length ts + rest = unassigned)%nat /\ Forall dated_within_ceiling ts.
Proof.
  induction days as [| day days IH]; intros counts unassigned rng; simpl.
  - destruct unassigned; auto.
  - destruct unassigned as [| u]; [auto|].
    destruct counts as [| c counts]; [auto|].
    destruct (Calendar.MAX_DATE <? day) eqn:E; [auto|].
    apply Z.ltb_ge in E.
    pose proof (assign_day_spec day max_original_date (Z.to_nat c) (S u) rng) as Ha.
    destruct (assign_day sample_offsets (Z.to_nat c) (S u) day max_original_date rng)
      as [[ts rest] rng1].
    specialize (IH counts rest rng1).
    destruct (place_days sample_offsets days counts rest max_original_date rng1)
      as [[[ts' rest'] halted] rng2].
    destruct Ha as (H1 & _ & H3). destruct IH as (H4 & H5).
    rewrite length_app. split; [lia|]. apply Forall_app. split; [apply H3, E | exact H5].
Qed.

Lemma place_future_spec counts max_original_date :
  forall days_left day k unassigned rng,
    (days_left = O \/ day + Z.of_nat days_left <= Calendar.MAX_DATE + 1) ->
    let '(ts, halted, _) :=
      place_future sample_offsets days_left day k counts unassigned max_original_date rng in
    (List.length ts <= unassigned)%nat /\
    (halted = false -> List.length ts = unassigned) /\
    Forall dated_within_ceiling ts.
Proof.
  induction days_left as [| days_left IH]; intros day k unassigned rng Hinv; simpl.
  - destruct unassigned;
      (split; [simpl; lia | split; [try discriminate; reflexivity | constructor]]).
  - destruct unassigned as [| u];
      [split; [simpl; lia | split; [reflexivity | constructor]]|].
    destruct Hinv as [Hinv | Hinv]; [discriminate|].
    set (c := nth (k mod List.length counts)%nat counts 0).
    pose proof (assign_day_spec day max_original_date (Z.to_nat c) (S u) rng) as Ha.
    destruct (assign_day sample_offsets (Z.to_nat c) (S u) day max_original_date rng)
      as [[ts rest] rng1].
    assert (Hinv' : days_left = O \/ day + 1 + Z.of_nat days_left <= Calendar.MAX_DATE + 1)
      by (right; lia).
    specialize (IH (day + 1) (S k) rest rng1 Hinv').
    destruct (place_future sample_offsets days_left (day + 1) (S k) counts rest
                           max_original_date rng1) as [[ts' halted] rng2].
    destruct Ha as (H1 & _ & H3). destruct IH as (H4 & H5 & H6).
    rewrite length_app. split; [lia|]. split; [intros Hh; specialize (H5 Hh); lia|].
    apply Forall_app. split; [apply H3; lia | exact H6].
Qed.

(** The deriver returns at most [n] date tuples, none with a date past
    the maximum date, and all [n] of them unless it reports that the
    maximum date was reached. *)
Lemma derive_date_tuples_spec {Results : Type} (n : Z) (synthetic_signal : Signal)
      (days : list Date) (variable_order : list string) (tuples : Results)
      (max_original_date : Date) (rng : Rng) :
  let out := fst (derive_date_tuples sample_offsets n synthetic_signal days variable_order
                                     tuples max_original_date rng) in
  (List.length (date_tuple_list out) <= Z.to_nat n)%nat /\
  Forall dated_within_ceiling (date_tuple_list out) /\
  (ceiling_reached out = false -> List.length (date_tuple_list out) = Z.to_nat n).
Proof.
  unfold derive_date_tuples.
  pose proof (place_days_spec max_original_date days synthetic_signal (Z.to_nat n) rng) as H1.
  destruct (place_days sample_offsets days synthetic_signal (Z.to_nat n) max_original_date rng)
    as [[[ts rest] halted] rng1].
  destruct H1 as [Hlen Hall]. destruct halted.
  - cbn [fst date_tuple_list ceiling_reached].
    split; [lia|]. split; [exact Hall | discriminate].
  - pose proof (place_future_spec synthetic_signal max_original_date
                  (Z.to_nat (Calendar.MAX_DATE - max_original_date))
                  (max_original_date + 1) 0 rest rng1) as H2.
    remember (Z.to_nat (Calendar.MAX_DATE - max_original_date)) as left_days eqn:El.
    destruct (place_future sample_offsets left_days (max_original_date + 1) 0
                synthetic_signal rest max_original_date rng1) as [[ts' halted'] rng2].
    cbn [fst date_tuple_list ceiling_reached].
    destruct H2 as (H3 & H4 & H5).
    { destruct (Z.le_gt_cases max_original_date Calendar.MAX_DATE) as [Hle | Hgt].
      - right. subst left_days. rewrite Z2Nat.id by lia. lia.
      - left. subst left_days. apply Z2Nat_to_nat_nonpos. lia. }
    rewrite length_app. split; [lia|]. split; [apply Forall_app; split; assumption|].
    intros Hh. specialize (H4 Hh). lia.
Qed.
End DeriverFacts.

(** ** Exit statuses *)

Section Exits.
Context {Rng Tau Cdfs FileData Results : Type}.
Variable C : Collaborators Rng Tau Cdfs FileData Results.
Variable P : Platform.
Local Abbreviation Run := (Run Rng Results).

Lemma exits_bind {A B} (m : Run A) (f : A -> Run B) :
  exits_cleanly_only_without_data m ->
  (forall a, exits_cleanly_only_without_data (f a)) ->
  exits_cleanly_only_without_data (bind m f).
Proof.
  intros Hm Hf. destruct (outcome m) as [h | a] eqn:E.
  - rewrite (bind_halted _ _ _ E). intros status Hs. unfold outcome in Hs. simpl in Hs.
    injection Hs as ->. exact (Hm status E).
  - rewrite (bind_value _ _ _ E). intros status Hs. unfold outcome in Hs. simpl in Hs.
    destruct (Hf a status Hs) as [H1 | [H0 (pre & j & cs & Ht)]]; [left; exact H1|].
    right. split; [exact H0|]. exists (trace m ++ pre), j, cs.
    unfold trace at 1. simpl. rewrite Ht, app_assoc. reflexivity.
Qed.

Lemma exits_value {A} (t : list (Event Rng Results)) (a : A) :
  exits_cleanly_only_without_data (t, inr a).
Proof. intros status H. discriminate H. Qed.

Lemma exits_error {A} (t : list (Event Rng Results)) :
  exits_cleanly_only_without_data (A:=A) (t, inl (SysExit (-1))).
Proof. intros status H. injection H as <-. left. reflexivity. Qed.

Lemma exits_raise {A} (t : list (Event Rng Results)) (e : PyException) :
  exits_cleanly_only_without_data (A:=A) (t, inl (Uncaught e)).
Proof. intros status H. discriminate H. Qed.

Lemma exits_error_exit {A} (t : list (Event Rng Results)) (s : string) :
  exits_cleanly_only_without_data (A:=A) (t, inl (ErrorExit s)).
Proof. intros status H. discriminate H. Qed.

Lemma exits_no_data {A} (j : string) (cs : list Z) :
  exits_cleanly_only_without_data (A:=A)
    (bind (print (Rng:=Rng) (Results:=Results) (MsgNoData j cs)) (fun _ => sys_exit 0)).
Proof.
  intros status H. right. injection H as <-. split; [reflexivity|].
  exists [], j, cs. reflexivity.
Qed.

Ltac exits_tac :=
  repeat first
    [ apply exits_no_data
    | apply exits_value | apply exits_error | apply exits_raise | apply exits_error_exit
    | apply exits_bind; [| intros ?]
    | match goal with
      | |- exits_cleanly_only_without_data (if ?b then _ else _) => destruct b
      | |- exits_cleanly_only_without_data (match ?x with _ => _ end) => destruct x
      | |- exits_cleanly_only_without_data (let (_, _) := ?x in _) => destruct x
      end ].

Lemma read_options_exits args :
  exits_cleanly_only_without_data (read_options (Rng:=Rng) (Results:=Results) args).
Proof. unfold read_options. exits_tac. Qed.

Lemma output_location_exits o j cs :
  exits_cleanly_only_without_data (output_location C o j cs).
Proof. unfold output_location. exits_tac. Qed.

Lemma prepare_exits args o : exits_cleanly_only_without_data (prepare C P args o).
Proof.
  unfold prepare, check_sample_count. exits_tac. apply output_location_exits.
Qed.

Lemma load_exits su : exits_cleanly_only_without_data (load C su).
Proof. unfold load. exits_tac. Qed.

Lemma check_header_exits : exits_cleanly_only_without_data (check_header C).
Proof.
  destruct (check_header_spec C) as [[_ E] | [_ (d & E & _)]]; rewrite E.
  - apply exits_value.
  - apply exits_error.
Qed.

Lemma signal_processing_exits m : exits_cleanly_only_without_data (signal_processing C m).
Proof. unfold signal_processing, py_assert. exits_tac. Qed.

Lemma sparse_segment_loop_exits signal :
  forall todo st, exits_cleanly_only_without_data (sparse_segment_loop C todo signal st).
Proof.
  induction todo as [| todo IH]; intros st.
  - apply exits_value.
  - rewrite sparse_segment_loop_step. cbv zeta.
    destruct (Np.sub _ signal) as [d |]; [destruct (negb (Np.any d))|].
    + intros status H. unfold outcome in H. simpl in H.
      destruct (IH _ status H) as [H1 | [H0 (pre & j & cs & Ht)]]; [left; exact H1|].
      right. split; [exact H0|]. eexists (_ :: pre), j, cs.
      unfold trace in *. simpl. f_equal. exact Ht.
    + apply exits_value.
    + apply exits_raise.
Qed.

Lemma generate_exits o su m s st : exits_cleanly_only_without_data (generate C o su m s st).
Proof.
  destruct (synthetic_timeseries st) as [ts |] eqn:Ets.
  - pose proof (generate_cases C o su m s st ts Ets) as H. cbv zeta in H.
    destruct (fst (fst (copula_n_variable_model C _ _ _ _ _))); rewrite H.
    + apply exits_value.
    + apply exits_error.
  - rewrite (generate_unbound C o su m s st Ets). apply exits_raise.
Qed.

Lemma main_exits args : exits_cleanly_only_without_data (main C P args).
Proof.
  unfold main.
  apply exits_bind; [apply read_options_exits | intros o].
  apply exits_bind; [apply prepare_exits | intros su].
  apply exits_bind; [apply load_exits | intros m].
  apply exits_bind; [apply check_header_exits | intros _].
  apply exits_bind; [apply signal_processing_exits | intros s].
  apply exits_bind; [apply sparse_segment_loop_exits | intros st].
  apply generate_exits.
Qed.

(** C7: when no input file is found for the jurisdiction and the code
    group, the run prints the line that names the jurisdiction and the
    codes and ends with [sys.exit(0)], before anything is read; every
    other [sys.exit] of the script has status [-1], among them the ones
    for a data directory that does not exist, for an unsupported
    extension and for a header that does not match. *)
Theorem no_data_exits_cleanly (args : Args) (o : Options) (c : Z)
        (Hopt : outcome (read_options (Rng:=Rng) (Results:=Results) args) = inr o)
        (Hdir : os_path_isdir P (arg_hl7_dir args) = true)
        (Hcode : py_int P (arg_condition_code args) = Some c)
        (Hnone : build_input_filepaths C (arg_hl7_dir args) (arg_jurisdiction args)
                                       (code_list_of C o c) = []) :
  main C P args =
    (trace (read_options (Rng:=Rng) (Results:=Results) args) ++ debug_events args ++
     [Print (MsgCodeGroup (code_list_of C o c));
      Print (MsgNoData (arg_jurisdiction args) (code_list_of C o c))],
     inl (SysExit 0)) /\
  Forall (fun e => reads_or_generates e = false) (trace (main C P args)) /\
  (forall args' status,
      outcome (main C P args') = inl (SysExit status) ->
      status = -1 \/
      (status = 0 /\ exists pre jurisdiction codes,
          trace (main C P args') = pre ++ [Print (MsgNoData jurisdiction codes)])) /\
  (forall args' o',
      os_path_isdir P (arg_hl7_dir args') = false ->
      outcome (prepare C P args' o') = inl (SysExit (-1))) /\
  (forall args' h,
      outcome (read_options (Rng:=Rng) (Results:=Results) args') = inl h ->
      h = SysExit (-1)) /\
  (forall o' j cs h, outcome (output_location C o' j cs) = inl h -> h = SysExit (-1)) /\
  (get_preprocessed_header C <> OUTPUT_FIELDS C ->
   outcome (check_header C) = inl (SysExit (-1))).
Proof.
  assert (Hmain : main C P args =
    (trace (read_options (Rng:=Rng) (Results:=Results) args) ++ debug_events args ++
     [Print (MsgCodeGroup (code_list_of C o c));
      Print (MsgNoData (arg_jurisdiction args) (code_list_of C o c))],
     inl (SysExit 0))).
  { unfold main. rewrite (bind_value _ _ _ Hopt).
    rewrite (prepare_no_data C P args o c Hdir Hcode Hnone). reflexivity. }
  split; [exact Hmain|]. split.
  { rewrite Hmain. unfold trace at 1. simpl.
    pose proof (read_options_within (Rng:=Rng) (Results:=Results) args) as W.
    apply Forall_app. split.
    - eapply Forall_impl; [| exact W]. intros e He. cbv beta in He.
      unfold reads_or_generates. apply Nat.leb_gt. lia.
    - unfold debug_events. destruct (arg_debug args); repeat constructor. }
  split; [intros args'; apply main_exits|].
  split; [intros args' o' E; rewrite (prepare_no_dir C P args' o' E); reflexivity|].
  split.
  { intros args' h E.
    destruct (read_options_cases (Rng:=Rng) (Results:=Results) args')
      as [E' | (p & _ & _ & _ & _ & E')];
      rewrite E' in E; unfold outcome in E; simpl in E; congruence. }
  split; [intros o' j cs h; apply output_location_halts|].
  intros Hne. destruct (check_header_spec C) as [[Heq _] | [_ (d & E & _)]];
    [contradiction | rewrite E; reflexivity].
Qed.

End Exits.

(** The failed copula model of the [bad_tau] run. *)
Lemma copula_failure_aborts_witness :
  existsb copula_failed
          (trace (main (Reference.collaborators Reference.bad_tau) (Reference.platform 1)
                       (Reference.args "CT" None None (Some 42)))) = true /\
  outcome (main (Reference.collaborators Reference.bad_tau) (Reference.platform 1)
                (Reference.args "CT" None None (Some 42))) = inl (SysExit (-1)).
Proof.
  split; [reflexivity|].
  apply (copula_failure_aborts (Reference.collaborators Reference.bad_tau)
                               (Reference.platform 1)
                               (Reference.args "CT" None None (Some 42))).
  reflexivity.
Defined.

(** ** The header of the preprocessed data *)

(** C8: the header list of the preprocessed data is compared with the
    output fields before any signal processing; when the two lists are
    equal the check leaves no trace and the run goes on as if it were
    not there; when they differ, in length or at some position, the run
    prints the mismatch and ends with [sys.exit(-1)], and nothing is
    generated. *)
Theorem header_mismatch_is_fatal {Rng Tau Cdfs FileData Results : Type}
        (C : Collaborators Rng Tau Cdfs FileData Results) (P : Platform)
        (args : Args) (o : Options) (su : Setup) (m : Model)
        (Ho : outcome (read_options (Rng:=Rng) (Results:=Results) args) = inr o)
        (Hsu : outcome (prepare C P args o) = inr su)
        (Hm : outcome (load C su) = inr m) :
  let before := trace (read_options (Rng:=Rng) (Results:=Results) args) ++
                trace (prepare C P args o) ++ trace (load C su) in
  let rest := bind (signal_processing C m) (fun s =>
              bind (modify_sparse C s) (fun st => generate C o su m s st)) in
  (get_preprocessed_header C = OUTPUT_FIELDS C ->
   check_header C = ([], inr tt) /\
   main C P args = (before ++ trace rest, outcome rest)) /\
  (get_preprocessed_header C <> OUTPUT_FIELDS C ->
   exists d,
     main C P args = (before ++ [Print d], inl (SysExit (-1))) /\
     ((List.length (get_preprocessed_header C) <> List.length (OUTPUT_FIELDS C) /\
       d = MsgInvalidOutputFieldsLength (get_preprocessed_header C) (OUTPUT_FIELDS C)) \/
      (exists i h f,
          nth_error (get_preprocessed_header C) i = Some h /\
          nth_error (OUTPUT_FIELDS C) i = Some f /\ h <> f /\
          d = MsgInvalidOutputFieldsAt h f)) /\
     Forall (fun e => generation e = false) (trace (main C P args))).
Proof.
  intros before rest.
  assert (Hmain : main C P args =
                  (before ++ trace (bind (check_header C) (fun _ => rest)),
                   outcome (bind (check_header C) (fun _ => rest)))).
  { unfold main. rewrite (bind_value _ _ _ Ho). unfold trace at 2, outcome at 1. simpl.
    rewrite (bind_value _ _ _ Hsu). unfold trace at 3, outcome at 1. simpl.
    rewrite (bind_value _ _ _ Hm). unfold trace at 4, outcome at 1. simpl.
    unfold before. rewrite <- !app_assoc. reflexivity. }
  assert (Hbefore : Forall (fun e : Event Rng Results => generation e = false) before).
  { unfold before. repeat (apply Forall_app; split).
    - pose proof (read_options_within (Rng:=Rng) (Results:=Results) args) as W.
      eapply Forall_impl; [| exact W]. intros e He. cbv beta in He.
      unfold generation. apply Nat.leb_gt. lia.
    - pose proof (prepare_within C P args o) as W.
      eapply Forall_impl; [| exact W]. intros e He. cbv beta in He.
      unfold generation. apply Nat.leb_gt. lia.
    - pose proof (load_within C su) as W.
      eapply Forall_impl; [| exact W]. intros e He. cbv beta in He.
      unfold generation. apply Nat.leb_gt. lia. }
  destruct (check_header_spec C) as [[Heq E] | [Hne (d & E & Hd)]].
  - split; [| intros Hne; contradiction].
    intros _. split; [exact E|]. rewrite Hmain.
    rewrite (bind_value (check_header C) _ tt) by (rewrite E; reflexivity).
    rewrite E. reflexivity.
  - split; [intros Heq; contradiction|].
    intros _. exists d. rewrite Hmain, E. unfold trace, outcome. simpl.
    split; [reflexivity|]. split; [exact Hd|].
    apply Forall_app. split; [exact Hbefore | repeat constructor].
Qed.

(** The [bad_header] run: the field [count] is spelled [COUNT] in the
    header. *)
Lemma header_mismatch_is_fatal_witness :
  outcome (read_options (Rng:=Z) (Results:=Tuples) (Reference.args "CT" None None (Some 42)))
    = inr (options_of (Reference.args "CT" None None (Some 42))) /\
  outcome (prepare (Reference.collaborators Reference.bad_header) (Reference.platform 1)
                   (Reference.args "CT" None None (Some 42))
                   (options_of (Reference.args "CT" None None (Some 42))))
    = inr Reference.ct_setup /\
  outcome (load (Reference.collaborators Reference.bad_header) Reference.ct_setup)
    = inr Reference.lyme_model /\
  exists d,
    main (Reference.collaborators Reference.bad_header) (Reference.platform 1)
         (Reference.args "CT" None None (Some 42)) =
    ((trace (read_options (Rng:=Z) (Results:=Tuples)
                          (Reference.args "CT" None None (Some 42))) ++
      trace (prepare (Reference.collaborators Reference.bad_header) (Reference.platform 1)
                     (Reference.args "CT" None None (Some 42))
                     (options_of (Reference.args "CT" None None (Some 42)))) ++
      trace (load (Reference.collaborators Reference.bad_header) Reference.ct_setup)) ++
     [Print d], inl (SysExit (-1))).
Proof.
  split; [reflexivity|]. split; [reflexivity|]. split; [reflexivity|].
  destruct (header_mismatch_is_fatal
              (Reference.collaborators Reference.bad_header) (Reference.platform 1)
              (Reference.args "CT" None None (Some 42))
              (options_of (Reference.args "CT" None None (Some 42)))
              Reference.ct_setup Reference.lyme_model eq_refl eq_refl eq_refl)
    as [_ H].
  destruct H as (d & Hd & _); [discriminate|].
  exists d. exact Hd.
Defined.

(** The run for a jurisdiction without data. *)
Lemma no_data_exits_cleanly_witness :
  outcome (read_options (Rng:=Z) (Results:=Tuples) (Reference.args "ZZ" None None (Some 42)))
    = inr (options_of (Reference.args "ZZ" None None (Some 42))) /\
  main (Reference.collaborators Reference.lyme) (Reference.platform 1)
       (Reference.args "ZZ" None None (Some 42)) =
  ([Print (MsgArguments None None (Some 42) false false);
    Print (MsgCodeGroup [11080]); Print (MsgNoData "ZZ" [11080])],
   inl (SysExit 0)).
Proof.
  split; [reflexivity|].
  apply (no_data_exits_cleanly (Reference.collaborators Reference.lyme)
           (Reference.platform 1) (Reference.args "ZZ" None None (Some 42))
           (options_of (Reference.args "ZZ" None None (Some 42))) 11080);
    reflexivity.
Defined.

(** ** Date tuples and the output file *)

Lemma max_date_ordinal : Calendar.MAX_DATE = 3652059.
Proof. reflexivity. Qed.

(** C5: the date tuple deriver returns at most [n] date tuples, in the
    order it places them, none with a date beyond [9999-12-31]; when it
    stops at that date with tuples still unassigned, the driver goes on
    with the tuples it got and writes the output file. *)
Theorem date_tuples_stop_at_ceiling {Rng Tau Cdfs FileData Results : Type}
        (C : Collaborators Rng Tau Cdfs FileData Results)
        (sample_offsets : Rng -> Date -> Date -> list Z * Rng)
        (o : Options) (su : Setup) (m : Model) (s : Series) (st : LoopState)
        (ts : Signal) (d : Tuples)
        (Hts : synthetic_timeseries st = Some ts)
        (Hcop : fst (fst (copula_n_variable_model C (sample_count o ts) (variable_names m)
                            (tau_original m) (cdf_list m) (loop_rng st))) = Some d) :
  exists pre rng out rng' results,
    generate (with_date_deriver C sample_offsets) o su m s st =
      (pre ++
       [Called (GenerateDateTuples rng (sample_count o ts) out rng');
        Print (MsgWritingOutputFile (output_file_path su));
        Called (WriteOutputFile (output_file_path su) (sample_count o ts) ts (dates s)
                  (variable_names m) results (str_max_date_orig s)
                  (date_tuple_list out))],
       inr tt) /\
    (List.length (date_tuple_list out) <= Z.to_nat (sample_count o ts))%nat /\
    Forall dated_within_ceiling (date_tuple_list out) /\
    (ceiling_reached out = false ->
     List.length (date_tuple_list out) = Z.to_nat (sample_count o ts)) /\
    Calendar.MAX_DATE = Calendar.ymd2ord 9999 12 31.
Proof.
  pose proof (generate_cases (with_date_deriver C sample_offsets) o su m s st ts Hts) as H.
  cbv zeta in H. cbn [copula_n_variable_model with_date_deriver] in H.
  rewrite Hcop in H.
  cbn [generate_date_tuples correct_invalid_pseudopersons remap_synthetic_results
       with_date_deriver] in H.
  set (n := sample_count o ts) in *.
  set (cop := copula_n_variable_model C n (variable_names m) (tau_original m)
                (cdf_list m) (loop_rng st)) in *.
  set (cor := correct_invalid_pseudopersons C n (variable_names m) d (tau_original m)
                (cdf_list m) (snd cop)) in *.
  set (res := remap_synthetic_results C (fst cor) (variable_names m)) in *.
  destruct (derive_date_tuples_spec sample_offsets n ts (dates s) (variable_names m) res
              (str_max_date_orig s) (snd cor)) as (Hlen & Hall & Hfull).
  set (dt := derive_date_tuples sample_offsets n ts (dates s) (variable_names m) res
               (str_max_date_orig s) (snd cor)) in *.
  exists [Print (MsgTotalCounts (sample_count_orig s) (Np.sum ts));
          Called (CopulaNVariableModel (loop_rng st) n true (snd cop));
          Called (CorrectInvalidPseudopersons (snd cop) n (snd cor));
          Called RemapSyntheticResults],
         (snd cor), (fst dt), (snd dt), res.
  split; [exact H|]. split; [exact Hlen|]. split; [exact Hall|].
  split; [exact Hfull | reflexivity].
Qed.

(** Five samples asked of a series that ends on [9999-12-31] with two
    cases: two tuples are dated, the deriver reports the ceiling, and
    the output file is written. *)
Lemma date_tuples_stop_at_ceiling_witness :
  synthetic_timeseries Reference.last_days_state = Some [1; 1] /\
  exists pre rng out rng' results,
    generate (with_date_deriver (Reference.collaborators Reference.lyme) Reference.offsets)
             Reference.five_samples Reference.ct_setup Reference.lyme_model
             Reference.last_days Reference.last_days_state =
      (pre ++
       [Called (GenerateDateTuples rng 5 out rng');
        Print (MsgWritingOutputFile "synthetic_results_hl7/synthetic_CT.csv");
        Called (WriteOutputFile "synthetic_results_hl7/synthetic_CT.csv" 5 [1; 1]
                  [3652058; 3652059] Reference.names results 3652059
                  (date_tuple_list out))],
       inr tt) /\
    (List.length (date_tuple_list out) <= 5)%nat /\
    Forall dated_within_ceiling (date_tuple_list out).
Proof.
  split; [reflexivity|].
  destruct (date_tuples_stop_at_ceiling
              (Reference.collaborators Reference.lyme) Reference.offsets
              Reference.five_samples Reference.ct_setup Reference.lyme_model
              Reference.last_days Reference.last_days_state [1; 1]
              (Reference.rows 11 5) eq_refl eq_refl)
    as (pre & rng & out & rng' & results & Hrun & Hlen & Hall & _).
  exists pre, rng, out, rng', results. split; [exact Hrun|]. split; [exact Hlen | exact Hall].
Defined.

(** The same call of the deriver, evaluated. *)
Example deriver_truncates :
  fst (derive_date_tuples (Results:=Tuples) Reference.offsets 5 [1; 1]
                          [3652058; 3652059] Reference.names [] 3652059 11) =
  {| date_tuple_list :=
       [{| anchor_date := 3652058; derived_dates := [3652059; 3652059] |};
        {| anchor_date := 3652059; derived_dates := [3652059; 3652059] |}];
     ceiling_reached := true |}.
Proof. vm_compute. reflexivity. Qed.

(** ** The sample count *)

Lemma sample_count_default (o : Options) (ts : Signal) :
  num_samples o = None -> sample_count o ts = Np.sum ts.
Proof. intros E. unfold sample_count. rewrite E. reflexivity. Qed.

Lemma sample_count_override (o : Options) (ts : Signal) (n : Z) :
  num_samples o = Some n -> sample_count o ts = n.
Proof. intros E. unfold sample_count. rewrite E. reflexivity. Qed.

(** The test of lines 271-276 does reject a count that is not positive,
    when [num_samples] holds one. *)
Lemma check_sample_count_rejects {Rng Results : Type} (n : Z) :
  n <= 0 ->
  check_sample_count (Rng:=Rng) (Results:=Results) (Some n) =
  ([Print (MsgInvalidNumSamples n)], inl (SysExit (-1))).
Proof.
  intros H. unfold check_sample_count. apply Z.leb_le in H. rewrite H. reflexivity.
Qed.

(** The options of the command-line driver never carry a sample count. *)
Lemma read_options_num_samples {Rng Results : Type} (args : Args) (o : Options) :
  outcome (read_options (Rng:=Rng) (Results:=Results) args) = inr o -> num_samples o = None.
Proof. intros E. rewrite (read_options_value args o E). reflexivity. Qed.

(** C1: the copula model is asked for the sum of the synthetic
    timeseries; the command-line driver never reads [--num_samples], so
    neither a positive value replaces that sum nor a value that is not
    positive ends the run. *)
Theorem num_samples_override_is_dropped :
  (forall (Rng Tau Cdfs FileData Results : Type)
          (C : Collaborators Rng Tau Cdfs FileData Results) (P : Platform)
          (args : Args) (n : option Z),
      main C P (set_num_samples args n) = main C P (set_num_samples args None)) /\
  requested_counts
    (trace (main (Reference.collaborators Reference.lyme) (Reference.platform 1)
                 (Reference.args "CT" None (Some 65536) (Some 42)))) = [Np.sum [0; 4; 0; 0; 3]] /\
  outcome (main (Reference.collaborators Reference.lyme) (Reference.platform 1)
                (Reference.args "CT" None (Some (-5)) (Some 42))) = inr tt.
Proof.
  split; [intros; reflexivity|]. split; reflexivity.
Qed.

(** ** The generator, from call to call *)

Section Stream.
Context {Rng Tau Cdfs FileData Results : Type}.
Variable C : Collaborators Rng Tau Cdfs FileData Results.
Variable P : Platform.
Local Abbreviation Run := (Run Rng Results).

Lemma single_stream_app (t1 t2 : list (Event Rng Results)) :
  forall cur,
    single_stream cur (t1 ++ t2) <->
    single_stream cur t1 /\ single_stream (rng_after_trace cur t1) t2.
Proof.
  induction t1 as [| e t1 IH]; intros cur; simpl; [tauto|].
  destruct e as [d | c]; [apply IH|].
  destruct c; simpl; rewrite ?IH; tauto.
Qed.

Lemma rng_after_trace_app (t1 t2 : list (Event Rng Results)) :
  forall cur,
    rng_after_trace cur (t1 ++ t2) = rng_after_trace (rng_after_trace cur t1) t2.
Proof.
  induction t1 as [| e t1 IH]; intros cur; simpl; [reflexivity|].
  destruct e as [d | c]; [apply IH|]. destruct c; simpl; apply IH.
Qed.

Lemma hands_on_bind {A B} (cur : option Rng) (m : Run A) (f : A -> Run B)
      (next : A -> option Rng) (next' : B -> option Rng) :
  hands_on cur m next ->
  (forall a, outcome m = inr a -> hands_on (next a) (f a) next') ->
  hands_on cur (bind m f) next'.
Proof.
  intros [Hm Hn] Hf. destruct (outcome m) as [h | a] eqn:E.
  - rewrite (bind_halted _ _ _ E). split; [exact Hm|]. intros b Hb. discriminate Hb.
  - rewrite (bind_value _ _ _ E). destruct (Hf a eq_refl) as [Hs Ho].
    unfold hands_on, trace at 1 3, outcome at 1. simpl.
    split.
    + apply single_stream_app. rewrite (Hn a eq_refl). split; assumption.
    + intros b Hb. rewrite rng_after_trace_app, (Hn a eq_refl). apply Ho, Hb.
Qed.

(** Events that are not handed the generator leave it as it is. *)
Lemma hands_on_quiet {A} (cur : option Rng) (m : Run A) :
  prints_only m -> hands_on cur m (fun _ => cur).
Proof.
  unfold hands_on, prints_only. generalize (trace m) as t. intros t Ht.
  assert (H : single_stream cur t /\ rng_after_trace cur t = cur).
  { induction Ht as [| e t He _ IH]; simpl; [auto|].
    destruct e as [d | []]; simpl in *; try contradiction; exact IH. }
  destruct H as [H1 H2]. split; [exact H1 | intros; exact H2].
Qed.

Lemma prints_only_bind {A B} (m : Run A) (f : A -> Run B) :
  prints_only m -> (forall a, prints_only (f a)) -> prints_only (bind m f).
Proof.
  unfold prints_only. destruct m as [t [h | a]]; simpl; intros Hm Hf; [exact Hm|].
  specialize (Hf a). destruct (f a) as [t' r]. simpl in *.
  apply Forall_app. split; assumption.
Qed.

Ltac prints_only_tac :=
  repeat first
    [ apply prints_only_bind; [| intros ?]
    | match goal with
      | |- prints_only (if ?b then _ else _) => destruct b
      | |- prints_only (match ?x with _ => _ end) => destruct x
      | |- prints_only (let (_, _) := ?x in _) => destruct x
      end
    | solve [repeat constructor] ].

Lemma read_options_prints args :
  prints_only (read_options (Rng:=Rng) (Results:=Results) args).
Proof. unfold read_options. prints_only_tac. Qed.

Lemma output_location_prints o j cs : prints_only (output_location C o j cs).
Proof. unfold output_location. prints_only_tac. Qed.

Lemma check_sample_count_prints n :
  prints_only (check_sample_count (Rng:=Rng) (Results:=Results) n).
Proof. unfold check_sample_count. prints_only_tac. Qed.

Lemma compare_fields_prints header_list :
  forall todo i, prints_only (compare_fields C header_list i todo).
Proof.
  induction todo as [| f todo IH]; intros i; simpl.
  - prints_only_tac.
  - prints_only_tac. apply IH.
Qed.

Lemma check_header_prints : prints_only (check_header C).
Proof.
  unfold check_header. apply prints_only_bind; [prints_only_tac|]. intros _.
  apply compare_fields_prints.
Qed.

Lemma hands_on_ret {A} (cur : option Rng) (a : A) (next : A -> option Rng) :
  next a = cur -> hands_on cur (ret (Rng:=Rng) (Results:=Results) a) next.
Proof.
  intros E. split; [exact I|]. intros a' H. injection H as <-. symmetry. exact E.
Qed.

Lemma hands_on_halt {A} (cur : option Rng) (h : Halt) (next : A -> option Rng) :
  hands_on cur (halt (Rng:=Rng) (Results:=Results) h) next.
Proof. split; [exact I|]. intros a H. discriminate H. Qed.

(** A call that draws from the generator, handed the current state. *)
Lemma hands_on_draw (c : Call Rng Results) (i o : Rng) :
  rng_use (Called c) = Some (i, o) ->
  hands_on (Some i) (called c) (fun _ => Some o).
Proof.
  intros E. unfold hands_on, called, emit, trace, outcome. simpl.
  destruct c; simpl in *; try discriminate E; injection E as <- <-; auto.
Qed.

Lemma prepare_hands_on args o :
  hands_on None (prepare C P args o) (fun su => Some (rng0 su)).
Proof.
  unfold prepare.
  eapply hands_on_bind; [apply hands_on_quiet; prints_only_tac | intros ? _].
  eapply hands_on_bind; [apply hands_on_quiet; prints_only_tac | intros ? _].
  eapply hands_on_bind; [apply hands_on_quiet; prints_only_tac | intros ? _].
  eapply hands_on_bind; [apply hands_on_quiet; prints_only_tac | intros ? _].
  eapply hands_on_bind; [apply hands_on_quiet; prints_only_tac | intros ? _].
  eapply hands_on_bind; [apply hands_on_quiet; prints_only_tac | intros ? _].
  eapply hands_on_bind; [apply hands_on_quiet, output_location_prints | intros ? _].
  eapply hands_on_bind; [apply hands_on_quiet; prints_only_tac | intros ? _].
  eapply hands_on_bind; [apply hands_on_quiet; prints_only_tac | intros ? _].
  eapply hands_on_bind with (next := fun _ => Some (init_rng C (rng_seed o) (system_time P))).
  { split; [simpl; auto | intros; reflexivity]. }
  intros ? _.
  eapply hands_on_bind; [apply hands_on_quiet, check_sample_count_prints | intros ? _].
  apply hands_on_ret. reflexivity.
Qed.

Lemma load_hands_on su : hands_on (Some (rng0 su)) (load C su) (fun m => Some (rng1 m)).
Proof.
  unfold load.
  destruct (init_model_data C (infile_list su) (variable_names_in C) (rng0 su))
    as [[[[names tau] cdfs] fd] rng].
  eapply hands_on_bind; [apply hands_on_draw; reflexivity | intros ? _].
  eapply hands_on_bind with (next := fun _ => Some rng).
  { destruct names as [names |]; [| apply hands_on_halt].
    destruct (negb _); [apply hands_on_halt | apply hands_on_ret; reflexivity]. }
  intros ? _. apply hands_on_ret. reflexivity.
Qed.

Lemma signal_processing_hands_on m :
  hands_on (Some (rng1 m)) (signal_processing C m) (fun s => Some (rng2 s)).
Proof.
  unfold signal_processing, py_assert, raise.
  destruct (signal_from_anchor_date C (file_data m)) as [ds sg].
  destruct (gen_synthetic_fourier C (rng1 m) sg 0%float) as [sf rng].
  eapply hands_on_bind; [apply hands_on_quiet; prints_only_tac | intros ? _].
  eapply hands_on_bind; [apply hands_on_quiet; prints_only_tac | intros ? _].
  eapply hands_on_bind; [apply hands_on_quiet; prints_only_tac | intros ? _].
  eapply hands_on_bind; [apply hands_on_draw; reflexivity | intros ? _].
  eapply hands_on_bind; [apply hands_on_quiet; prints_only_tac | intros ? _].
  apply hands_on_ret. reflexivity.
Qed.

Lemma sparse_segment_loop_hands_on signal :
  forall todo st,
    hands_on (Some (loop_rng st)) (sparse_segment_loop C todo signal st)
             (fun st' => Some (loop_rng st')).
Proof.
  induction todo as [| todo IH]; intros st.
  - apply hands_on_ret. reflexivity.
  - rewrite sparse_segment_loop_step. cbv zeta. unfold repair_event.
    destruct (Np.sub _ signal) as [d |]; [destruct (negb (Np.any d))|].
    + set (out := modify_sparse_segments C (loop_rng st) (fourier_array st)
                    (delta_of (attempts st))).
      destruct (IH {| attempts := attempts st + 1;
                      fourier_array := input_after out;
                      synthetic_timeseries := Some (repaired out);
                      loop_rng := rng_after out |}) as [H1 H2].
      unfold hands_on, trace, outcome in *. simpl in *. auto.
    + unfold hands_on, trace, outcome. simpl. split; [auto|].
      intros a E. injection E as <-. reflexivity.
    + unfold hands_on, trace, outcome. simpl. split; [auto|]. intros a E. discriminate E.
Qed.

Lemma generate_single_stream o su m s st :
  single_stream (Some (loop_rng st)) (trace (generate C o su m s st)).
Proof.
  destruct (synthetic_timeseries st) as [ts |] eqn:Ets.
  - pose proof (generate_cases C o su m s st ts Ets) as H. cbv zeta in H.
    destruct (fst (fst (copula_n_variable_model C _ _ _ _ _))); rewrite H;
      unfold trace; simpl; auto 10.
  - rewrite (generate_unbound C o su m s st Ets). exact I.
Qed.

Lemma single_stream_bind {A B} (cur : option Rng) (m : Run A) (f : A -> Run B)
      (next : A -> option Rng) :
  hands_on cur m next ->
  (forall a, outcome m = inr a -> single_stream (next a) (trace (f a))) ->
  single_stream cur (trace (bind m f)).
Proof.
  intros [Hm Hn] Hf. destruct (outcome m) as [h | a] eqn:E.
  - rewrite (bind_halted _ _ _ E). exact Hm.
  - rewrite (bind_value _ _ _ E). unfold trace at 1. simpl.
    apply single_stream_app. rewrite (Hn a eq_refl). split; [exact Hm | apply Hf, eq_refl].
Qed.

(** The generator of a run is one stream: [init_rng] is called at most
    once, before any call that draws, and every call that is handed the
    generator gets the state that the call before it left, from loading
    the input files to the date tuples. *)
Theorem rng_is_one_stream (args : Args) : single_stream None (trace (main C P args)).
Proof.
  unfold main.
  eapply single_stream_bind; [apply hands_on_quiet, read_options_prints | intros o _].
  eapply single_stream_bind; [apply prepare_hands_on | intros su _].
  eapply single_stream_bind; [apply load_hands_on | intros m _].
  eapply single_stream_bind; [apply hands_on_quiet, check_header_prints | intros ? _].
  eapply single_stream_bind; [apply signal_processing_hands_on | intros s _].
  eapply single_stream_bind.
  { apply (sparse_segment_loop_hands_on (signal s) 7
             {| attempts := 0; fourier_array := synthetic_fourier s;
                synthetic_timeseries := None; loop_rng := rng2 s |}). }
  intros st _. apply generate_single_stream.
Qed.
End Stream.

(** ** The seed of the generator *)

(** With a seed other than 0 the run does not depend on the system time,
    as long as the seeded generator does not. *)
Lemma seeded_runs_agree {Rng Tau Cdfs FileData Results : Type}
      (C : Collaborators Rng Tau Cdfs FileData Results) (P : Platform)
      (args : Args) (seed t : Z) :
  arg_rng_seed args = Some seed -> seed <> 0 ->
  (forall t1 t2, init_rng C (Some seed) t1 = init_rng C (Some seed) t2) ->
  main C (set_system_time P t) args = main C P args.
Proof.
  intros Hseed Hnz Hinit. unfold main.
  destruct (read_options_cases (Rng:=Rng) (Results:=Results) args)
    as [E | (p & _ & _ & _ & _ & E)]; rewrite E; [| reflexivity].
  assert (Hs : rng_seed (options_of args) = Some seed).
  { unfold options_of. simpl. rewrite Hseed. simpl.
    destruct (seed =? 0) eqn:E0; [apply Z.eqb_eq in E0; contradiction | reflexivity]. }
  assert (Hp : prepare C (set_system_time P t) args (options_of args) =
               prepare C P args (options_of args)).
  { unfold prepare. rewrite Hs. cbn [os_path_isdir py_int system_time set_system_time].
    rewrite (Hinit t (system_time P)). reflexivity. }
  unfold bind at 1 7. rewrite Hp. reflexivity.
Qed.

(** C9: a seed of 0 fails the truth test of line 166, so the run is the
    run without a seed, whose generator is seeded from the system time:
    two runs with [--rng_seed=0] differ when their system times do. *)
Theorem seed_zero_is_no_seed :
  (forall (Rng Tau Cdfs FileData Results : Type)
          (C : Collaborators Rng Tau Cdfs FileData Results) (P : Platform) (args : Args),
      rng_seed (options_of (set_rng_seed args (Some 0))) = None /\
      read_options (Rng:=Rng) (Results:=Results) (set_rng_seed args (Some 0)) =
        read_options (set_rng_seed args None) /\
      main C P (set_rng_seed args (Some 0)) = main C P (set_rng_seed args None) /\
      forall su,
        outcome (prepare C P (set_rng_seed args (Some 0))
                         (options_of (set_rng_seed args (Some 0)))) = inr su ->
        rng0 su = init_rng C None (system_time P)) /\
  main (Reference.collaborators Reference.lyme) (Reference.platform 1)
       (Reference.args "CT" None None (Some 0)) <>
  main (Reference.collaborators Reference.lyme) (Reference.platform 2)
       (Reference.args "CT" None None (Some 0)).
Proof.
  split.
  - intros. split; [reflexivity|]. split; [reflexivity|]. split; [reflexivity|].
    intros su E. apply prepare_value in E. destruct E as (_ & E & _). exact E.
  - intros H. vm_compute in H. discriminate H.
Qed.

(** C3: with the seed fixed at 0 and the same input data, two runs of
    the command-line driver write different output files when their
    system times differ. *)
Theorem seed_zero_runs_differ :
  arg_rng_seed (Reference.args "CT" None None (Some 0)) = Some 0 /\
  written (trace (main (Reference.collaborators Reference.lyme) (Reference.platform 1)
                       (Reference.args "CT" None None (Some 0)))) <>
  written (trace (main (Reference.collaborators Reference.lyme) (Reference.platform 2)
                       (Reference.args "CT" None None (Some 0)))).
Proof.
  split; [reflexivity|]. intros H. vm_compute in H. discriminate H.
Qed.

(** ** The extension of the output file *)

(** An output path without an extension never gets as far as reading the
    input files. *)
Lemma outfile_without_extension_never_loads {Rng Tau Cdfs FileData Results : Type}
      (C : Collaborators Rng Tau Cdfs FileData Results) (P : Platform)
      (args : Args) (p : string) :
  arg_outfile args = Some p -> p <> "" -> snd (Py.splitext p) = "" ->
  (exists h, outcome (main C P args) = inl h) /\
  Forall (fun e => reads_or_generates e = false) (trace (main C P args)).
Proof.
  intros Hp Hne Hext.
  assert (Hq : forall t : list (Event Rng Results),
             Forall (fun e => (phase e <= 0)%nat) t ->
             Forall (fun e => reads_or_generates e = false) t).
  { intros t. apply Forall_impl. intros e He. unfold reads_or_generates.
    apply Nat.leb_gt. lia. }
  unfold main.
  pose proof (read_options_within (Rng:=Rng) (Results:=Results) args) as W1.
  destruct (read_options_cases (Rng:=Rng) (Results:=Results) args)
    as [E | (q & _ & _ & _ & _ & E)].
  - assert (Ho : outcome (read_options (Rng:=Rng) (Results:=Results) args) =
                 inr (options_of args)) by (rewrite E; reflexivity).
    rewrite (bind_value _ _ _ Ho).
    assert (Hout : outfile (options_of args) = Some p).
    { unfold options_of. simpl. rewrite Hp. simpl.
      destruct (String.eqb p "") eqn:Ep; [apply String.eqb_eq in Ep; contradiction|].
      reflexivity. }
    pose proof (prepare_within C P args (options_of args)) as W2.
    destruct (outcome (prepare C P args (options_of args))) as [h | su] eqn:E2.
    + rewrite (bind_halted _ _ _ E2). unfold trace at 2 4, outcome at 1. simpl.
      split; [eauto|]. apply Forall_app. split; apply Hq; assumption.
    + exfalso. apply prepare_value in E2.
      destruct E2 as (_ & _ & c & loc & _ & _ & _ & _ & El & _).
      rewrite (output_location_no_extension C _ _ _ p Hout Hext) in El. discriminate El.
  - rewrite E. unfold bind, trace, outcome. simpl. split; [eauto|].
    repeat constructor.
Qed.

(** C6: an output path without an extension is not given [.csv]: the
    run ends with [sys.exit(-1)], at line 179 when the path does not end
    in [csv] or [json], at line 249 when it does. *)
Theorem outfile_without_extension_is_rejected :
  Py.splitext "results" = ("results", "") /\
  main (Reference.collaborators Reference.lyme) (Reference.platform 1)
       (Reference.args "CT" (Some "results") None None) =
  ([Print MsgSupportedExtensions], inl (SysExit (-1))) /\
  Py.splitext "out/mycsv" = ("out/mycsv", "") /\
  main (Reference.collaborators Reference.lyme) (Reference.platform 1)
       (Reference.args "CT" (Some "out/mycsv") None None) =
  ([Print (MsgArguments (Some "out/mycsv") None None false false);
    Print (MsgCodeGroup [11080]);
    Print (MsgInputFiles ["/data/hl7/CT/data.csv"]);
    Print (MsgUnsupportedFormat "")],
   inl (SysExit (-1))).
Proof. repeat split. Qed.

(** ** Two whole runs, evaluated *)

(** A timeseries without cases: seven attempts, none differs from the
    signal, and the run goes on to write an empty output file. *)
Example quiet_run_uses_seven_attempts :
  let r := main (Reference.collaborators Reference.quiet) (Reference.platform 1)
                (Reference.args "CT" None None (Some 42)) in
  map repair_delta (filter (fun e => (phase e =? 3)%nat) (trace r)) =
    map (fun k => Some (delta_of k)) [0; 1; 2; 3; 4; 5; 6] /\
  Forall (fun e => repair_result e = Some [0; 0; 0])
         (filter (fun e => (phase e =? 3)%nat) (trace r)) /\
  outcome r = inr tt.
Proof. vm_compute. repeat split; repeat constructor. Qed.

(** An extension that ends in [csv] gets past line 179 and is refused at
    line 249. *)
Example xcsv_is_refused_late :
  main (Reference.collaborators Reference.lyme) (Reference.platform 1)
       (Reference.args "CT" (Some "out/a.xcsv") None (Some 42)) =
  ([Print (MsgArguments (Some "out/a.xcsv") None (Some 42) false false);
    Print (MsgCodeGroup [11080]);
    Print (MsgInputFiles ["/data/hl7/CT/data.csv"]);
    Print (MsgUnsupportedFormat ".xcsv")],
   inl (SysExit (-1))).
Proof. reflexivity. Qed.

(** ** The output file and the sample count *)

Section Written.
Context {Rng Tau Cdfs FileData Results : Type}.
Variable C : Collaborators Rng Tau Cdfs FileData Results.
Variable P : Platform.
Local Abbreviation Run := (Run Rng Results).

Lemma written_app (t1 t2 : list (Event Rng Results)) :
  written (t1 ++ t2) = written t1 ++ written t2.
Proof. unfold written. apply filter_app. Qed.

Lemma written_early (t : list (Event Rng Results)) :
  Forall (fun e => (phase e <= 4)%nat) t -> written t = [].
Proof.
  induction 1 as [| e t He _ IH]; [reflexivity|].
  unfold written in *. simpl. rewrite IH.
  destruct e as [d | []]; simpl in *; try reflexivity; lia.
Qed.

Lemma writes_once_bind {A} (m : Run A) (f : A -> Run unit) :
  within 3 m -> (forall a, writes_once_at_the_end (f a)) ->
  writes_once_at_the_end (bind m f).
Proof.
  intros Hm Hf.
  assert (Hw : written (trace m) = []).
  { apply written_early. eapply Forall_impl; [| exact Hm]. simpl. intros; lia. }
  destruct (outcome m) as [h | a] eqn:E.
  - rewrite (bind_halted _ _ _ E). right. split; [eexists; reflexivity | exact Hw].
  - rewrite (bind_value _ _ _ E).
    destruct (Hf a) as [[Ho (pre & w & Ht & Hiw & Hpre)] | [[h Ho] Hnone]].
    + left. split; [exact Ho|]. exists (trace m ++ pre), w.
      unfold trace at 1. simpl. rewrite Ht, app_assoc. split; [reflexivity|].
      split; [exact Hiw|]. rewrite written_app, Hw, Hpre. reflexivity.
    + right. split; [exists h; exact Ho|]. unfold trace at 1. simpl.
      rewrite written_app, Hw, Hnone. reflexivity.
Qed.

Lemma generate_writes_once o su m s st : writes_once_at_the_end (generate C o su m s st).
Proof.
  destruct (synthetic_timeseries st) as [ts |] eqn:Ets.
  - pose proof (generate_cases C o su m s st ts Ets) as H. cbv zeta in H.
    destruct (fst (fst (copula_n_variable_model C _ _ _ _ _))); rewrite H.
    + left. split; [reflexivity|]. eexists [_; _; _; _; _; _], _.
      split; [reflexivity|]. split; reflexivity.
    + right. split; [eexists; reflexivity | reflexivity].
  - rewrite (generate_unbound C o su m s st Ets). right.
    split; [eexists; reflexivity | reflexivity].
Qed.

(** The output file is written exactly when the run ends normally, once,
    as the last thing the run does. *)
Theorem output_written_once_at_the_end (args : Args) :
  writes_once_at_the_end (main C P args).
Proof.
  unfold main.
  apply writes_once_bind; [apply (within_le 0); [lia | apply read_options_within]|].
  intros o. apply writes_once_bind; [apply (within_le 0); [lia | apply prepare_within]|].
  intros su. apply writes_once_bind; [apply (within_le 1); [lia | apply load_within]|].
  intros m. apply writes_once_bind; [apply (within_le 1); [lia | apply check_header_within]|].
  intros _. apply writes_once_bind;
    [apply (within_le 2); [lia | apply signal_processing_within]|].
  intros s. apply writes_once_bind; [apply sparse_segment_loop_within|].
  intros st. apply generate_writes_once.
Qed.

Lemma count_is_early (total : Z) (t : list (Event Rng Results)) :
  Forall (fun e => (phase e <= 3)%nat) t -> Forall (count_is total) t.
Proof.
  apply Forall_impl. intros e He.
  destruct e as [d | []]; simpl in *; try exact I; lia.
Qed.

Lemma counts_bind {A} (m : Run A) (f : A -> Run unit) :
  within 3 m ->
  (forall a, outcome m = inr a -> exists total, Forall (count_is total) (trace (f a))) ->
  exists total, Forall (count_is total) (trace (bind m f)).
Proof.
  intros Hm Hf. destruct (outcome m) as [h | a] eqn:E.
  - rewrite (bind_halted _ _ _ E). exists 0. apply count_is_early, Hm.
  - rewrite (bind_value _ _ _ E). destruct (Hf a eq_refl) as [total Ht].
    exists total. unfold trace at 1. cbn [fst].
    apply Forall_app. split; [apply count_is_early, Hm | exact Ht].
Qed.

(** One number of tuples goes through the second half of a run: the
    copula model, the pseudoperson correction and the date tuples are
    asked for it and the output file is written with it, and it is the
    total of the synthetic timeseries that is written, whatever
    [--num_samples] says. *)
Theorem one_count_is_the_series_total (args : Args) :
  exists total, Forall (count_is total) (trace (main C P args)).
Proof.
  unfold main.
  apply counts_bind; [apply (within_le 0); [lia | apply read_options_within]|].
  intros o Ho. apply read_options_value in Ho.
  apply counts_bind; [apply (within_le 0); [lia | apply prepare_within]|].
  intros su _. apply counts_bind; [apply (within_le 1); [lia | apply load_within]|].
  intros m _. apply counts_bind; [apply (within_le 1); [lia | apply check_header_within]|].
  intros ? _. apply counts_bind; [apply (within_le 2); [lia | apply signal_processing_within]|].
  intros s _. apply counts_bind; [apply sparse_segment_loop_within|].
  intros st _.
  destruct (synthetic_timeseries st) as [ts |] eqn:Ets.
  - pose proof (generate_cases C o su m s st ts Ets) as H. cbv zeta in H.
    assert (Hn : sample_count o ts = Np.sum ts).
    { unfold sample_count. rewrite Ho. reflexivity. }
    exists (Np.sum ts).
    destruct (fst (fst (copula_n_variable_model C _ _ _ _ _))); rewrite H, Hn;
      unfold trace; cbn [fst]; repeat constructor.
  - rewrite (generate_unbound C o su m s st Ets). exists 0. constructor.
Qed.
End Written.

(** ** How a run can end *)

Section Halts.
Context {Rng Tau Cdfs FileData Results : Type}.
Variable C : Collaborators Rng Tau Cdfs FileData Results.
Variable P : Platform.
Local Abbreviation Run := (Run Rng Results).

Lemma halts_bind {A B} (m : Run A) (f : A -> Run B) :
  halts_as_cli m -> (forall a, outcome m = inr a -> halts_as_cli (f a)) ->
  halts_as_cli (bind m f).
Proof.
  intros Hm Hf. destruct (outcome m) as [h | a] eqn:E.
  - rewrite (bind_halted _ _ _ E). intros h' Hh. injection Hh as <-. apply Hm, E.
  - rewrite (bind_value _ _ _ E). intros h' Hh. apply (Hf a eq_refl h' Hh).
Qed.

Lemma halts_value {A} (t : list (Event Rng Results)) (a : A) : halts_as_cli (t, inr a).
Proof. intros h H. discriminate H. Qed.

Lemma halts_known {A} (t : list (Event Rng Results)) (h : Halt) :
  cli_halt h -> halts_as_cli (A:=A) (t, inl h).
Proof. intros Hh h' H. injection H as <-. exact Hh. Qed.

Ltac halts_tac :=
  repeat first
    [ apply halts_value
    | apply halts_known; unfold cli_halt; tauto
    | apply halts_bind; [| intros ? _]
    | match goal with
      | |- halts_as_cli (if ?b then _ else _) => destruct b
      | |- halts_as_cli (match ?x with _ => _ end) => destruct x
      | |- halts_as_cli (let (_, _) := ?x in _) => destruct x
      end ].

Lemma read_options_halts args :
  halts_as_cli (read_options (Rng:=Rng) (Results:=Results) args).
Proof. unfold read_options. halts_tac. Qed.

Lemma prepare_halts args o : halts_as_cli (prepare C P args o).
Proof. unfold prepare, output_location, check_sample_count, raise. halts_tac. Qed.

Lemma load_halts su : halts_as_cli (load C su).
Proof. unfold load. halts_tac. Qed.

Lemma check_header_halts : halts_as_cli (check_header C).
Proof.
  destruct (check_header_spec C) as [[_ E] | [_ (d & E & _)]]; rewrite E.
  - apply halts_value.
  - apply halts_known. unfold cli_halt. tauto.
Qed.

Lemma signal_processing_halts m : halts_as_cli (signal_processing C m).
Proof. unfold signal_processing, py_assert, raise. halts_tac. Qed.

(** After a pass of the loop body [synthetic_timeseries] is bound. *)
Lemma sparse_segment_loop_binds signal :
  forall todo st,
    halts_as_cli (sparse_segment_loop C todo signal st) /\
    forall st', outcome (sparse_segment_loop C todo signal st) = inr st' ->
                (todo = O /\ st' = st) \/ synthetic_timeseries st' <> None.
Proof.
  induction todo as [| todo IH]; intros st.
  - split; [apply halts_value|]. intros st' E. injection E as <-. left. auto.
  - rewrite sparse_segment_loop_step. cbv zeta.
    destruct (Np.sub _ signal) as [d |]; [destruct (negb (Np.any d))|].
    + set (st1 := {| attempts := attempts st + 1; fourier_array := _;
                     synthetic_timeseries := _; loop_rng := _ |}).
      destruct (IH st1) as [H1 H2]. split.
      * intros h E. apply (H1 h E).
      * intros st' E. right. destruct (H2 st' E) as [[_ ->] | Hb]; [discriminate | exact Hb].
    + split; [apply halts_value|]. intros st' E. injection E as <-. right. discriminate.
    + split; [apply halts_known; unfold cli_halt; tauto|]. intros st' E. discriminate E.
Qed.

Lemma modify_sparse_binds (s : Series) :
  halts_as_cli (modify_sparse C s) /\
  forall st', outcome (modify_sparse C s) = inr st' -> synthetic_timeseries st' <> None.
Proof.
  unfold modify_sparse.
  destruct (sparse_segment_loop_binds (signal s) 7
              {| attempts := 0; fourier_array := synthetic_fourier s;
                 synthetic_timeseries := None; loop_rng := rng2 s |}) as [Hl Hbound].
  split; [exact Hl|]. intros st' E.
  destruct (Hbound st' E) as [[H0 _] | Hb]; [| exact Hb].
  exfalso. clear - H0. lia.
Qed.

(** The run ends normally or in one of six ways; in particular line 399
    never finds [synthetic_timeseries] unbound, and no exception other
    than [ValueError], [IndexError] and [AssertionError] is raised. *)
Theorem run_ends_in_known_ways (args : Args) (h : Halt) :
  outcome (main C P args) = inl h -> cli_halt h.
Proof.
  revert h. change (halts_as_cli (main C P args)). unfold main.
  apply halts_bind; [apply read_options_halts | intros o _].
  apply halts_bind; [apply prepare_halts | intros su _].
  apply halts_bind; [apply load_halts | intros m _].
  apply halts_bind; [apply check_header_halts | intros ? _].
  apply halts_bind; [apply signal_processing_halts | intros s _].
  apply halts_bind; [apply modify_sparse_binds | intros st Hst].
  apply modify_sparse_binds in Hst.
  destruct (synthetic_timeseries st) as [ts |] eqn:Ets; [| contradiction].
  pose proof (generate_cases C o su m s st ts Ets) as H. cbv zeta in H.
  destruct (fst (fst (copula_n_variable_model C _ _ _ _ _))); rewrite H.
  - apply halts_value.
  - apply halts_known. unfold cli_halt. tauto.
Qed.
End Halts.

(** A run that ends with [sys.exit(-1)]. *)
Lemma run_ends_in_known_ways_witness :
  outcome (main (Reference.collaborators Reference.lyme) (Reference.platform 1)
                (Reference.args "CT" (Some "results") None None)) = inl (SysExit (-1)) /\
  cli_halt (SysExit (-1)).
Proof.
  split; [reflexivity|].
  apply (run_ends_in_known_ways (Reference.collaborators Reference.lyme)
           (Reference.platform 1) (Reference.args "CT" (Some "results") None None)).
  reflexivity.
Defined.

(** ** The order of the calls *)

Section Order.
Context {Rng Tau Cdfs FileData Results : Type}.
Variable C : Collaborators Rng Tau Cdfs FileData Results.
Variable P : Platform.
Local Abbreviation Run := (Run Rng Results).

Lemma sorted_app (hi : nat) (ps qs : list nat) :
  StronglySorted le ps -> StronglySorted le qs ->
  Forall (fun p => (p <= hi)%nat) ps -> Forall (fun q => (hi <= q)%nat) qs ->
  StronglySorted le (ps ++ qs).
Proof.
  intros Hp Hq Hlo Hhi. induction Hp as [| p ps Hp IH Hall]; simpl; [exact Hq|].
  inversion Hlo as [| ? ? Hphi Hlo']; subst. constructor; [apply IH; exact Hlo'|].
  apply Forall_app. split; [exact Hall|].
  eapply Forall_impl; [| exact Hhi]. simpl. intros; lia.
Qed.

Lemma call_phases_app (t1 t2 : list (Event Rng Results)) :
  call_phases (t1 ++ t2) = call_phases t1 ++ call_phases t2.
Proof. unfold call_phases. rewrite filter_app, map_app. reflexivity. Qed.

Lemma in_phases_bind {A B} (lo mid hi : nat) (m : Run A) (f : A -> Run B) :
  in_phases lo mid m -> (forall a, in_phases mid hi (f a)) ->
  (lo <= mid)%nat -> (mid <= hi)%nat ->
  in_phases lo hi (bind m f).
Proof.
  intros [Ho Hb] Hf Hlo Hhi. destruct (outcome m) as [h | a] eqn:E.
  - rewrite (bind_halted _ _ _ E). split; [exact Ho|].
    eapply Forall_impl; [| exact Hb]. simpl. intros; lia.
  - rewrite (bind_value _ _ _ E). destruct (Hf a) as [Ho' Hb'].
    unfold in_phases, trace in *. cbn [fst]. rewrite call_phases_app. split.
    + apply (sorted_app mid); try assumption.
      * eapply Forall_impl; [| exact Hb]. simpl. intros; lia.
      * eapply Forall_impl; [| exact Hb']. simpl. intros; lia.
    + apply Forall_app. split.
      * eapply Forall_impl; [| exact Hb]. simpl. intros; lia.
      * eapply Forall_impl; [| exact Hb']. simpl. intros; lia.
Qed.

Lemma in_phases_same {A B} (k : nat) (m : Run A) (f : A -> Run B) :
  in_phases k k m -> (forall a, in_phases k k (f a)) -> in_phases k k (bind m f).
Proof. intros Hm Hf. apply (in_phases_bind k k k); auto. Qed.

Lemma in_phases_wider {A} (lo hi lo' hi' : nat) (m : Run A) :
  in_phases lo hi m -> (lo' <= lo)%nat -> (hi <= hi')%nat -> in_phases lo' hi' m.
Proof.
  intros [Ho Hb] Hlo Hhi. split; [exact Ho|].
  eapply Forall_impl; [| exact Hb]. simpl. intros; lia.
Qed.

Lemma in_phases_ret {A} (k : nat) (a : A) : in_phases k k (ret (Rng:=Rng) (Results:=Results) a).
Proof. split; constructor. Qed.

Lemma in_phases_halt {A} (k : nat) (h : Halt) :
  in_phases k k (halt (Rng:=Rng) (Results:=Results) (A:=A) h).
Proof. split; constructor. Qed.

Lemma in_phases_print (k : nat) (d : Diagnostic) :
  in_phases k k (print (Rng:=Rng) (Results:=Results) d).
Proof. split; constructor. Qed.

Lemma in_phases_called (k : nat) (c : Call Rng Results) :
  phase (Called c) = k -> in_phases k k (called c).
Proof.
  intros <-. split; unfold call_phases, called, emit, trace; cbn [fst filter map].
  - repeat constructor.
  - repeat constructor.
Qed.

Ltac phases_tac :=
  repeat first
    [ apply in_phases_ret | apply in_phases_halt | apply in_phases_print
    | apply in_phases_called; reflexivity
    | apply in_phases_same; [| intros ?]
    | match goal with
      | |- in_phases _ _ (if ?b then _ else _) => destruct b
      | |- in_phases _ _ (match ?x with _ => _ end) => destruct x
      | |- in_phases _ _ (let (_, _) := ?x in _) => destruct x
      end ].

Lemma read_options_phases args : in_phases 0 0 (read_options (Rng:=Rng) (Results:=Results) args).
Proof. unfold read_options, sys_exit. phases_tac. Qed.

Lemma output_location_phases o j c : in_phases 0 0 (output_location C o j c).
Proof. unfold output_location, sys_exit. phases_tac. Qed.

Lemma prepare_phases args o : in_phases 0 0 (prepare C P args o).
Proof.
  unfold prepare, check_sample_count, sys_exit, raise. phases_tac.
  apply output_location_phases.
Qed.

Lemma load_phases su : in_phases 1 1 (load C su).
Proof. unfold load. phases_tac. Qed.

Lemma compare_fields_phases header_list :
  forall todo i, in_phases 1 1 (compare_fields C header_list i todo).
Proof.
  induction todo as [| f todo IH]; intros i; simpl.
  - phases_tac.
  - unfold sys_exit, raise. phases_tac. apply IH.
Qed.

Lemma check_header_phases : in_phases 1 1 (check_header C).
Proof.
  unfold check_header, sys_exit. apply in_phases_same; [phases_tac|]. intros _.
  apply compare_fields_phases.
Qed.

Lemma signal_processing_phases m : in_phases 2 2 (signal_processing C m).
Proof. unfold signal_processing, py_assert, raise. phases_tac. Qed.

Lemma sparse_segment_loop_phases signal :
  forall todo st, in_phases 3 3 (sparse_segment_loop C todo signal st).
Proof.
  induction todo as [| todo IH]; intros st.
  - phases_tac.
  - cbn [sparse_segment_loop]. unfold raise. phases_tac. apply IH.
Qed.

Lemma generate_phases o su m s st : in_phases 4 5 (generate C o su m s st).
Proof.
  destruct (synthetic_timeseries st) as [ts |] eqn:Ets.
  - pose proof (generate_cases C o su m s st ts Ets) as H. cbv zeta in H.
    destruct (fst (fst (copula_n_variable_model C _ _ _ _ _))); rewrite H;
      unfold in_phases, call_phases, trace; cbn [fst filter map phase];
      split; repeat constructor.
  - rewrite (generate_unbound C o su m s st Ets). split; constructor.
Qed.

(** The calls of a run follow the order of the stages: set-up, loading,
    signal processing, the sparse-segment loop, the copula model, and what
    follows it; no run goes back to an earlier stage. *)
Theorem calls_follow_stage_order (args : Args) :
  StronglySorted le (call_phases (trace (main C P args))).
Proof.
  enough (H : in_phases 0 5 (main C P args)) by exact (proj1 H).
  unfold main.
  apply (in_phases_bind 0 0 5); [apply read_options_phases | intros o | lia | lia].
  apply (in_phases_bind 0 0 5); [apply prepare_phases | intros su | lia | lia].
  apply (in_phases_bind 0 1 5);
    [apply (in_phases_wider 1 1); [apply load_phases | lia | lia] | intros m | lia | lia].
  apply (in_phases_bind 1 1 5); [apply check_header_phases | intros _ | lia | lia].
  apply (in_phases_bind 1 2 5);
    [apply (in_phases_wider 2 2); [apply signal_processing_phases | lia | lia]
    | intros s | lia | lia].
  apply (in_phases_bind 2 3 5);
    [apply (in_phases_wider 3 3); [apply sparse_segment_loop_phases | lia | lia]
    | intros st | lia | lia].
  apply (in_phases_wider 4 5); [apply generate_phases | lia | lia].
Qed.
End Order.

(** ** The sparse-segment loop as a chain of attempts *)

Section Chain.
Context {Rng Tau Cdfs FileData Results : Type}.
Variable C : Collaborators Rng Tau Cdfs FileData Results.

Lemma attempt_state_shift (st : Rng * Signal) (first : Z) (k : nat) :
  attempt_state C st first (S k) =
  attempt_state C (rng_after (attempt_out C st first 0),
                   input_after (attempt_out C st first 0)) (first + 1) k.
Proof.
  induction k as [| k IH].
  - reflexivity.
  - change (attempt_state C st first (S (S k))) with
      (let out := modify_sparse_segments C (fst (attempt_state C st first (S k)))
                    (snd (attempt_state C st first (S k)))
                    (delta_of (first + Z.of_nat (S k))) in
       (rng_after out, input_after out)).
    rewrite IH. cbn [attempt_state]. cbv zeta.
    replace (first + Z.of_nat (S k)) with (first + 1 + Z.of_nat k) by lia.
    reflexivity.
Qed.

Lemma attempt_out_shift (st : Rng * Signal) (first : Z) (k : nat) :
  attempt_out C st first (S k) =
  attempt_out C (rng_after (attempt_out C st first 0),
                 input_after (attempt_out C st first 0)) (first + 1) k.
Proof.
  unfold attempt_out at 1 2. rewrite attempt_state_shift.
  replace (first + Z.of_nat (S k)) with (first + 1 + Z.of_nat k) by lia.
  reflexivity.
Qed.

Lemma attempt_event_shift (st : Rng * Signal) (first : Z) (k : nat) :
  attempt_event C st first (S k) =
  attempt_event (Results:=Results) C (rng_after (attempt_out C st first 0),
                   input_after (attempt_out C st first 0)) (first + 1) k.
Proof.
  unfold attempt_event at 1 2. rewrite attempt_state_shift.
  replace (first + Z.of_nat (S k)) with (first + 1 + Z.of_nat k) by lia.
  reflexivity.
Qed.

Lemma attempt_out_first (st : Rng * Signal) (first : Z) :
  attempt_out C st first 0 = modify_sparse_segments C (fst st) (snd st) (delta_of first).
Proof. unfold attempt_out. cbn [attempt_state Z.of_nat]. rewrite Z.add_0_r. reflexivity. Qed.

Lemma attempt_event_first (st : Rng * Signal) (first : Z) :
  attempt_event (Results:=Results) C st first 0 =
  repair_event C (fst st) (snd st) (delta_of first).
Proof. unfold attempt_event. cbn [attempt_state Z.of_nat]. rewrite Z.add_0_r. reflexivity. Qed.

(** The loop from any state: its trace is the chain of attempts, each on
    what the attempt before it left. *)
Lemma sparse_segment_loop_chain (signal : Signal) :
  forall (todo : nat) (st : LoopState),
    let r := sparse_segment_loop C (S todo) signal st in
    let st0 := (loop_rng st, fourier_array st) in
    exists n : nat,
      (n <= todo)%nat /\
      trace r = map (attempt_event C st0 (attempts st)) (seq 0 (S n)) /\
      (forall k, (k < n)%nat ->
                 no_difference (repaired (attempt_out C st0 (attempts st) k)) signal = true) /\
      loop_end C st0 (attempts st) signal todo n (outcome r).
Proof.
  induction todo as [| todo IH]; intros st r st0; subst r;
    rewrite sparse_segment_loop_step; cbv zeta.
  - exists O. split; [lia|].
    unfold loop_end. rewrite (attempt_out_first st0). subst st0. cbn [fst snd].
    cbn [seq map]. rewrite attempt_event_first. cbn [fst snd].
    destruct (Np.sub _ signal) as [d |] eqn:Ed.
    + destruct (Np.any d) eqn:Ea; cbn [negb].
      * split; [reflexivity|]. split; [intros k Hk; lia|].
        split; [discriminate|]. unfold outcome. cbn [snd Z.of_nat].
        rewrite !Z.add_0_r. reflexivity.
      * cbn [sparse_segment_loop]. split; [reflexivity|]. split; [intros k Hk; lia|].
        split; [reflexivity|]. unfold outcome, ret. cbn [snd Z.of_nat].
        rewrite !Z.add_0_r. reflexivity.
    + split; [reflexivity|]. split; [intros k Hk; lia|]. reflexivity.
  - unfold loop_end.
    pose proof (attempt_out_first st0 (attempts st)) as E0.
    pose proof (attempt_event_first st0 (attempts st)) as Ee.
    subst st0. cbn [fst snd] in E0, Ee.
    destruct (Np.sub (repaired (modify_sparse_segments C (loop_rng st) (fourier_array st)
                                   (delta_of (attempts st)))) signal) as [d |] eqn:Ed.
    + destruct (Np.any d) eqn:Ea; cbn [negb].
      * exists O. split; [lia|]. cbn [seq map]. rewrite Ee, E0, Ed, Ea.
        split; [reflexivity|]. split; [intros k Hk; lia|].
        split; [discriminate|]. unfold outcome. cbn [snd Z.of_nat].
        rewrite !Z.add_0_r. reflexivity.
      * set (out := modify_sparse_segments C (loop_rng st) (fourier_array st)
                      (delta_of (attempts st))) in *.
        set (st1 := {| attempts := attempts st + 1; fourier_array := input_after out;
                       synthetic_timeseries := Some (repaired out);
                       loop_rng := rng_after out |}).
        destruct (IH st1) as (n & Hn & Ht & Hk & Hend).
        subst st1.
        cbn [attempts fourier_array loop_rng] in Ht, Hk, Hend.
        exists (S n). split; [lia|].
        split.
        { unfold trace at 1. cbn [fst]. rewrite Ht.
          change (seq 0 (S (S n))) with (0%nat :: seq 1 (S n)).
          rewrite <- seq_shift, map_cons, map_map. rewrite Ee. f_equal.
          apply map_ext. intros k. rewrite attempt_event_shift, E0. reflexivity. }
        split.
        { intros [| k] Hlt.
          - rewrite E0. unfold no_difference. rewrite Ed, Ea. reflexivity.
          - rewrite attempt_out_shift, E0. apply Hk. lia. }
        rewrite attempt_out_shift, E0. unfold loop_end in Hend.
        unfold outcome at 1. cbn [snd].
        destruct (Np.sub (repaired (attempt_out C (rng_after out, input_after out)
                                               (attempts st + 1) n)) signal) as [d' |];
          [| exact Hend].
        destruct Hend as [H1 H2]. split; [intros Hd; f_equal; exact (H1 Hd)|].
        rewrite H2. do 2 f_equal. lia.
    + exists O. split; [lia|]. cbn [seq map]. rewrite Ee, E0, Ed.
      split; [reflexivity|]. split; [intros k Hk; lia|]. reflexivity.
Qed.

End Chain.

(** ** Strings, and the extension of the output path *)

Lemma append_nil_r (s : string) : (s ++ "")%string = s.
Proof. induction s as [| c s IH]; simpl; [reflexivity | rewrite IH; reflexivity]. Qed.

Lemma append_assoc (a b c : string) : ((a ++ b) ++ c)%string = (a ++ (b ++ c))%string.
Proof. induction a as [| x a IH]; simpl; [reflexivity | rewrite IH; reflexivity]. Qed.

Lemma length_append (a b : string) :
  String.length (a ++ b) = (String.length a + String.length b)%nat.
Proof. induction a as [| x a IH]; simpl; [reflexivity | rewrite IH; reflexivity]. Qed.

Lemma substring_all (s : string) : substring 0 (String.length s) s = s.
Proof. induction s as [| c s IH]; simpl; [reflexivity | rewrite IH; reflexivity]. Qed.

(** [s[:n] + s[n:] == s] *)
Lemma substring_split (s : string) :
  forall n, (substring 0 n s ++ substring n (String.length s - n) s)%string = s.
Proof.
  induction s as [| c s IH]; intros [| n]; simpl; try reflexivity.
  - rewrite substring_all. reflexivity.
  - rewrite IH. reflexivity.
Qed.

Lemma substring_app_tail (a b : string) :
  substring (String.length a) (String.length b) (a ++ b) = b.
Proof. induction a as [| x a IH]; simpl; [apply substring_all | exact IH]. Qed.

(** Two ways of cutting one string at the same distance from its end. *)
Lemma append_tail_inj (a b a' b' : string) :
  (a ++ b)%string = (a' ++ b')%string -> String.length b = String.length b' ->
  a = a' /\ b = b'.
Proof.
  revert a'. induction a as [| x a IH]; intros [| x' a'] H Hlen; simpl in H.
  - auto.
  - exfalso. subst b. simpl in Hlen. rewrite length_append in Hlen. lia.
  - exfalso. subst b'. simpl in Hlen. rewrite length_append in Hlen. lia.
  - injection H as -> H. destruct (IH a' H Hlen) as [-> ->]. auto.
Qed.

Lemma endswith_append (r suffix : string) : Py.endswith (r ++ suffix) suffix = true.
Proof.
  unfold Py.endswith. rewrite length_append.
  replace (String.length r + String.length suffix - String.length suffix)%nat
    with (String.length r) by lia.
  rewrite substring_app_tail, String.eqb_refl.
  rewrite (proj2 (Nat.leb_le _ _)) by lia. reflexivity.
Qed.

Lemma endswith_inv (s suffix : string) :
  Py.endswith s suffix = true -> exists r, s = (r ++ suffix)%string.
Proof.
  unfold Py.endswith. intros H. apply andb_prop in H. destruct H as [Hle Heq].
  apply Nat.leb_le in Hle. apply String.eqb_eq in Heq.
  exists (substring 0 (String.length s - String.length suffix) s).
  pose proof (substring_split s (String.length s - String.length suffix)) as H.
  replace (String.length s - (String.length s - String.length suffix))%nat
    with (String.length suffix) in H by lia.
  rewrite Heq in H. symmetry. exact H.
Qed.

(** [root + ext == p], as the Python documentation of [splitext] has it. *)
Lemma splitext_append (p : string) :
  (fst (Py.splitext p) ++ snd (Py.splitext p))%string = p.
Proof.
  unfold Py.splitext.
  destruct (Py.rfind "/" p <? Py.rfind "." p); [| apply append_nil_r].
  destruct (Py.all_dots _); [apply append_nil_r|].
  apply substring_split.
Qed.

Lemma lower_ascii_dot (c : ascii) : Py.lower_ascii c = "."%char -> c = "."%char.
Proof.
  destruct c as [[] [] [] [] [] [] [] []]; vm_compute; intros H;
    first [reflexivity | discriminate H].
Qed.

(** The two tests on the extension, lines 177 and 244-245, together:
    they hold for the extensions [.csv] and [.json] as written, and for
    nothing else. *)
Lemma extension_tests (p : string) :
  ((Py.endswith p "csv" || Py.endswith p "json") &&
   (String.eqb _EXT_CSV (Py.lower (snd (Py.splitext p))) ||
    String.eqb _EXT_JSON (Py.lower (snd (Py.splitext p)))) = true) <->
  (snd (Py.splitext p) = ".csv" \/ snd (Py.splitext p) = ".json").
Proof.
  pose proof (splitext_append p) as Hp.
  destruct (Py.splitext p) as [root ext]. cbn [fst snd] in *. split.
  - intros H. apply andb_prop in H. destruct H as [Hend Hext].
    apply orb_prop in Hend. apply orb_prop in Hext.
    destruct Hext as [Hext | Hext]; apply String.eqb_eq in Hext; unfold _EXT_CSV, _EXT_JSON in Hext.
    + destruct ext as [| a [| b [| c [| d [| ? ?]]]]]; try discriminate Hext.
      cbn [Py.lower] in Hext. injection Hext as Ha Hb Hc Hd.
      symmetry in Ha. apply lower_ascii_dot in Ha. subst a.
      destruct Hend as [Hend | Hend]; apply endswith_inv in Hend; destruct Hend as [r Hr].
      * rewrite Hr in Hp.
        change (String "." (String b (String c (String d ""))))
          with ("." ++ String b (String c (String d "")))%string in Hp.
        rewrite <- append_assoc in Hp.
        apply append_tail_inj in Hp; [| reflexivity]. destruct Hp as [_ ->]. left. reflexivity.
      * rewrite Hr in Hp. apply append_tail_inj in Hp; [| reflexivity].
        destruct Hp as [_ Hp]. discriminate Hp.
    + destruct ext as [| a [| b [| c [| d [| e [| ? ?]]]]]]; try discriminate Hext.
      cbn [Py.lower] in Hext. injection Hext as Ha Hb Hc Hd He.
      symmetry in Ha. apply lower_ascii_dot in Ha. subst a.
      destruct Hend as [Hend | Hend]; apply endswith_inv in Hend; destruct Hend as [r Hr].
      * rewrite Hr in Hp.
        change (String "." (String b (String c (String d (String e "")))))
          with (String "." (String b "") ++ String c (String d (String e "")))%string in Hp.
        rewrite <- append_assoc in Hp.
        apply append_tail_inj in Hp; [| reflexivity]. destruct Hp as [_ Hp].
        injection Hp as -> -> ->. vm_compute in Hc. discriminate Hc.
      * rewrite Hr in Hp.
        change (String "." (String b (String c (String d (String e "")))))
          with ("." ++ String b (String c (String d (String e ""))))%string in Hp.
        rewrite <- append_assoc in Hp.
        apply append_tail_inj in Hp; [| reflexivity]. destruct Hp as [_ ->]. right. reflexivity.
  - intros [-> | ->]; rewrite <- Hp.
    + change (root ++ ".csv")%string with (root ++ ("." ++ "csv"))%string.
      rewrite <- append_assoc, endswith_append. reflexivity.
    + change (root ++ ".json")%string with (root ++ ("." ++ "json"))%string.
      rewrite <- append_assoc, endswith_append, orb_true_r. reflexivity.
Qed.

Section Outfile.
Context {Rng Tau Cdfs FileData Results : Type}.
Variable C : Collaborators Rng Tau Cdfs FileData Results.
Variable P : Platform.

(** Line 177, for an output path that is given and not empty. *)
Lemma read_options_outfile (args : Args) (p : string) :
  arg_outfile args = Some p -> p <> "" ->
  outcome (read_options (Rng:=Rng) (Results:=Results) args) =
  if Py.endswith p "csv" || Py.endswith p "json"
  then inr (options_of args) else inl (SysExit (-1)).
Proof.
  intros Hp Hne. unfold read_options, options_of.
  destruct args as [d j c o ns seed dbg dg sy]. cbn in Hp. subst o. cbn.
  destruct (String.eqb p "") eqn:Ep; [apply String.eqb_eq in Ep; contradiction|]. cbn.
  destruct (Py.endswith p "csv"), (Py.endswith p "json"); cbn; destruct dg, sy; reflexivity.
Qed.

(** Lines 238-252, for an output path that is given. *)
Lemma output_location_outfile (o : Options) (j : string) (codes : list Z) (p : string) :
  outfile o = Some p ->
  outcome (output_location C o j codes) =
  if String.eqb _EXT_CSV (Py.lower (snd (Py.splitext p))) ||
     String.eqb _EXT_JSON (Py.lower (snd (Py.splitext p)))
  then inr (fst (Py.split p), snd (Py.split p)) else inl (SysExit (-1)).
Proof.
  intros Hp. unfold output_location. rewrite Hp. cbv zeta.
  destruct (String.eqb _EXT_CSV _), (String.eqb _EXT_JSON _); reflexivity.
Qed.

(** The driver accepts an output path exactly when its extension, as
    [os.path.splitext] gives it, is [.csv] or [.json] in lower case:
    the test of line 177 is case-sensitive, so lowering the extension at
    line 244 lets no other path through; the directory and the name of an
    accepted path are those of [os.path.split]. *)
Theorem outfile_accepted_iff (args : Args) (p : string) (j : string) (codes : list Z) :
  arg_outfile args = Some p -> p <> "" ->
  (snd (Py.splitext p) = ".csv" \/ snd (Py.splitext p) = ".json") <->
  (outcome (read_options (Rng:=Rng) (Results:=Results) args) = inr (options_of args) /\
   outcome (output_location C (options_of args) j codes) =
     inr (fst (Py.split p), snd (Py.split p))).
Proof.
  intros Hp Hne.
  assert (Ho : outfile (options_of args) = Some p).
  { unfold options_of. cbn. rewrite Hp. cbn.
    destruct (String.eqb p "") eqn:Ep; [apply String.eqb_eq in Ep; contradiction|].
    reflexivity. }
  rewrite (read_options_outfile args p Hp Hne).
  rewrite (output_location_outfile _ j codes p Ho).
  rewrite <- extension_tests. split.
  - intros H. apply andb_prop in H. destruct H as [-> ->]. auto.
  - intros [H1 H2].
    destruct (Py.endswith p "csv" || Py.endswith p "json"); [| discriminate H1].
    destruct (String.eqb _EXT_CSV _ || String.eqb _EXT_JSON _); [reflexivity | discriminate H2].
Qed.

(** A run that is given an output path with another extension than
    [.csv] or [.json], in lower case, halts before the input files are
    read. *)
Theorem other_extensions_never_load (args : Args) (p : string) :
  arg_outfile args = Some p -> p <> "" ->
  snd (Py.splitext p) <> ".csv" -> snd (Py.splitext p) <> ".json" ->
  (exists h, outcome (main C P args) = inl h) /\
  Forall (fun e => reads_or_generates e = false) (trace (main C P args)).
Proof.
  intros Hp Hne Hcsv Hjson.
  assert (Hq : forall t : list (Event Rng Results),
             Forall (fun e => (phase e <= 0)%nat) t ->
             Forall (fun e => reads_or_generates e = false) t).
  { intros t. apply Forall_impl. intros e He. unfold reads_or_generates.
    apply Nat.leb_gt. lia. }
  assert (Ho : outfile (options_of args) = Some p).
  { unfold options_of. cbn. rewrite Hp. cbn.
    destruct (String.eqb p "") eqn:Ep; [apply String.eqb_eq in Ep; contradiction|].
    reflexivity. }
  assert (Htests : (Py.endswith p "csv" || Py.endswith p "json") &&
                   (String.eqb _EXT_CSV (Py.lower (snd (Py.splitext p))) ||
                    String.eqb _EXT_JSON (Py.lower (snd (Py.splitext p)))) = false).
  { apply not_true_is_false. intros H. apply extension_tests in H. tauto. }
  pose proof (read_options_within (Rng:=Rng) (Results:=Results) args) as W1.
  pose proof (read_options_outfile args p Hp Hne) as E1.
  unfold main.
  destruct (Py.endswith p "csv" || Py.endswith p "json").
  - rewrite (bind_value _ _ _ E1).
    pose proof (prepare_within C P args (options_of args)) as W2.
    destruct (outcome (prepare C P args (options_of args))) as [h | su] eqn:E2.
    + rewrite (bind_halted _ _ _ E2). unfold trace at 2 4, outcome at 1. simpl.
      split; [eauto|]. apply Forall_app. split; apply Hq; assumption.
    + exfalso. apply prepare_value in E2.
      destruct E2 as (_ & _ & c & loc & _ & _ & _ & _ & El & _).
      pose proof (output_location_outfile (options_of args) (arg_jurisdiction args)
                    (code_list_of C (options_of args) c) p Ho) as E3.
      cbn [andb] in Htests. rewrite Htests in E3.
      rewrite El in E3. discriminate E3.
  - rewrite (bind_halted _ _ _ E1). split; [eexists; reflexivity|]. apply Hq, W1.
Qed.
End Outfile.

(** The path [out.CSV]: its extension is not in lower case. *)
Lemma other_extensions_never_load_witness :
  snd (Py.splitext "out.CSV") = ".CSV" /\
  (exists h, outcome (main (Reference.collaborators Reference.lyme) (Reference.platform 1)
                           (Reference.args "CT" (Some "out.CSV") None None)) = inl h) /\
  Forall (fun e => reads_or_generates e = false)
         (trace (main (Reference.collaborators Reference.lyme) (Reference.platform 1)
                      (Reference.args "CT" (Some "out.CSV") None None))).
Proof.
  split; [reflexivity|].
  apply (other_extensions_never_load
           (Reference.collaborators Reference.lyme) (Reference.platform 1)
           (Reference.args "CT" (Some "out.CSV") None None) "out.CSV");
    first [reflexivity | discriminate].
Defined.

(** The path [out/lyme.ct.json]. *)
Lemma outfile_accepted_iff_witness :
  (snd (Py.splitext "out/lyme.ct.json") = ".csv" \/
   snd (Py.splitext "out/lyme.ct.json") = ".json") <->
  (outcome (read_options (Rng:=Z) (Results:=Tuples)
              (Reference.args "CT" (Some "out/lyme.ct.json") None None)) =
     inr (options_of (Reference.args "CT" (Some "out/lyme.ct.json") None None)) /\
   outcome (output_location (Reference.collaborators Reference.lyme)
              (options_of (Reference.args "CT" (Some "out/lyme.ct.json") None None))
              "CT" [11080]) =
     inr (fst (Py.split "out/lyme.ct.json"), snd (Py.split "out/lyme.ct.json"))).
Proof.
  apply (outfile_accepted_iff (Reference.collaborators Reference.lyme)
           (Reference.args "CT" (Some "out/lyme.ct.json") None None)
           "out/lyme.ct.json" "CT" [11080]).
  - reflexivity.
  - discriminate.
Defined.

(** ** Paths with an extension *)

Lemma occurs_append (c : ascii) (a b : string) :
  occurs c (a ++ b) = occurs c a || occurs c b.
Proof.
  induction a as [| x a IH]; simpl; [reflexivity|]. rewrite IH. apply orb_assoc.
Qed.

Lemma occurs_substring (c : ascii) (s : string) :
  occurs c s = false -> forall n m, occurs c (substring n m s) = false.
Proof.
  induction s as [| x s IH]; intros H n m.
  - destruct n, m; reflexivity.
  - simpl in H. apply orb_false_elim in H. destruct H as [Hx Hs].
    destruct n as [| n]; [destruct m as [| m]|]; simpl; auto.
    rewrite Hx, (IH Hs). reflexivity.
Qed.

(** The part of a string after the last [c]. *)
Lemma last_occurrence (c : ascii) (s : string) :
  occurs c s = true ->
  exists a b, s = (a ++ String c b)%string /\ occurs c b = false.
Proof.
  induction s as [| x s IH]; simpl; [discriminate|]. intros H.
  destruct (occurs c s) eqn:Es.
  - destruct (IH eq_refl) as (a & b & -> & Hb). exists (String x a), b. auto.
  - rewrite orb_false_r in H. apply Ascii.eqb_eq in H. subst x.
    exists "", s. auto.
Qed.

Lemma rfind_from_append (c : ascii) (a b : string) :
  forall i last,
    Py.rfind_from c (a ++ b) i last =
    Py.rfind_from c b (i + Z.of_nat (String.length a)) (Py.rfind_from c a i last).
Proof.
  induction a as [| x a IH]; intros i last; simpl String.length.
  - simpl. rewrite Z.add_0_r. reflexivity.
  - cbn [append Py.rfind_from]. rewrite IH. f_equal. lia.
Qed.

Lemma rfind_from_absent (c : ascii) (s : string) :
  occurs c s = false -> forall i last, Py.rfind_from c s i last = last.
Proof.
  induction s as [| x s IH]; intros H i last; [reflexivity|].
  simpl in H. apply orb_false_elim in H. destruct H as [Hx Hs].
  cbn [Py.rfind_from]. rewrite Hx. apply IH, Hs.
Qed.

Lemma rfind_last (c : ascii) (a b : string) :
  occurs c b = false -> Py.rfind c (a ++ String c b) = Z.of_nat (String.length a).
Proof.
  intros Hb. unfold Py.rfind. rewrite rfind_from_append. cbn [Py.rfind_from].
  rewrite Ascii.eqb_refl. rewrite rfind_from_absent by exact Hb. lia.
Qed.

Lemma substring_app_head (a b : string) : substring 0 (String.length a) (a ++ b) = a.
Proof.
  induction a as [| x a IH]; simpl.
  - destruct b; reflexivity.
  - rewrite IH. reflexivity.
Qed.

Lemma substring_skip (a b : string) (n m : nat) :
  substring (String.length a + n) m (a ++ b) = substring n m b.
Proof. induction a as [| x a IH]; simpl; [reflexivity | exact IH]. Qed.

Lemma all_dots_append (a b : string) :
  Py.all_dots (a ++ b) = Py.all_dots a && Py.all_dots b.
Proof.
  induction a as [| x a IH]; simpl; [reflexivity|]. rewrite IH. apply andb_assoc.
Qed.

(** [splitext] on a path whose last component is [name.ext]. *)
Lemma splitext_with_extension (dir name ext : string) :
  occurs "/" name = false -> Py.all_dots name = false ->
  occurs "." ext = false -> occurs "/" ext = false ->
  Py.splitext (dir ++ String "/" (name ++ String "." ext)) =
  ((dir ++ String "/" name)%string, String "." ext).
Proof.
  intros Hname Hdots Hext Hsep.
  set (p := (dir ++ String "/" (name ++ String "." ext))%string).
  set (r := (dir ++ String "/" name)%string).
  assert (Hp : p = (r ++ String "." ext)%string).
  { unfold p, r. rewrite append_assoc. reflexivity. }
  assert (Hr : String.length r = (String.length dir + S (String.length name))%nat).
  { unfold r. rewrite length_append. reflexivity. }
  assert (Hs : Py.rfind "/" p = Z.of_nat (String.length dir)).
  { unfold p. apply rfind_last. rewrite occurs_append, Hname. simpl. exact Hsep. }
  assert (Hd : Py.rfind "." p = Z.of_nat (String.length r)).
  { rewrite Hp. apply rfind_last, Hext. }
  assert (Hmid : Py.slice p (Z.of_nat (String.length dir) + 1)
                   (Z.of_nat (String.length r)) = name).
  { unfold Py.slice.
    replace (Z.to_nat (Z.of_nat (String.length dir) + 1))
      with (String.length (dir ++ "/") + 0)%nat
      by (rewrite length_append; simpl; lia).
    replace (Z.to_nat (Z.of_nat (String.length r) - (Z.of_nat (String.length dir) + 1)))
      with (String.length name) by lia.
    unfold p.
    change (dir ++ String "/" (name ++ String "." ext))%string
      with (dir ++ ("/" ++ (name ++ String "." ext)))%string.
    rewrite <- append_assoc, substring_skip. apply substring_app_head. }
  unfold Py.splitext. fold p. rewrite Hs, Hd.
  rewrite (proj2 (Z.ltb_lt _ _)) by lia.
  rewrite Hmid, Hdots. unfold Py.slice_to, Py.slice_from. rewrite Nat2Z.id.
  f_equal.
  - rewrite Hp. apply substring_app_head.
  - rewrite Hp at 1. rewrite length_append.
    replace (String.length r + String.length (String "." ext) - String.length r)%nat
      with (String.length (String "." ext)) by lia.
    rewrite Hp. apply substring_app_tail.
Qed.

(** ** The test driver *)

Section TesterFacts.
Import Tester.
Variable W : World.

(** [item[:-4]] takes [.csv] off. *)
Lemma code_of_item_csv (code : string) : code_of_item (code ++ ".csv") = code.
Proof.
  unfold code_of_item. rewrite length_append. simpl String.length.
  replace (String.length code + 4 - 4)%nat with (String.length code) by lia.
  apply substring_app_head.
Qed.

(** The extension of the output path the tester asks for. *)
Lemma outfile_of_extension (jurisdiction code : string) :
  occurs "/" code = false ->
  snd (Py.splitext (outfile_of jurisdiction code)) = ".json".
Proof.
  intros Hcode. unfold outfile_of.
  destruct (last_occurrence "/" ("all_synthetic_hl7_july_json/" ++ jurisdiction))
    as (dir & name & E & Hname).
  { rewrite occurs_append. reflexivity. }
  rewrite E.
  replace ((((dir ++ String "/" name) ++ "_") ++ code) ++ ".json")%string
    with (dir ++ String "/" ((name ++ "_" ++ code) ++ String "." "json"))%string.
  2:{ rewrite !append_assoc. simpl. rewrite ?append_assoc. reflexivity. }
  rewrite splitext_with_extension; try reflexivity.
  - rewrite !occurs_append, Hname, Hcode. reflexivity.
  - rewrite !all_dots_append. simpl. apply andb_false_r.
Qed.

Lemma commands_app (t1 t2 : list Event) : commands (t1 ++ t2) = commands t1 ++ commands t2.
Proof. unfold commands. apply flat_map_app. Qed.

Lemma commands_of_items (data_dir jurisdiction : string) (items : list string) :
  commands (flat_map (test_item W data_dir jurisdiction) items) =
  map (fun item => command jurisdiction (code_of_item item))
      (filter (fun item => isfile W (join data_dir item)) items).
Proof.
  induction items as [| item items IH]; [reflexivity|].
  cbn [flat_map filter]. rewrite commands_app, IH. unfold test_item.
  destruct (isfile W (join data_dir item)); reflexivity.
Qed.

(** For one jurisdiction whose directory exists, the tester runs one
    command for every regular file of the directory, in the order of
    the listing, and no other; a file named [code.csv] is run with
    [--code code]. *)
Theorem one_command_per_file (a jurisdiction : string) (items : list string) :
  (match ABBREV_MAP W a with Some full => full | None => a end) = jurisdiction ->
  jurisdiction <> "all" ->
  isdir W (join _HL7_DIR jurisdiction) = true ->
  listdir W (join _HL7_DIR jurisdiction) = Some items ->
  snd (main W a) = Finished /\
  commands (fst (main W a)) =
    map (fun item => command jurisdiction (code_of_item item))
        (filter (fun item => isfile W (join (join _HL7_DIR jurisdiction) item)) items) /\
  forall code,
    In (code ++ ".csv")%string items ->
    isfile W (join (join _HL7_DIR jurisdiction) (code ++ ".csv")) = true ->
    In (command jurisdiction code) (commands (fst (main W a))).
Proof.
  intros Ha Hall Hdir Hls. unfold main. rewrite Ha.
  destruct (String.eqb jurisdiction "all") eqn:E; [apply String.eqb_eq in E; contradiction|].
  unfold test_jurisdiction. rewrite Hdir, Hls. cbn [negb fst snd].
  split; [reflexivity|]. rewrite commands_of_items. split; [reflexivity|].
  intros code Hin Hfile. rewrite <- (code_of_item_csv code) at 1.
  apply (in_map (fun item => command jurisdiction (code_of_item item))).
  apply filter_In. auto.
Qed.

Lemma test_all_stops (before after : list string) (j : string) :
  Forall (fun j' => snd (test_jurisdiction W j') = Finished) before ->
  isdir W (join _HL7_DIR j) = false ->
  test_all W (before ++ j :: after) =
  (flat_map (fun j' => fst (test_jurisdiction W j')) before ++
   [DirectoryNotFound (join _HL7_DIR j)], Exit (-1)).
Proof.
  intros Hbefore Hj. induction Hbefore as [| j' before Hj' _ IH].
  - cbn [app flat_map test_all]. unfold test_jurisdiction. rewrite Hj. reflexivity.
  - cbn [app flat_map test_all]. rewrite IH.
    destruct (test_jurisdiction W j') as [t e]. cbn [fst snd] in *. subst e.
    rewrite app_assoc. reflexivity.
Qed.

(** In a sweep over all jurisdictions, the first entry of [_HL7_DIR]
    that is not a directory ends the script with [sys.exit(-1)]: the
    jurisdictions listed before it have been run, the ones after it are
    not. *)
Theorem sweep_stops_at_first_non_directory (a : string) (before after : list string)
        (j : string) :
  (match ABBREV_MAP W a with Some full => full | None => a end) = "all" ->
  listdir W _HL7_DIR = Some (before ++ j :: after) ->
  Forall (fun j' => snd (test_jurisdiction W j') = Finished) before ->
  isdir W (join _HL7_DIR j) = false ->
  main W a =
  (flat_map (fun j' => fst (test_jurisdiction W j')) before ++
   [DirectoryNotFound (join _HL7_DIR j)], Exit (-1)).
Proof.
  intros Ha Hls Hbefore Hj. unfold main. rewrite Ha, Hls. cbn [String.eqb Ascii.eqb].
  change (("all" =? "all")%string) with true. cbv iota.
  apply test_all_stops; assumption.
Qed.
End TesterFacts.

(** Every output path the tester asks for passes the two extension tests
    of the command-line driver, whatever the jurisdiction and the file
    are named: its extension is [.json], since a directory entry has no
    [/] in its name. *)
Theorem tester_outfile_is_accepted {Rng Tau Cdfs FileData Results : Type}
        (C : Collaborators Rng Tau Cdfs FileData Results)
        (jurisdiction item : string) (codes : list Z) :
  occurs "/" item = false ->
  snd (Py.splitext (Tester.outfile_of jurisdiction (Tester.code_of_item item))) = ".json" /\
  outcome (read_options (Rng:=Rng) (Results:=Results)
             (Tester.cli_args jurisdiction (Tester.code_of_item item))) =
    inr (options_of (Tester.cli_args jurisdiction (Tester.code_of_item item))) /\
  outcome (output_location C
             (options_of (Tester.cli_args jurisdiction (Tester.code_of_item item)))
             jurisdiction codes) =
    inr (fst (Py.split (Tester.outfile_of jurisdiction (Tester.code_of_item item))),
         snd (Py.split (Tester.outfile_of jurisdiction (Tester.code_of_item item)))).
Proof.
  intros Hitem.
  set (code := Tester.code_of_item item).
  assert (Hcode : occurs "/" code = false) by apply (occurs_substring _ _ Hitem).
  pose proof (outfile_of_extension jurisdiction code Hcode) as Hext.
  assert (Hne : Tester.outfile_of jurisdiction code <> "").
  { unfold Tester.outfile_of. destruct ((_ ++ _) ++ code)%string; discriminate. }
  assert (Htests := proj2 (extension_tests (Tester.outfile_of jurisdiction code))
                          (or_intror Hext)).
  apply andb_prop in Htests. destruct Htests as [H1 H2].
  split; [exact Hext|]. split.
  - rewrite (read_options_outfile (Tester.cli_args jurisdiction code)
               (Tester.outfile_of jurisdiction code) eq_refl Hne), H1. reflexivity.
  - rewrite (output_location_outfile C _ jurisdiction codes
               (Tester.outfile_of jurisdiction code)), H2; [reflexivity|].
    unfold options_of, Tester.cli_args. cbn.
    destruct (String.eqb (Tester.outfile_of jurisdiction code) "") eqn:E;
      [apply String.eqb_eq in E; contradiction | reflexivity].
Qed.

(** The file [11080.csv] of the jurisdiction [CT]. *)
Lemma tester_outfile_is_accepted_witness :
  Tester.outfile_of "CT" (Tester.code_of_item "11080.csv") =
    "all_synthetic_hl7_july_json/CT_11080.json" /\
  snd (Py.splitext (Tester.outfile_of "CT" (Tester.code_of_item "11080.csv"))) = ".json" /\
  outcome (read_options (Rng:=Z) (Results:=Tuples)
             (Tester.cli_args "CT" (Tester.code_of_item "11080.csv"))) =
    inr (options_of (Tester.cli_args "CT" (Tester.code_of_item "11080.csv"))) /\
  outcome (output_location (Reference.collaborators Reference.lyme)
             (options_of (Tester.cli_args "CT" (Tester.code_of_item "11080.csv")))
             "CT" [11080]) =
    inr (fst (Py.split (Tester.outfile_of "CT" (Tester.code_of_item "11080.csv"))),
         snd (Py.split (Tester.outfile_of "CT" (Tester.code_of_item "11080.csv")))).
Proof.
  split; [reflexivity|].
  apply (tester_outfile_is_accepted (Reference.collaborators Reference.lyme)
           "CT" "11080.csv" [11080]).
  reflexivity.
Defined.

(** The jurisdiction [CT] of the sample tree. *)
Lemma one_command_per_file_witness :
  snd (Tester.main Tester.sample_tree "CT") = Tester.Finished /\
  Tester.commands (fst (Tester.main Tester.sample_tree "CT")) =
    [Tester.command "CT" "11080"] /\
  In (Tester.command "CT" "11080")
     (Tester.commands (fst (Tester.main Tester.sample_tree "CT"))).
Proof.
  destruct (one_command_per_file Tester.sample_tree "CT" "CT" ["11080.csv"; "old"])
    as (H1 & H2 & H3); try reflexivity; [discriminate|].
  split; [exact H1|]. split; [exact H2|].
  apply (H3 "11080"); [left; reflexivity | reflexivity].
Defined.

(** The sweep over the sample tree stops at [README]. *)
Lemma sweep_stops_at_first_non_directory_witness :
  Tester.main Tester.sample_tree "all" =
  ([Tester.PrintCommand (Tester.command "CT" "11080");
    Tester.SubprocessRun (Tester.command "CT" "11080");
    Tester.PrintStdout "";
    Tester.DirectoryNotFound "/data/csels/preprocessed_data/hl7_update/README"],
   Tester.Exit (-1)).
Proof.
  apply (sweep_stops_at_first_non_directory Tester.sample_tree "all" ["CT"] ["NY"] "README").
  - reflexivity.
  - reflexivity.
  - repeat constructor.
  - reflexivity.
Defined.

(** ** The notebook and the command-line driver *)

Section NotebookFacts.
Context {Rng Tau Cdfs FileData Results : Type}.
Variable C : Collaborators Rng Tau Cdfs FileData Results.
Variable P : Platform.
Local Abbreviation Run := (Run Rng Results).

Lemma pipeline_calls_app (t1 t2 : list (Event Rng Results)) :
  pipeline_calls (t1 ++ t2) = pipeline_calls t1 ++ pipeline_calls t2.
Proof. apply filter_app. Qed.

Lemma agree_bind {A B} (m1 m2 : Run A) (f1 f2 : A -> Run B) :
  agree m1 m2 -> (forall a, outcome m1 = inr a -> agree (f1 a) (f2 a)) ->
  agree (bind m1 f1) (bind m2 f2).
Proof.
  intros [Hc Ho] Hf. destruct (outcome m1) as [h | a] eqn:E1.
  - destruct (outcome m2) as [h2 | a2] eqn:E2.
    + rewrite (bind_halted _ _ _ E1), (bind_halted _ _ _ E2). split; [exact Hc|].
      intros b. unfold outcome. simpl. split; discriminate.
    + pose proof (proj2 (Ho a2) eq_refl) as X. discriminate X.
  - assert (E2 : outcome m2 = inr a) by (apply Ho; reflexivity).
    rewrite (bind_value _ _ _ E1), (bind_value _ _ _ E2).
    destruct (Hf a eq_refl) as [Hc' Ho']. split.
    + unfold trace at 1 4. cbn [fst]. rewrite !pipeline_calls_app, Hc, Hc'. reflexivity.
    + intros b. unfold outcome at 1 3. cbn [snd]. apply Ho'.
Qed.

Lemma agree_refl {A} (m : Run A) : agree m m.
Proof. split; [reflexivity | intros; tauto]. Qed.

Lemma compare_fields_agree (header_list : list string) :
  forall todo i,
    agree (compare_fields C header_list i todo)
          (Notebook.compare_fields C header_list i todo).
Proof.
  induction todo as [| f todo IH]; intros i; [apply agree_refl|].
  cbn [compare_fields Notebook.compare_fields].
  destruct (nth_error header_list i) as [h |]; [| apply agree_refl].
  destruct (nth_error (OUTPUT_FIELDS C) i) as [f' |]; [| apply agree_refl].
  destruct (negb (String.eqb h f')); [| apply IH].
  split; [reflexivity|]. intros a. unfold outcome. simpl. split; discriminate.
Qed.

Lemma check_header_agree : agree (check_header C) (Notebook.check_header C).
Proof.
  unfold check_header, Notebook.check_header. apply agree_bind.
  - destruct (negb _); [| apply agree_refl].
    split; [reflexivity|]. intros a. unfold outcome. simpl. split; discriminate.
  - intros _ _. apply compare_fields_agree.
Qed.

Lemma generate_agree (o : Options) (inp : Notebook.Inputs) su m s st :
  num_samples o = Notebook.NUM_SAMPLES inp ->
  agree (generate C o su m s st) (Notebook.generate C inp su m s st).
Proof.
  intros Hn. unfold generate, Notebook.generate, sample_count. rewrite Hn.
  destruct (synthetic_timeseries st) as [ts |]; [| apply agree_refl].
  rewrite !bind_ret. cbv zeta.
  destruct (copula_n_variable_model C _ _ _ _ _) as [[[d |] tau] rng]; cbv beta iota.
  - cbn [bind called emit ret print halt].
    match goal with
    | |- context [correct_invalid_pseudopersons C ?a ?b ?c ?d ?e ?f] =>
        destruct (correct_invalid_pseudopersons C a b c d e f) as [d' rng']
    end.
    cbn [bind called emit ret print halt].
    match goal with
    | |- context [generate_date_tuples C ?a ?b ?c ?d ?e ?f ?g] =>
        destruct (generate_date_tuples C a b c d e f g) as [out rng'']
    end.
    split; [reflexivity|]. intros a. unfold outcome. simpl. tauto.
  - split; [reflexivity|]. intros a. unfold outcome. simpl. split; discriminate.
Qed.

Lemma prepare_agree (args : Args) (c : Z) :
  Py.truthy_str (arg_outfile args) = false ->
  os_path_isdir P (arg_hl7_dir args) = true ->
  py_int P (arg_condition_code args) = Some c ->
  agree (prepare C P args (options_of args))
        (Notebook.prepare C P (inputs_of args c)).
Proof.
  intros Hout Hdir Hcode.
  assert (Ho : outfile (options_of args) = None).
  { unfold options_of. cbn. rewrite Hout. reflexivity. }
  unfold prepare, Notebook.prepare, output_location,
    Notebook.output_file_name, check_sample_count.
  rewrite Ho, Hdir, Hcode. cbn [inputs_of Notebook.DEBUG Notebook.DISABLE_GROUPING
    Notebook.CONDITION_CODE Notebook.SYPHILIS_TOTAL Notebook.HL7_DIR Notebook.JURISDICTION
    Notebook.OUTPUT_FILE_NAME Notebook.OUTPUT_DIR Notebook.RNG_SEED Notebook.NUM_SAMPLES
    negb options_of disable_grouping syphilis_total rng_seed num_samples].
  destruct (arg_debug args);
    destruct (arg_disable_grouping args), (arg_syphilis_total args); cbn [negb];
    rewrite ?bind_ret;
    match goal with
    | |- context [build_input_filepaths C ?d ?j ?l] =>
        destruct (build_input_filepaths C d j l) as [| f fs]
    end; cbn;
    try (split; [reflexivity | intros a; unfold outcome; simpl; split; discriminate]);
    rewrite ?bind_ret;
    match goal with
    | |- context [build_output_filepath C ?d ?n] =>
        destruct (build_output_filepath C d n) as [p |]
    end; cbn;
    first [ split; [reflexivity | intros a; unfold outcome; simpl; tauto]
          | split; [reflexivity | intros a; unfold outcome; simpl; split; discriminate] ].
Qed.

Lemma agree_after_prints {A} (t : list (Event Rng Results)) (r1 r2 : Run A) :
  pipeline_calls t = [] -> agree r1 r2 -> agree (t ++ trace r1, outcome r1) r2.
Proof.
  intros Ht [Hc Ho]. split.
  - unfold trace at 1. cbn [fst]. rewrite pipeline_calls_app, Ht. exact Hc.
  - exact Ho.
Qed.

(** With no output file named, an existing data directory and a
    condition code that reads as an integer, the command-line driver
    and the cells of the notebook up to "END OF SYNTHETIC DATA
    GENERATION" (lines 185-566), set up alike, run the same pipeline:
    their calls of
    [init_rng], [init_model_data], [signal_from_anchor_date],
    [gen_synthetic_fourier], [modify_sparse_segments],
    [copula_n_variable_model], [correct_invalid_pseudopersons],
    [remap_synthetic_results], [generate_date_tuples] and
    [write_output_file] are the same, with the same arguments and in the
    same order, and one writes its output file exactly when the other
    does.  The calls of [enable_debug], the plotting calls of the
    notebook and [model.error_exit] are not compared. *)
Theorem notebook_and_driver_run_the_same_pipeline (args : Args) (c : Z) :
  Py.truthy_str (arg_outfile args) = false ->
  os_path_isdir P (arg_hl7_dir args) = true ->
  py_int P (arg_condition_code args) = Some c ->
  pipeline_calls (trace (main C P args)) =
    pipeline_calls (trace (Notebook.generation C P (inputs_of args c))) /\
  (outcome (main C P args) = inr tt <->
   outcome (Notebook.generation C P (inputs_of args c)) = inr tt).
Proof.
  intros Hout Hdir Hcode.
  enough (H : agree (main C P args) (Notebook.generation C P (inputs_of args c))).
  { destruct H as [H1 H2]. split; [exact H1 | apply H2]. }
  assert (Hr : read_options (Rng:=Rng) (Results:=Results) args =
               ([Print (MsgArguments (outfile (options_of args)) None
                          (rng_seed (options_of args))
                          (disable_grouping (options_of args))
                          (syphilis_total (options_of args)))],
                inr (options_of args))).
  { destruct (read_options_cases (Rng:=Rng) (Results:=Results) args)
      as [E | (p & Hp & Hne & _)]; [exact E|].
    exfalso. rewrite Hp in Hout. cbn in Hout.
    destruct (String.eqb p "") eqn:Ep; [| discriminate Hout].
    apply String.eqb_eq in Ep. contradiction. }
  unfold main.
  rewrite (bind_value (read_options args) _ (options_of args))
    by (rewrite Hr; reflexivity).
  apply agree_after_prints; [rewrite Hr; reflexivity|].
  unfold Notebook.generation.
  apply agree_bind; [apply prepare_agree; assumption|].
  intros su Hsu. apply agree_bind; [apply agree_refl|].
  intros m _. apply agree_bind; [apply check_header_agree|].
  intros ? _. apply agree_bind; [apply agree_refl|].
  intros s _. apply agree_bind; [apply agree_refl|].
  intros st _. apply generate_agree. reflexivity.
Qed.

(** *** The sample count of the notebook *)

Ltac cells_tac :=
  repeat first
    [ apply within_ret | apply within_halt | apply within_print
    | apply within_bind; [| intros ? _]
    | match goal with
      | |- within _ (if ?b then _ else _) => destruct b
      | |- within _ (match ?x with _ => _ end) => destruct x
      | |- within _ (let (_, _) := ?x in _) => destruct x
      end
    | solve [repeat constructor; simpl; lia] ].

Lemma notebook_prepare_within inp : within 0 (Notebook.prepare C P inp).
Proof.
  unfold Notebook.prepare, Notebook.output_file_name, Notebook.system_exit, sys_exit.
  cells_tac.
Qed.

Lemma notebook_compare_fields_within header_list :
  forall todo i, within 1 (Notebook.compare_fields C header_list i todo).
Proof.
  induction todo as [| f todo IH]; intros i; simpl.
  - cells_tac.
  - unfold Notebook.system_exit, sys_exit, raise. cells_tac. apply IH.
Qed.

Lemma notebook_check_header_within : within 1 (Notebook.check_header C).
Proof.
  unfold Notebook.check_header, Notebook.system_exit, sys_exit.
  apply within_bind; [cells_tac|]. intros _ _. apply notebook_compare_fields_within.
Qed.

Ltac cell_inv H :=
  apply outcome_bind_inr in H;
  let a := fresh "a" in let Ha := fresh "Ha" in destruct H as (a & Ha & H).

(** What the first cells leave when they do not end the script. *)
Lemma notebook_prepare_value (inp : Notebook.Inputs) (su : Setup) :
  outcome (Notebook.prepare C P inp) = inr su ->
  rng0 su = init_rng C (Notebook.RNG_SEED inp) (system_time P) /\
  infile_list su <> [] /\
  forall n, Notebook.NUM_SAMPLES inp = Some n -> 0 < n.
Proof.
  unfold Notebook.prepare. intros H.
  cell_inv H. cell_inv H. cell_inv H.
  destruct (build_input_filepaths C _ _ _) as [| f fs] eqn:Ef; [discriminate Ha1|].
  cell_inv H. cell_inv H. cell_inv H. cell_inv H. cell_inv H. cell_inv H.
  injection H as <-. cbn [rng0 infile_list].
  split; [reflexivity|]. split; [discriminate|].
  intros n Hn. rewrite Hn in Ha7. destruct (n <=? 0) eqn:E; [discriminate Ha7|].
  apply Z.leb_gt in E. exact E.
Qed.

Lemma asks_for_early (n : Z) (t : list (Event Rng Results)) :
  Forall (fun e => (phase e <= 3)%nat) t -> Forall (asks_for n) t.
Proof.
  apply Forall_impl. intros e He.
  destruct e as [d | []]; simpl in *; try exact I; lia.
Qed.

Lemma asks_for_bind {A} (n : Z) (m : Run A) (f : A -> Run unit) :
  within 3 m ->
  (forall a, outcome m = inr a -> Forall (asks_for n) (trace (f a))) ->
  Forall (asks_for n) (trace (bind m f)).
Proof.
  intros Hm Hf. destruct (outcome m) as [h | a] eqn:E.
  - rewrite (bind_halted _ _ _ E). apply asks_for_early, Hm.
  - rewrite (bind_value _ _ _ E). unfold trace at 1. cbn [fst].
    apply Forall_app. split; [apply asks_for_early, Hm | apply Hf, eq_refl].
Qed.

Lemma notebook_generate_asks (inp : Notebook.Inputs) (n : Z) su m s st :
  Notebook.NUM_SAMPLES inp = Some n ->
  Forall (asks_for n) (trace (Notebook.generate C inp su m s st)).
Proof.
  intros Hn. unfold Notebook.generate. rewrite Hn.
  destruct (synthetic_timeseries st) as [ts |]; [| constructor].
  rewrite !bind_ret. cbv zeta.
  destruct (copula_n_variable_model C _ _ _ _ _) as [[[d |] tau] rng]; cbv beta iota.
  - cbn [bind called emit ret print halt].
    match goal with
    | |- context [correct_invalid_pseudopersons C ?a ?b ?c ?d ?e ?f] =>
        destruct (correct_invalid_pseudopersons C a b c d e f) as [d' rng']
    end.
    cbn [bind called emit ret print halt].
    match goal with
    | |- context [generate_date_tuples C ?a ?b ?c ?d ?e ?f ?g] =>
        destruct (generate_date_tuples C a b c d e f g) as [out rng'']
    end.
    unfold trace. cbn. repeat constructor.
  - unfold trace. cbn. repeat constructor.
Qed.

(** The notebook honours [NUM_SAMPLES]: when it is set, the copula
    model, the pseudoperson correction and the date tuples are asked for
    that many tuples and the output file is written with that count,
    whatever the synthetic timeseries sums to; a value that is not
    positive ends the notebook before the input files are read. *)
Theorem notebook_honours_num_samples (inp : Notebook.Inputs) (n : Z) :
  Notebook.NUM_SAMPLES inp = Some n ->
  Forall (asks_for n) (trace (Notebook.generation C P inp)) /\
  (n <= 0 ->
   (exists h, outcome (Notebook.generation C P inp) = inl h) /\
   Forall (fun e => reads_or_generates e = false) (trace (Notebook.generation C P inp))).
Proof.
  intros Hn. split.
  - unfold Notebook.generation.
    apply asks_for_bind; [apply (within_le 0); [lia | apply notebook_prepare_within]|].
    intros su _. apply asks_for_bind; [apply (within_le 1); [lia | apply load_within]|].
    intros m _. apply asks_for_bind;
      [apply (within_le 1); [lia | apply notebook_check_header_within]|].
    intros ? _. apply asks_for_bind;
      [apply (within_le 2); [lia | apply signal_processing_within]|].
    intros s _. apply asks_for_bind; [apply sparse_segment_loop_within|].
    intros st _. apply notebook_generate_asks, Hn.
  - intros Hle. unfold Notebook.generation.
    destruct (outcome (Notebook.prepare C P inp)) as [h | su] eqn:E.
    + rewrite (bind_halted _ _ _ E). split; [eexists; reflexivity|].
      unfold trace at 1. cbn [fst].
      pose proof (notebook_prepare_within inp) as W.
      eapply Forall_impl; [| exact W]. intros e He. cbv beta in He.
      unfold reads_or_generates. apply Nat.leb_gt. lia.
    + exfalso. apply notebook_prepare_value in E. destruct E as (_ & _ & E).
      specialize (E n Hn). lia.
Qed.

(** *** How the notebook can end *)

Lemma notebook_halts_bind {A B} (m : Run A) (f : A -> Run B) :
  halts_as_notebook m -> (forall a, outcome m = inr a -> halts_as_notebook (f a)) ->
  halts_as_notebook (bind m f).
Proof.
  intros Hm Hf. destruct (outcome m) as [h | a] eqn:E.
  - rewrite (bind_halted _ _ _ E). intros h' Hh. injection Hh as <-. apply Hm, E.
  - rewrite (bind_value _ _ _ E). intros h' Hh. apply (Hf a eq_refl h' Hh).
Qed.

Lemma notebook_halts_value {A} (t : list (Event Rng Results)) (a : A) :
  halts_as_notebook (t, inr a).
Proof. intros h H. discriminate H. Qed.

Lemma notebook_halts_known {A} (t : list (Event Rng Results)) (h : Halt) :
  notebook_halt h -> halts_as_notebook (A:=A) (t, inl h).
Proof. intros Hh h' H. injection H as <-. exact Hh. Qed.

Ltac ends_tac :=
  repeat first
    [ apply notebook_halts_value
    | apply notebook_halts_known; unfold notebook_halt; tauto
    | apply notebook_halts_bind; [| intros ? _]
    | match goal with
      | |- halts_as_notebook (if ?b then _ else _) => destruct b
      | |- halts_as_notebook (match ?x with _ => _ end) => destruct x
      | |- halts_as_notebook (let (_, _) := ?x in _) => destruct x
      end ].

Lemma notebook_prepare_halts inp : halts_as_notebook (Notebook.prepare C P inp).
Proof.
  unfold Notebook.prepare, Notebook.output_file_name, Notebook.system_exit. ends_tac.
Qed.

Lemma load_halts_notebook su : halts_as_notebook (load C su).
Proof. unfold load. ends_tac. Qed.

Lemma notebook_compare_fields_halts header_list :
  forall todo i, halts_as_notebook (Notebook.compare_fields C header_list i todo).
Proof.
  induction todo as [| f todo IH]; intros i; simpl.
  - ends_tac.
  - unfold Notebook.system_exit, raise. ends_tac. apply IH.
Qed.

Lemma notebook_check_header_halts : halts_as_notebook (Notebook.check_header C).
Proof.
  unfold Notebook.check_header, Notebook.system_exit.
  apply notebook_halts_bind; [ends_tac|]. intros _ _. apply notebook_compare_fields_halts.
Qed.

Lemma signal_processing_halts_notebook m : halts_as_notebook (signal_processing C m).
Proof. unfold signal_processing, py_assert, raise. ends_tac. Qed.

Lemma sparse_segment_loop_halts_notebook signal :
  forall todo st, halts_as_notebook (sparse_segment_loop C todo signal st).
Proof.
  induction todo as [| todo IH]; intros st.
  - apply notebook_halts_value.
  - rewrite sparse_segment_loop_step. cbv zeta.
    destruct (Np.sub _ signal) as [d |]; [destruct (negb (Np.any d))|].
    + intros h E. exact (IH _ h E).
    + apply notebook_halts_value.
    + apply notebook_halts_known. unfold notebook_halt. tauto.
Qed.

Lemma notebook_generate_halts inp su m s st :
  synthetic_timeseries st <> None ->
  halts_as_notebook (Notebook.generate C inp su m s st).
Proof.
  intros Hb. unfold Notebook.generate.
  destruct (synthetic_timeseries st) as [ts |]; [| contradiction].
  ends_tac.
Qed.

(** The notebook ends with its output file written or in one of seven
    ways: [SystemExit] with status 0 (no data, or a header that does not
    match) or 1 (output file format, output path, [NUM_SAMPLES]),
    [model.error_exit] for the loading stage or the copula model, or an
    uncaught [ValueError], [IndexError] or [AssertionError]; it never
    ends with the status [-1] of the command-line driver. *)
Theorem notebook_ends_in_known_ways (inp : Notebook.Inputs) (h : Halt) :
  outcome (Notebook.generation C P inp) = inl h -> notebook_halt h.
Proof.
  revert h. change (halts_as_notebook (Notebook.generation C P inp)).
  unfold Notebook.generation.
  apply notebook_halts_bind; [apply notebook_prepare_halts | intros su _].
  apply notebook_halts_bind; [apply load_halts_notebook | intros m _].
  apply notebook_halts_bind; [apply notebook_check_header_halts | intros ? _].
  apply notebook_halts_bind; [apply signal_processing_halts_notebook | intros s _].
  apply notebook_halts_bind; [apply sparse_segment_loop_halts_notebook | intros st Hst].
  apply notebook_generate_halts. exact (proj2 (modify_sparse_binds C s) st Hst).
Qed.
End NotebookFacts.

(** The [lyme] run with seed 42, from the command line and from the
    notebook. *)
Lemma notebook_and_driver_run_the_same_pipeline_witness :
  pipeline_calls (trace (main (Reference.collaborators Reference.lyme) (Reference.platform 1)
                     (Reference.args "CT" None None (Some 42)))) =
    pipeline_calls (trace (Notebook.generation (Reference.collaborators Reference.lyme)
                    (Reference.platform 1)
                    (inputs_of (Reference.args "CT" None None (Some 42)) 11080))) /\
  (outcome (main (Reference.collaborators Reference.lyme) (Reference.platform 1)
                 (Reference.args "CT" None None (Some 42))) = inr tt <->
   outcome (Notebook.generation (Reference.collaborators Reference.lyme)
              (Reference.platform 1)
              (inputs_of (Reference.args "CT" None None (Some 42)) 11080)) = inr tt).
Proof.
  apply (notebook_and_driver_run_the_same_pipeline
           (Reference.collaborators Reference.lyme) (Reference.platform 1)
           (Reference.args "CT" None None (Some 42)) 11080); reflexivity.
Defined.

(** [NUM_SAMPLES = 12] on the [lyme] data, whose synthetic timeseries
    sums to 7. *)
Lemma notebook_honours_num_samples_witness :
  requested_counts
    (trace (Notebook.generation (Reference.collaborators Reference.lyme)
              (Reference.platform 1) (lyme_inputs (Some 12) (Some 42)))) = [12] /\
  Forall (asks_for 12)
         (trace (Notebook.generation (Reference.collaborators Reference.lyme)
                   (Reference.platform 1) (lyme_inputs (Some 12) (Some 42)))).
Proof.
  split; [vm_compute; reflexivity|].
  apply (notebook_honours_num_samples (Reference.collaborators Reference.lyme)
           (Reference.platform 1) (lyme_inputs (Some 12) (Some 42)) 12).
  reflexivity.
Defined.

(** A header that does not match ends the notebook with status 0. *)
Lemma notebook_ends_in_known_ways_witness :
  outcome (Notebook.generation (Reference.collaborators Reference.bad_header)
             (Reference.platform 1) (lyme_inputs None (Some 42))) = inl (SysExit 0) /\
  notebook_halt (SysExit 0).
Proof.
  split; [reflexivity|].
  apply (notebook_ends_in_known_ways (Reference.collaborators Reference.bad_header)
           (Reference.platform 1) (lyme_inputs None (Some 42))).
  reflexivity.
Defined.

(** ** The convergence runs of the notebook *)

Lemma range_start_end :
  Notebook.range Notebook.start (Notebook.end_ + 1) =
  [5; 6; 7; 8; 9; 10; 11; 12; 13; 14; 15; 16; 17; 18].
Proof. reflexivity. Qed.

Lemma run_sizes_from_finished (todo : list Z) (max_samples : Z) :
  Notebook.run_sizes_from todo max_samples true = [].
Proof. destruct todo; reflexivity. Qed.

Lemma run_sizes_from_step (i : Z) (todo : list Z) (max_samples : Z) :
  Notebook.run_sizes_from (i :: todo) max_samples false =
  if max_samples <? 2 ^ i then [max_samples]
  else 2 ^ i :: Notebook.run_sizes_from todo max_samples false.
Proof.
  cbn [Notebook.run_sizes_from]. destruct (max_samples <? 2 ^ i); [| reflexivity].
  rewrite run_sizes_from_finished. reflexivity.
Qed.

Lemma run_sizes_from_bounds (max_samples lo : Z) :
  forall todo,
    lo <= max_samples -> Forall (fun i => lo <= 2 ^ i) todo ->
    Forall (fun n => lo <= n <= max_samples)
           (Notebook.run_sizes_from todo max_samples false).
Proof.
  induction todo as [| i todo IH]; intros Hlo Hall; [constructor|].
  rewrite run_sizes_from_step. inversion Hall as [| ? ? Hi Hall']; subst.
  destruct (max_samples <? 2 ^ i) eqn:E.
  - repeat constructor; lia.
  - apply Z.ltb_ge in E. constructor; [lia | apply IH; assumption].
Qed.

Lemma run_sizes_from_sorted (max_samples : Z) :
  forall todo,
    StronglySorted Z.lt todo -> Forall (fun i => 0 <= i) todo ->
    StronglySorted Z.le (Notebook.run_sizes_from todo max_samples false).
Proof.
  induction todo as [| i todo IH]; intros Hs Hpos; [constructor|].
  rewrite run_sizes_from_step.
  inversion Hs as [| ? ? Hs' Hlt]; subst. inversion Hpos as [| ? ? Hi Hpos']; subst.
  destruct (max_samples <? 2 ^ i) eqn:E; [repeat constructor|].
  apply Z.ltb_ge in E. constructor; [apply IH; assumption|].
  eapply Forall_impl; [| apply (run_sizes_from_bounds max_samples (2 ^ i) todo E)].
  - intros n Hn. cbv beta in Hn. lia.
  - rewrite Forall_forall in *. intros j Hj.
    apply Z.pow_le_mono_r; [lia|]. specialize (Hlt j Hj). lia.
Qed.

Lemma run_sizes_from_nonempty (i : Z) (todo : list Z) (max_samples : Z) :
  Notebook.run_sizes_from (i :: todo) max_samples false <> [].
Proof. rewrite run_sizes_from_step. destruct (max_samples <? 2 ^ i); discriminate. Qed.

Lemma last_cons {A} (a d : A) (l : list A) : l <> [] -> last (a :: l) d = last l d.
Proof. destruct l; [contradiction | reflexivity]. Qed.

Lemma run_sizes_from_last (max_samples : Z) :
  forall todo d,
    todo <> [] ->
    last (Notebook.run_sizes_from todo max_samples false) d =
    if existsb (fun i => max_samples <? 2 ^ i) todo then max_samples
    else 2 ^ last todo 0.
Proof.
  induction todo as [| i todo IH]; intros d Hne; [contradiction|].
  rewrite run_sizes_from_step. cbn [existsb].
  destruct (max_samples <? 2 ^ i) eqn:E; [reflexivity|]. cbn [orb].
  destruct todo as [| j todo']; [reflexivity|].
  rewrite last_cons by apply run_sizes_from_nonempty.
  rewrite (last_cons i 0 (j :: todo')) by discriminate.
  apply IH. discriminate.
Qed.

(** The sample sizes of the convergence runs: there is at least one run
    and at most fourteen; no run takes more samples than there are; the
    sizes never decrease; and the last run takes all the samples, or
    262144 of them when there are more. *)
Theorem convergence_run_sizes (max_samples : Z) :
  Notebook.run_sizes max_samples <> [] /\
  (List.length (Notebook.run_sizes max_samples) <= 14)%nat /\
  Forall (fun n => n <= max_samples) (Notebook.run_sizes max_samples) /\
  StronglySorted Z.le (Notebook.run_sizes max_samples) /\
  last (Notebook.run_sizes max_samples) 0 = Z.min max_samples 262144.
Proof.
  unfold Notebook.run_sizes. rewrite range_start_end.
  split; [| split; [| split; [| split]]].
  - rewrite run_sizes_from_step. destruct (max_samples <? 2 ^ 5); discriminate.
  - repeat (rewrite run_sizes_from_step;
            destruct (max_samples <? 2 ^ _); [simpl; lia|]).
    simpl. lia.
  - assert (H : forall todo,
               Forall (fun n => n <= max_samples)
                      (Notebook.run_sizes_from todo max_samples false)).
    { induction todo as [| i todo IH]; [constructor|].
      rewrite run_sizes_from_step. destruct (max_samples <? 2 ^ i) eqn:E.
      - repeat constructor. lia.
      - apply Z.ltb_ge in E. constructor; assumption. }
    apply H.
  - apply run_sizes_from_sorted.
    + repeat constructor.
    + repeat constructor; lia.
  - rewrite run_sizes_from_last by discriminate.
    change (2 ^ last [5; 6; 7; 8; 9; 10; 11; 12; 13; 14; 15; 16; 17; 18] 0) with 262144.
    destruct (existsb _ _) eqn:E.
    + apply existsb_exists in E. destruct E as (i & Hi & Hlt). apply Z.ltb_lt in Hlt.
      assert (2 ^ i <= 2 ^ 18).
      { apply Z.pow_le_mono_r; [lia|]. simpl in Hi. lia. }
      change (2 ^ 18) with 262144 in *. lia.
    + assert (Hge : (max_samples <? 2 ^ 18) = false).
      { cbn [existsb] in E.
        do 13 (apply orb_false_elim in E; destruct E as [_ E]).
        apply orb_false_elim in E. exact (proj1 E). }
      apply Z.ltb_ge in Hge. change (2 ^ 18) with 262144 in Hge. lia.
Qed.

(** When the number of samples is a power of two below 262144, the run
    with all the samples is made twice: once as the power of two, once as
    the final run. *)
Theorem convergence_repeats_a_power_of_two (k : Z) :
  5 <= k < 18 ->
  Notebook.run_sizes (2 ^ k) =
  map (fun i => 2 ^ i) (Notebook.range 5 (k + 1)) ++ [2 ^ k].
Proof.
  intros Hk.
  assert (H : k = 5 \/ k = 6 \/ k = 7 \/ k = 8 \/ k = 9 \/ k = 10 \/ k = 11 \/
              k = 12 \/ k = 13 \/ k = 14 \/ k = 15 \/ k = 16 \/ k = 17) by lia.
  repeat (destruct H as [-> | H]; [reflexivity|]). subst k. reflexivity.
Qed.

(** 64 samples: the sizes are 32, 64 and 64. *)
Lemma convergence_repeats_a_power_of_two_witness :
  Notebook.run_sizes (2 ^ 6) = [32; 64; 64].
Proof.
  apply (convergence_repeats_a_power_of_two 6). lia.
Defined.

(** ** No silent exit *)

Section Announced.
Context {Rng Tau Cdfs FileData Results : Type}.
Variable C : Collaborators Rng Tau Cdfs FileData Results.
Variable P : Platform.
Local Abbreviation Run := (Run Rng Results).

Lemma announced_bind {A B} (m : Run A) (f : A -> Run B) :
  announced m -> (forall a, announced (f a)) -> announced (bind m f).
Proof.
  intros Hm Hf. destruct (outcome m) as [h | a] eqn:E.
  - rewrite (bind_halted _ _ _ E). intros status Hs. unfold outcome in Hs. simpl in Hs.
    injection Hs as ->. exact (Hm status E).
  - rewrite (bind_value _ _ _ E). intros status Hs. unfold outcome in Hs. simpl in Hs.
    destruct (Hf a status Hs) as (pre & d & Ht). exists (trace m ++ pre), d.
    unfold trace at 1. simpl. rewrite Ht, app_assoc. reflexivity.
Qed.

Lemma announced_value {A} (t : list (Event Rng Results)) (a : A) : announced (t, inr a).
Proof. intros status H. discriminate H. Qed.

Lemma announced_raise {A} (t : list (Event Rng Results)) (e : PyException) :
  announced (A:=A) (t, inl (Uncaught e)).
Proof. intros status H. discriminate H. Qed.

Lemma announced_error_exit {A} (t : list (Event Rng Results)) (s : string) :
  announced (A:=A) (t, inl (ErrorExit s)).
Proof. intros status H. discriminate H. Qed.

Lemma announced_exit {A} (d : Diagnostic) (status : Z) :
  announced (A:=A) (bind (print (Rng:=Rng) (Results:=Results) d) (fun _ => sys_exit status)).
Proof. intros s H. exists [], d. reflexivity. Qed.

Ltac announced_tac :=
  repeat first
    [ apply announced_exit
    | apply announced_value | apply announced_raise | apply announced_error_exit
    | apply announced_bind; [| intros ?]
    | match goal with
      | |- announced (if ?b then _ else _) => destruct b
      | |- announced (match ?x with _ => _ end) => destruct x
      | |- announced (let (_, _) := ?x in _) => destruct x
      end ].

Lemma read_options_announced args :
  announced (read_options (Rng:=Rng) (Results:=Results) args).
Proof. unfold read_options. announced_tac. Qed.

Lemma prepare_announced args o : announced (prepare C P args o).
Proof. unfold prepare, output_location, check_sample_count. announced_tac. Qed.

Lemma load_announced su : announced (load C su).
Proof. unfold load. announced_tac. Qed.

Lemma compare_fields_announced header_list :
  forall todo i, announced (compare_fields C header_list i todo).
Proof.
  induction todo as [| f todo IH]; intros i; simpl.
  - announced_tac.
  - announced_tac. apply IH.
Qed.

Lemma check_header_announced : announced (check_header C).
Proof.
  unfold check_header. apply announced_bind; [announced_tac|]. intros _.
  apply compare_fields_announced.
Qed.

Lemma signal_processing_announced m : announced (signal_processing C m).
Proof. unfold signal_processing, py_assert, raise. announced_tac. Qed.

Lemma sparse_segment_loop_announced signal :
  forall todo st, announced (sparse_segment_loop C todo signal st).
Proof.
  induction todo as [| todo IH]; intros st.
  - announced_tac.
  - rewrite sparse_segment_loop_step. cbv zeta.
    destruct (Np.sub _ signal) as [d |]; [destruct (negb (Np.any d))|].
    + intros status E. destruct (IH _ status E) as (pre & d' & Ht).
      exists (repair_event C (loop_rng st) (fourier_array st) (delta_of (attempts st)) :: pre), d'.
      unfold trace at 1. cbn [fst]. rewrite Ht. reflexivity.
    + apply announced_value.
    + apply announced_raise.
Qed.

Lemma generate_announced o su m s st : announced (generate C o su m s st).
Proof.
  destruct (synthetic_timeseries st) as [ts |] eqn:Ets.
  - pose proof (generate_cases C o su m s st ts Ets) as H. cbv zeta in H.
    destruct (fst (fst (copula_n_variable_model C _ _ _ _ _))); rewrite H.
    + apply announced_value.
    + intros status _. eexists [_; _], _. reflexivity.
  - rewrite (generate_unbound C o su m s st Ets). apply announced_raise.
Qed.

(** The command-line driver never exits silently: when a run ends with
    [sys.exit], the last thing it did was to print a line that says
    why. *)
Theorem no_silent_exit (args : Args) (status : Z) :
  outcome (main C P args) = inl (SysExit status) ->
  exists pre d, trace (main C P args) = pre ++ [Print d].
Proof.
  revert status. change (announced (main C P args)). unfold main.
  apply announced_bind; [apply read_options_announced | intros o].
  apply announced_bind; [apply prepare_announced | intros su].
  apply announced_bind; [apply load_announced | intros m].
  apply announced_bind; [apply check_header_announced | intros _].
  apply announced_bind; [apply signal_processing_announced | intros s].
  apply announced_bind; [apply sparse_segment_loop_announced | intros st].
  apply generate_announced.
Qed.
End Announced.

(** A run that is refused its output path. *)
Lemma no_silent_exit_witness :
  outcome (main (Reference.collaborators Reference.lyme) (Reference.platform 1)
                (Reference.args "CT" (Some "out/a.xcsv") None None)) = inl (SysExit (-1)) /\
  exists pre d,
    trace (main (Reference.collaborators Reference.lyme) (Reference.platform 1)
                (Reference.args "CT" (Some "out/a.xcsv") None None)) = pre ++ [Print d].
Proof.
  split; [reflexivity|].
  apply (no_silent_exit (Reference.collaborators Reference.lyme) (Reference.platform 1)
           (Reference.args "CT" (Some "out/a.xcsv") None None) (-1)).
  reflexivity.
Defined.

(** ** The attempts of the sparse-segment loop *)

(** The values of [delta] at the first attempts. *)
Lemma deltas_of_attempts (n : nat) :
  (n < 7)%nat ->
  map (fun k => delta_of (0 + Z.of_nat k)) (seq 0 (S n)) =
  firstn (S n)
    [0%float; 0x1.999999999999ap-4%float; 0x1.999999999999ap-3%float;
     0x1.3333333333334p-2%float; 0x1.999999999999ap-2%float; 0.5%float;
     0x1.3333333333334p-1%float].
Proof.
  intros Hn.
  do 7 (destruct n as [| n]; [reflexivity|]). lia.
Qed.

(** What numpy's subtraction asks of the two lengths. *)
Lemma sub_lengths (a b d : Signal) :
  Np.sub a b = Some d ->
  List.length a = List.length b \/ List.length a = 1%nat \/ List.length b = 1%nat.
Proof.
  unfold Np.sub. destruct (List.length a =? List.length b)%nat eqn:E.
  - apply Nat.eqb_eq in E. auto.
  - destruct a as [| x [| x' a]]; [| auto |]; destruct b as [| y [| y' b]];
      intros H; first [discriminate H | auto].
Qed.

Section Attempts.
Context {Rng Tau Cdfs FileData Results : Type}.
Variable C : Collaborators Rng Tau Cdfs FileData Results.

Lemma repair_delta_attempt (st : Rng * Signal) (first : Z) (k : nat) :
  repair_delta (attempt_event (Results:=Results) C st first k) =
  Some (delta_of (first + Z.of_nat k)).
Proof. reflexivity. Qed.

Lemma repair_result_attempt (st : Rng * Signal) (first : Z) (k : nat) :
  repair_result (attempt_event (Results:=Results) C st first k) =
  Some (repaired (attempt_out C st first k)).
Proof. reflexivity. Qed.

End Attempts.

(** C2: the sparse-segment loop makes at least one and at most 7
    attempts; attempt [k] calls the repairer with [delta = k * 0.1] in
    binary64 arithmetic: 0, 0.1, 0.2, 0.30000000000000004, 0.4, 0.5 and
    0.6000000000000001; every attempt before the last returned a result
    whose difference from the signal is identically zero, and the loop
    accepts the first result whose difference is not, or the seventh.
    Lines 377-384 test no length: a result that numpy cannot subtract
    from the signal raises [ValueError], and one it can subtract is as
    long as the signal unless one of the two has length 1.  When all
    seven attempts return the signal itself, the loop ends without an
    error after the seventh and the run goes on with the signal, every
    result being as long as the signal. *)
Theorem sparse_repair_escalation {Rng Tau Cdfs FileData Results : Type}
        (C : Collaborators Rng Tau Cdfs FileData Results) (s : Series) :
  exists n : nat,
    (n < 7)%nat /\
    List.length (trace (modify_sparse C s)) = S n /\
    map repair_delta (trace (modify_sparse C s)) =
      map Some
          (firstn (S n)
             [0%float; 0x1.999999999999ap-4%float; 0x1.999999999999ap-3%float;
              0x1.3333333333334p-2%float; 0x1.999999999999ap-2%float; 0.5%float;
              0x1.3333333333334p-1%float]) /\
    map repair_result (trace (modify_sparse C s)) =
      map (fun k => Some (repaired (attempt_out C (rng2 s, synthetic_fourier s) 0 k)))
          (seq 0 (S n)) /\
    (forall k, (k < n)%nat ->
       no_difference (repaired (attempt_out C (rng2 s, synthetic_fourier s) 0 k))
                     (signal s) = true) /\
    match Np.sub (repaired (attempt_out C (rng2 s, synthetic_fourier s) 0 n)) (signal s) with
    | None => outcome (modify_sparse C s) = inl (Uncaught ValueError)
    | Some diff_signal =>
        (Np.any diff_signal = true \/ n = 6%nat) /\
        exists st,
          outcome (modify_sparse C s) = inr st /\
          synthetic_timeseries st =
            Some (repaired (attempt_out C (rng2 s, synthetic_fourier s) 0 n))
    end /\
    (forall k diff_signal,
       Np.sub (repaired (attempt_out C (rng2 s, synthetic_fourier s) 0 k)) (signal s) =
         Some diff_signal ->
       List.length (repaired (attempt_out C (rng2 s, synthetic_fourier s) 0 k)) =
         List.length (signal s) \/
       List.length (repaired (attempt_out C (rng2 s, synthetic_fourier s) 0 k)) = 1%nat \/
       List.length (signal s) = 1%nat) /\
    ((forall k, (k < 7)%nat ->
        repaired (attempt_out C (rng2 s, synthetic_fourier s) 0 k) = signal s) ->
     n = 6%nat /\
     Forall (fun e => exists result,
                 repair_result e = Some result /\ result = signal s /\
                 List.length result = List.length (signal s))
            (trace (modify_sparse C s)) /\
     exists st,
       outcome (modify_sparse C s) = inr st /\
       synthetic_timeseries st = Some (signal s)).
Proof.
  unfold modify_sparse.
  destruct (sparse_segment_loop_chain C (signal s) 6
              {| attempts := 0; fourier_array := synthetic_fourier s;
                 synthetic_timeseries := None; loop_rng := rng2 s |})
    as (n & Hn & Ht & Hk & Hend).
  cbn [attempts fourier_array loop_rng] in Ht, Hk, Hend.
  set (st0 := (rng2 s, synthetic_fourier s)) in *.
  exists n. split; [lia|].
  split; [rewrite Ht, length_map, length_seq; reflexivity|].
  split.
  { rewrite Ht, map_map, <- (deltas_of_attempts n) by lia. rewrite map_map.
    apply map_ext. intros k. apply repair_delta_attempt. }
  split.
  { rewrite Ht, map_map. apply map_ext. intros k. apply repair_result_attempt. }
  split; [exact Hk|].
  unfold loop_end in Hend. cbv zeta in Hend.
  split.
  { destruct (Np.sub (repaired (attempt_out C st0 0 n)) (signal s)) as [d |];
      [| exact Hend].
    destruct Hend as [Hlast Ho]. split.
    - destruct (Np.any d); [left; reflexivity | right; apply Hlast; reflexivity].
    - eexists. split; [exact Ho | reflexivity]. }
  split; [intros k d; apply sub_lengths|].
  intros Hsame.
  assert (Hres : forall k, (k < 7)%nat ->
             Np.sub (repaired (attempt_out C st0 0 k)) (signal s) =
               Some (map (fun p => fst p - snd p) (combine (signal s) (signal s))) /\
             Np.any (map (fun p => fst p - snd p) (combine (signal s) (signal s))) = false).
  { intros k Hk7. rewrite (Hsame k Hk7). split; [apply sub_same_length; reflexivity|].
    apply any_diff_false; reflexivity. }
  destruct (Hres n ltac:(lia)) as [Hsub Hany]. rewrite Hsub in Hend.
  destruct Hend as [Hlast Ho]. specialize (Hlast Hany).
  split; [exact Hlast|]. split.
  - rewrite Ht. apply Forall_forall. intros e He. apply in_map_iff in He.
    destruct He as (k & <- & Hin). apply in_seq in Hin.
    exists (repaired (attempt_out C st0 0 k)).
    rewrite (Hsame k) by lia. split; [| split; reflexivity].
    rewrite repair_result_attempt. f_equal. apply Hsame. lia.
  - eexists. split; [exact Ho|]. cbn [synthetic_timeseries]. f_equal. apply Hsame. lia.
Qed.

(** The loop on a series without a case: seven attempts, all of which
    return the signal. *)
Lemma sparse_repair_escalation_witness :
  List.length (trace (modify_sparse (Reference.collaborators Reference.quiet)
                                    quiet_series)) = 7%nat /\
  map repair_delta (trace (modify_sparse (Reference.collaborators Reference.quiet)
                                         quiet_series)) =
    map Some [0%float; 0x1.999999999999ap-4%float; 0x1.999999999999ap-3%float;
              0x1.3333333333334p-2%float; 0x1.999999999999ap-2%float; 0.5%float;
              0x1.3333333333334p-1%float] /\
  exists st,
    outcome (modify_sparse (Reference.collaborators Reference.quiet) quiet_series) = inr st /\
    synthetic_timeseries st = Some [0; 0; 0].
Proof.
  destruct (sparse_repair_escalation (Reference.collaborators Reference.quiet) quiet_series)
    as (n & Hn & Hlen & Hdel & _ & _ & _ & _ & Hall).
  destruct Hall as (-> & _ & Hst).
  { intros k Hk. do 7 (destruct k as [| k]; [reflexivity|]). lia. }
  split; [exact Hlen|]. split; [exact Hdel | exact Hst].
Defined.



